(** * Soil quality sensor firmware (src/main.cpp): a shallow embedding

    The firmware is an Arduino/FreeRTOS program: [setup] initialises the
    power-management chip (AXP192), associates to Wi-Fi and creates two tasks,
    [MQTTTask] (telemetry) and [PEKTask] (power button).  Every call into a
    vendor library is an observable event; its answer is supplied by an
    environment that may depend on the whole history of events.  Calls that
    do not return (deep sleep, power-off, the [while(1);] halt of [setup])
    end a run with a [Stop] outcome.  Loops of the source that may run
    forever are given a fuel argument. *)

From Stdlib Require Import ZArith QArith List String Ascii Bool Lia.
Import ListNotations.

Local Open Scope string_scope.
Local Open Scope Z_scope.

(** ** Text produced by [sprintf] and [Serial.print] *)

Module Text.

Definition digit (n : Z) : ascii := ascii_of_nat (48 + Z.to_nat (n mod 10)).

Definition is_digit (c : ascii) : bool :=
  let n := nat_of_ascii c in (48 <=? n)%nat && (n <=? 57)%nat.

Fixpoint all_digits (s : string) : bool :=
  match s with
  | EmptyString => true
  | String c r => is_digit c && all_digits r
  end.

(** Decimal digits of a non-negative integer, most significant first, no
    leading zero except for 0 itself (what [%lu] and [Serial.print(int)]
    write). *)
Fixpoint dec_fuel (fuel : nat) (n : Z) (acc : string) : string :=
  match fuel with
  | O => acc
  | S f =>
      let acc' := String (digit n) acc in
      if n / 10 =? 0 then acc' else dec_fuel f (n / 10) acc'
  end.

Definition dec (n : Z) : string := dec_fuel (S (Z.to_nat (Z.log2 n))) n "".

(** [Serial.print(int)]: a minus sign, then the magnitude. *)
Definition dec_signed (n : Z) : string :=
  if n <? 0 then String "-" (dec (- n)) else dec n.

(** Exactly [p] digits of [n], zero-padded on the left. *)
Fixpoint fixed_digits (p : nat) (n : Z) : string :=
  match p with
  | O => ""
  | S p' => fixed_digits p' (n / 10) ++ String (digit n) ""
  end.

Fixpoint spaces (n : nat) : string :=
  match n with
  | O => ""
  | S k => String " " (spaces k)
  end.

(** Right-alignment in a field of minimum width [w] (printf's default). *)
Definition lpad (w : nat) (s : string) : string :=
  spaces (w - String.length s) ++ s.

End Text.

(** ** Single-precision arithmetic

    A finite [float] is represented by its exact rational value.  The
    operations of the source ([long] divided by [100.0f], [float] divided by
    [1000.0f]) round the exact quotient to the nearest binary32 value, ties to
    even.  Overflow to infinity is not represented: every quotient of the
    source is far below [FLT_MAX]. *)

Module F32.

(** Round-half-even of [n / d] to an integer, for [0 <= n] and [0 < d]. *)
Definition rne_div (n d : Z) : Z :=
  let q := n / d in
  let r := n mod d in
  if 2 * r <? d then q
  else if d <? 2 * r then q + 1
  else if Z.even q then q else q + 1.

(** [floor (log2 (n / d))] for [0 < n] and [0 < d]. *)
Definition ilog2_ratio (n d : Z) : Z :=
  let l := Z.log2 n - Z.log2 d in
  let ge := if 0 <=? l then d * 2 ^ l <=? n else d <=? n * 2 ^ (- l) in
  if ge then l else l - 1.

(** The value [m * 2^e] as a rational in lowest terms. *)
Definition ldexp (m e : Z) : Q :=
  Qred (if 0 <=? e then inject_Z (m * 2 ^ e) else Qmake m (Z.to_pos (2 ^ (- e)))).

(** Nearest binary32 to [n / d] for [0 < n], [0 < d]: a 24-bit significand,
    exponent not below that of the subnormals. *)
Definition round_pos (n d : Z) : Q :=
  let e := Z.max (ilog2_ratio n d - 23) (-149) in
  let m := if 0 <=? e then rne_div n (d * 2 ^ e) else rne_div (n * 2 ^ (- e)) d in
  ldexp m e.

Definition round (x : Q) : Q :=
  let n := Qnum x in
  let d := Z.pos (Qden x) in
  if n =? 0 then 0%Q
  else if 0 <? n then round_pos n d
  else Qopp (round_pos (- n) d).

(** [(float) n] for a [long] *)
Definition of_Z (n : Z) : Q := round (inject_Z n).

(** [a / b] in single precision *)
Definition div (a b : Q) : Q := round (Qdiv a b).

End F32.

(** ** [printf]'s [%W.Pf] conversion

    The argument is promoted to [double] (exactly), rounded to [p] decimals
    (half to even on the exact value), written as integer part, point and [p]
    digits, and right-aligned in [w] columns. *)

Module Printf.
Import Text.

Definition scaled (p : nat) (x : Q) : Z :=
  let n := Z.abs (Qnum x) in
  F32.rne_div (n * 10 ^ Z.of_nat p) (Z.pos (Qden x)).

Definition fixed_body (p : nat) (x : Q) : string :=
  let k := scaled p x in
  let sign := if Qnum x <? 0 then "-" else "" in
  let ip := dec (k / 10 ^ Z.of_nat p) in
  match p with
  | O => sign ++ ip
  | _ => sign ++ ip ++ "." ++ fixed_digits p (k mod 10 ^ Z.of_nat p)
  end.

Definition fmt_f (w p : nat) (x : Q) : string := lpad w (fixed_body p x).

(** [%lu] *)
Definition fmt_lu (n : Z) : string := dec n.

End Printf.



(** ** Events, environment and machine state *)

(** The two FreeRTOS tasks: [MQTTTask] and [PEKTask]. *)
Inductive Task := TelemetryTask | PowerTask.

(** [wl_status_t] of the Arduino Wi-Fi library *)
Inductive wl_status_t :=
| WL_NO_SHIELD | WL_IDLE_STATUS | WL_NO_SSID_AVAIL | WL_SCAN_COMPLETED
| WL_CONNECTED | WL_CONNECT_FAILED | WL_CONNECTION_LOST | WL_DISCONNECTED.

Definition wl_status_eqb (a b : wl_status_t) : bool :=
  match a, b with
  | WL_NO_SHIELD, WL_NO_SHIELD | WL_IDLE_STATUS, WL_IDLE_STATUS
  | WL_NO_SSID_AVAIL, WL_NO_SSID_AVAIL | WL_SCAN_COMPLETED, WL_SCAN_COMPLETED
  | WL_CONNECTED, WL_CONNECTED | WL_CONNECT_FAILED, WL_CONNECT_FAILED
  | WL_CONNECTION_LOST, WL_CONNECTION_LOST | WL_DISCONNECTED, WL_DISCONNECTED => true
  | _, _ => false
  end.

(** Power rails switched by [axp.setPowerOutPut] *)
Inductive Rail := AXP192_LDO2 | AXP192_LDO3.

(** One constructor per library call of the source, with its arguments and,
    where it has one, its result.  [pekPressed] is [volatile]: its accesses
    are events too.  [ev_IRQ] is a run of the interrupt handler. *)
Inductive Event :=
| ev_Serial_begin (baud : Z)
| ev_Serial_print (s : string)
| ev_Serial_println (s : string)
| ev_Wire_begin (sda scl : Z)
| ev_axp_begin (rc : Z)
| ev_axp_setPowerOutPut (ch : Rail) (on : bool)
| ev_axp_adc1Enable
| ev_axp_clearIRQ
| ev_axp_enableIRQ
| ev_axp_readIRQ
| ev_axp_isPEKLongtPressIRQ (b : bool)
| ev_axp_shutdown
| ev_axp_getBattVoltage (mv : Q)
| ev_pinMode (pin : Z) (output : bool)
| ev_attachInterrupt (pin : Z)
| ev_digitalWrite (pin : Z) (level : bool)
| ev_digitalRead (pin : Z) (level : bool)
| ev_esp_sleep_enable_ext0_wakeup (pin level : Z)
| ev_esp_sleep_enable_timer_wakeup (us : Z)
| ev_esp_deep_sleep_start
| ev_WiFi_mode_STA
| ev_WiFi_disconnect
| ev_WiFi_begin (ssid password : string)
| ev_WiFi_status (st : wl_status_t)
| ev_WiFi_localIP (ip : string)
| ev_delay (ms : Z)
| ev_vTaskDelay (ms : Z)
| ev_OTA_setHostname (s : string)
| ev_OTA_setPassword (s : string)
| ev_OTA_callbacks
| ev_OTA_begin
| ev_OTA_handle
| ev_setCACert
| ev_mqtt_setServer (host : string) (port : Z)
| ev_mqtt_connected (b : bool)
| ev_mqtt_connect (id token : string) (ok : bool)
| ev_mqtt_state (rc : Z)
| ev_mqtt_loop
| ev_mqtt_publish (topic payload : string) (ok : bool)
| ev_random (lo hi r : Z)
| ev_xSemaphoreCreateMutex
| ev_xSemaphoreTake (t : Task)
| ev_xSemaphoreGive (t : Task)
| ev_xTaskCreatePinnedToCore (t : Task) (stack prio core : Z)
| ev_pekPressed_read (b : bool)
| ev_pekPressed_write (b : bool)
| ev_IRQ.

(** The answers of the outside world.  Each may depend on everything that
    happened before the call. *)
Record Env := {
  env_axp_begin : list Event -> Z;
  env_longPress : list Event -> bool;
  env_battVoltage : list Event -> Q;
  env_irq_pin : list Event -> bool;
  env_irq_fires : list Event -> bool;
  env_wifi_status : list Event -> wl_status_t;
  env_localIP : list Event -> string;
  env_mqtt_connected : list Event -> bool;
  env_mqtt_connect : list Event -> bool;
  env_mqtt_state : list Event -> Z;
  env_mqtt_publish : list Event -> string -> string -> bool;
  env_random : list Event -> Z
}.

(** The globals of the source, the owner of the console mutex, and the events
    so far.  [bootCount] is a [uint32_t] kept in RTC memory. *)
Record State := {
  bootCount : Z;
  ledState : bool;
  pekPressed : bool;
  serial_owner : option Task;
  history : list Event
}.

Definition uint32 (n : Z) : Z := n mod 2 ^ 32.

Definition set_bootCount (n : Z) (s : State) : State :=
  {| bootCount := n; ledState := ledState s; pekPressed := pekPressed s;
     serial_owner := serial_owner s; history := history s |}.
Definition set_ledState (b : bool) (s : State) : State :=
  {| bootCount := bootCount s; ledState := b; pekPressed := pekPressed s;
     serial_owner := serial_owner s; history := history s |}.
Definition set_pekPressed (b : bool) (s : State) : State :=
  {| bootCount := bootCount s; ledState := ledState s; pekPressed := b;
     serial_owner := serial_owner s; history := history s |}.
Definition set_serial_owner (o : option Task) (s : State) : State :=
  {| bootCount := bootCount s; ledState := ledState s; pekPressed := pekPressed s;
     serial_owner := o; history := history s |}.
Definition log (e : Event) (s : State) : State :=
  {| bootCount := bootCount s; ledState := ledState s; pekPressed := pekPressed s;
     serial_owner := serial_owner s; history := (history s ++ [e])%list |}.

(** The globals as the C++ initialisers leave them at power-on. *)
Definition power_on : State :=
  {| bootCount := 1; ledState := false; pekPressed := false;
     serial_owner := None; history := [] |}.

(** Waking from deep sleep restarts the program: ordinary globals are
    initialised again, RTC memory ([bootCount]) is retained. *)
Definition wake (s : State) : State :=
  {| bootCount := bootCount s; ledState := false; pekPressed := false;
     serial_owner := None; history := history s |}.

(** ** The monad of firmware code *)

(** Calls that never return. *)
Inductive Halt := DeepSleep | PowerOff | Hang.

Inductive Outcome (A : Type) :=
| Done (a : A) (s : State)
| Stop (h : Halt) (s : State)
| OutOfFuel (s : State).
Arguments Done {A} a s.
Arguments Stop {A} h s.
Arguments OutOfFuel {A} s.

Definition final {A} (o : Outcome A) : State :=
  match o with Done _ s | Stop _ s | OutOfFuel s => s end.

Definition M (A : Type) := State -> Outcome A.

Definition ret {A} (a : A) : M A := fun s => Done a s.

Definition bind {A B} (m : M A) (k : A -> M B) : M B :=
  fun s => match m s with
           | Done a s' => k a s'
           | Stop h s' => Stop h s'
           | OutOfFuel s' => OutOfFuel s'
           end.

Declare Scope fw_scope.
Delimit Scope fw_scope with fw.
Notation "x <- m ;; k" := (bind m (fun x => k))
  (at level 100, m at next level, right associativity) : fw_scope.
Notation "m ;; k" := (bind m (fun _ => k))
  (at level 100, right associativity) : fw_scope.
Local Open Scope fw_scope.

Definition emit (e : Event) : M unit := fun s => Done tt (log e s).
Definition stop {A} (h : Halt) : M A := fun s => Stop h s.
Definition out_of_fuel {A} : M A := fun s => OutOfFuel s.
Definition get {A} (f : State -> A) : M A := fun s => Done (f s) s.
Definition modify (f : State -> State) : M unit := fun s => Done tt (f s).

(** A call whose answer comes from the environment. *)
Definition call {A} (answer : list Event -> A) (ev : A -> Event) : M A :=
  fun s => let a := answer (history s) in Done a (log (ev a) s).

Definition when (b : bool) (m : M unit) : M unit := if b then m else ret tt.

(** [while (cond) body], at most [fuel] iterations *)
Fixpoint while (fuel : nat) (cond : M bool) (body : M unit) : M unit :=
  c <- cond ;;
  if c then
    match fuel with
    | O => out_of_fuel
    | S f => body ;; while f cond body
    end
  else ret tt.

(** [while (true) body] *)
Fixpoint forever (fuel : nat) (body : M unit) : M unit :=
  match fuel with
  | O => out_of_fuel
  | S f => body ;; forever f body
  end.

(** ** Macros and constants of the source *)

Definition LED_PIN : Z := 4.
Definition BUTTON_PIN : Z := 38.
Definition SDA_PIN : Z := 21.
Definition SCL_PIN : Z := 22.
Definition PMU_IRQ_PIN : Z := 35.

Definition ssid : string := "".
Definition password : string := "".
Definition mqtt_server : string := "srv-iot.diatel.upm.es".
Definition mqtt_port : Z := 8883.
Definition mqttTopicPub : string := "v1/devices/me/telemetry".
Definition mqttTopicSub : string := "v1/devices/me/attributes".
Definition access_token : string := "".
Definition SLEEP_DURATION_US : Z := (30 * 1000000) mod 2 ^ 64.

(** ** [sprintf] with the conversions the source uses *)

Inductive Piece :=
| Lit (s : string)
| Conv_lu
| Conv_f (w p : nat).

Inductive Arg :=
| ArgU (n : Z)
| ArgF (x : Q).

Fixpoint sprintf (fmt : list Piece) (args : list Arg) : string :=
  match fmt with
  | [] => ""
  | Lit s :: fmt' => s ++ sprintf fmt' args
  | Conv_lu :: fmt' =>
      match args with
      | ArgU n :: args' => Printf.fmt_lu n ++ sprintf fmt' args'
      | _ => ""
      end
  | Conv_f w p :: fmt' =>
      match args with
      | ArgF x :: args' => Printf.fmt_f w p x ++ sprintf fmt' args'
      | _ => ""
      end
  end.

(** A name between double quotes, as [\"name\"] in a C string. *)
Definition quoted (s : string) : string :=
  String "034"%char (s ++ String "034"%char "").

(** The format string of line 164. *)
Definition dataStr_format : list Piece :=
  [ Lit ("{" ++ quoted "bootCnt" ++ ":"); Conv_lu;
    Lit ("," ++ quoted "soilTemperature" ++ ":"); Conv_f 4 2;
    Lit ("," ++ quoted "soilMoisture" ++ ":"); Conv_f 5 2;
    Lit ("," ++ quoted "batVoltage" ++ ":"); Conv_f 4 3;
    Lit "}" ].

Definition dataStr (bc : Z) (soilTemp soilMoist batVolt : Q) : string :=
  sprintf dataStr_format [ArgU bc; ArgF soilTemp; ArgF soilMoist; ArgF batVolt].

(** ** The firmware *)

Section Firmware.

Variable env : Env.

Definition Debug (s : string) : M unit := emit (ev_Serial_print s).
Definition Debugln (s : string) : M unit := emit (ev_Serial_println s).

(** The interrupt service routine (lines 85-87). *)
Definition handlePMUIRQ : M unit :=
  emit ev_IRQ ;; modify (set_pekPressed true).

(** The handler runs asynchronously.  Code can notice it only through
    [pekPressed], so an interrupt that the environment raised since the last
    read is taken just before the next read of the flag. *)
Definition pending_interrupt : M unit :=
  fun s => if env_irq_fires env (history s) then handlePMUIRQ s else Done tt s.

(** [vTaskDelay(pdMS_TO_TICKS(ms))] and [delay(ms)] *)
Definition vTaskDelay (ms : Z) : M unit := emit (ev_vTaskDelay ms).
Definition delay (ms : Z) : M unit := emit (ev_delay ms).

(** [xSemaphoreTake(semaphoreSerial, portMAX_DELAY)]: with an unbounded wait
    the call returns only once the mutex is obtained, with [pdTRUE]. *)
Definition xSemaphoreTake (t : Task) : M bool :=
  emit (ev_xSemaphoreTake t) ;; modify (set_serial_owner (Some t)) ;; ret true.

Definition xSemaphoreGive (t : Task) : M unit :=
  emit (ev_xSemaphoreGive t) ;; modify (set_serial_owner None).

(** Arduino's [random(min, max)]: a value in [[min, max)], [min] when the
    range is empty. *)
Definition random (lo hi : Z) : M Z :=
  call (fun h => if hi <=? lo then lo else lo + env_random env h mod (hi - lo))
       (ev_random lo hi).

(** [axp.getBattVoltage()]: the battery voltage in millivolts, a [float]. *)
Definition axp_getBattVoltage : M Q :=
  call (fun h => F32.round (env_battVoltage env h)) ev_axp_getBattVoltage.

Definition mqttClient_connected : M bool :=
  call (env_mqtt_connected env) ev_mqtt_connected.
Definition mqttClient_connect (id token : string) : M bool :=
  call (env_mqtt_connect env) (ev_mqtt_connect id token).
Definition mqttClient_state : M Z :=
  call (env_mqtt_state env) ev_mqtt_state.
Definition mqttClient_publish (topic payload : string) : M bool :=
  call (fun h => env_mqtt_publish env h topic payload) (ev_mqtt_publish topic payload).
Definition WiFi_status : M wl_status_t :=
  call (env_wifi_status env) ev_WiFi_status.
Definition WiFi_localIP : M string :=
  call (env_localIP env) ev_WiFi_localIP.
Definition digitalRead (pin : Z) : M bool :=
  call (env_irq_pin env) (ev_digitalRead pin).
Definition digitalWrite (pin : Z) (level : bool) : M unit :=
  emit (ev_digitalWrite pin level).
Definition axp_begin : M Z := call (env_axp_begin env) ev_axp_begin.
Definition axp_readIRQ : M unit := emit ev_axp_readIRQ.
Definition axp_isPEKLongtPressIRQ : M bool :=
  call (env_longPress env) ev_axp_isPEKLongtPressIRQ.
Definition axp_clearIRQ : M unit := emit ev_axp_clearIRQ.

(** Modelled from the spec: the power-off command of the AXP192 driver, whose
    code is not part of the repository, is "an unconditional, non-returning
    power-off command". *)
Definition axp_shutdown : M unit := emit ev_axp_shutdown ;; stop PowerOff.

(** [esp_deep_sleep_start()] does not return. *)
Definition esp_deep_sleep_start : M unit := emit ev_esp_deep_sleep_start ;; stop DeepSleep.

Definition read_pekPressed : M bool :=
  pending_interrupt ;;
  b <- get pekPressed ;; emit (ev_pekPressed_read b) ;; ret b.
Definition write_pekPressed (b : bool) : M unit :=
  emit (ev_pekPressed_write b) ;; modify (set_pekPressed b).

(** *** [reconnectToMQTT] (lines 335-358) *)

Definition reconnect_attempt : M unit :=
  b <- xSemaphoreTake TelemetryTask ;;
  when b (Debug "Attempting MQTT connection..." ;;
          xSemaphoreGive TelemetryTask) ;;
  ok <- mqttClient_connect "soil_quaity_sensor" access_token ;;
  if ok then
    b <- xSemaphoreTake TelemetryTask ;;
    when b (Debugln "connected" ;;
            xSemaphoreGive TelemetryTask)
  else
    b <- xSemaphoreTake TelemetryTask ;;
    when b (Debug "failed, rc=" ;;
            rc <- mqttClient_state ;;
            Debug (Text.dec_signed rc) ;;
            Debugln " try again in 5 seconds" ;;
            xSemaphoreGive TelemetryTask) ;;
    vTaskDelay 5000.

Definition reconnectToMQTT (fuel : nat) : M unit :=
  while fuel (c <- mqttClient_connected ;; ret (negb c)) reconnect_attempt.

(** *** [MQTTTask] (lines 113-188) *)

(** Lines 124-155: association to Wi-Fi inside the task. *)
Definition wifi_reassociate (fuel : nat) : M unit :=
  b <- xSemaphoreTake TelemetryTask ;;
  when b (Debug "Connecting to WIFI SSID " ;;
          Debugln ssid ;;
          xSemaphoreGive TelemetryTask) ;;
  emit ev_WiFi_mode_STA ;;
  emit ev_WiFi_disconnect ;;
  vTaskDelay 100 ;;
  emit (ev_WiFi_begin ssid password) ;;
  while fuel (st <- WiFi_status ;; ret (negb (wl_status_eqb st WL_CONNECTED)))
    (vTaskDelay 500 ;;
     b <- xSemaphoreTake TelemetryTask ;;
     when b (Debug "." ;;
             xSemaphoreGive TelemetryTask) ;;
     modify (fun s => set_ledState (negb (ledState s)) s) ;;
     l <- get ledState ;;
     digitalWrite LED_PIN l) ;;
  b <- xSemaphoreTake TelemetryTask ;;
  when b (Debugln "" ;;
          Debug "WiFi connected, IP address: " ;;
          ip <- WiFi_localIP ;;
          Debugln ip ;;
          xSemaphoreGive TelemetryTask) ;;
  l <- get ledState ;;
  when l (digitalWrite LED_PIN false).

(** Lines 159-182: build one record, publish it once. *)
Definition mqtt_pub : M unit :=
  r1 <- random 1000 4500 ;;
  let soilTemp := F32.div (F32.of_Z r1) 100 in
  r2 <- random 0 10000 ;;
  let soilMoist := F32.div (F32.of_Z r2) 100 in
  mv <- axp_getBattVoltage ;;
  let batVolt := F32.div mv 1000 in
  bc <- get bootCount ;;
  let payload := dataStr bc soilTemp soilMoist batVolt in
  ok <- mqttClient_publish mqttTopicPub payload ;;
  if ok then
    b <- xSemaphoreTake TelemetryTask ;;
    when b (Debugln payload ;;
            Debugln "Going to sleep until next TX..." ;;
            xSemaphoreGive TelemetryTask) ;;
    modify (fun s => set_bootCount (uint32 (bootCount s + 1)) s) ;;
    emit (ev_esp_sleep_enable_timer_wakeup SLEEP_DURATION_US) ;;
    esp_deep_sleep_start
  else
    b <- xSemaphoreTake TelemetryTask ;;
    when b (Debugln "Failed to publish data" ;;
            xSemaphoreGive TelemetryTask).

(** One iteration of the task's [while(true)]. *)
Definition MQTTTask_iteration (fuel : nat) : M unit :=
  emit ev_OTA_handle ;;
  c <- mqttClient_connected ;;
  when (negb c) (reconnectToMQTT fuel) ;;
  emit ev_mqtt_loop ;;
  st <- WiFi_status ;;
  (if negb (wl_status_eqb st WL_CONNECTED)
   then wifi_reassociate fuel
   else mqtt_pub) ;;
  vTaskDelay 100.

Definition MQTTTask (fuel : nat) : M unit :=
  forever fuel (MQTTTask_iteration fuel).

(** *** [PEKTask] (lines 191-211) *)

Definition PEKTask_iteration : M unit :=
  p <- read_pekPressed ;;
  when p (write_pekPressed false ;;
          axp_readIRQ ;;
          lp <- axp_isPEKLongtPressIRQ ;;
          when lp (b <- xSemaphoreTake PowerTask ;;
                   when b (Debugln "Long press detected: Shutting down..." ;;
                           xSemaphoreGive PowerTask) ;;
                   vTaskDelay 100 ;;
                   axp_shutdown) ;;
          axp_clearIRQ) ;;
  vTaskDelay 100.

Definition PEKTask (fuel : nat) : M unit :=
  forever fuel PEKTask_iteration.

(** *** [setupOTA] (lines 362-395) and [setup] (lines 217-320) *)

Definition setupOTA : M unit :=
  emit (ev_OTA_setHostname "soil-quality-sensor") ;;
  emit (ev_OTA_setPassword "pw0123") ;;
  emit ev_OTA_callbacks ;;
  emit ev_OTA_begin ;;
  Debugln "OTA service started!".

Definition setup (fuel : nat) : M unit :=
  emit (ev_Serial_begin 115200) ;;
  Debugln "Soil Quality Sensor Beta" ;;
  emit (ev_Wire_begin SDA_PIN SCL_PIN) ;;
  rc <- axp_begin ;;
  (if negb (rc =? 0)
   then Debugln "AXP192 not detected!" ;; stop Hang
   else Debugln "AXP192 detected") ;;
  emit (ev_axp_setPowerOutPut AXP192_LDO2 false) ;;
  emit (ev_axp_setPowerOutPut AXP192_LDO3 false) ;;
  Debugln "GPS and LoRa powered off" ;;
  emit ev_axp_adc1Enable ;;
  emit (ev_pinMode PMU_IRQ_PIN false) ;;
  axp_clearIRQ ;;
  emit ev_axp_enableIRQ ;;
  emit (ev_attachInterrupt PMU_IRQ_PIN) ;;
  emit (ev_pinMode LED_PIN true) ;;
  l <- get ledState ;;
  digitalWrite LED_PIN l ;;
  emit (ev_esp_sleep_enable_ext0_wakeup BUTTON_PIN 0) ;;
  Debug "Connecting to WIFI SSID " ;;
  Debugln ssid ;;
  emit ev_WiFi_mode_STA ;;
  emit ev_WiFi_disconnect ;;
  delay 100 ;;
  emit (ev_WiFi_begin ssid password) ;;
  while fuel (st <- WiFi_status ;; ret (negb (wl_status_eqb st WL_CONNECTED)))
    (delay 500 ;;
     Debug "." ;;
     modify (fun s => set_ledState (negb (ledState s)) s) ;;
     l <- get ledState ;;
     digitalWrite LED_PIN l ;;
     level <- digitalRead PMU_IRQ_PIN ;;
     when (negb level)
       (axp_readIRQ ;;
        lp <- axp_isPEKLongtPressIRQ ;;
        when lp (Debugln "Long press detected: Shutting down..." ;;
                 delay 100 ;;
                 axp_shutdown) ;;
        axp_clearIRQ)) ;;
  Debugln "" ;;
  Debug "WiFi connected, IP address: " ;;
  ip <- WiFi_localIP ;;
  Debugln ip ;;
  l <- get ledState ;;
  when l (digitalWrite LED_PIN false) ;;
  setupOTA ;;
  emit ev_setCACert ;;
  emit (ev_mqtt_setServer mqtt_server mqtt_port) ;;
  emit ev_xSemaphoreCreateMutex ;;
  emit (ev_xTaskCreatePinnedToCore TelemetryTask 10000 1 1) ;;
  emit (ev_xTaskCreatePinnedToCore PowerTask 5000 1 0).

(** The telemetry thread of one wake cycle: start-up, then the task. *)
Definition wake_cycle (fuel : nat) : M unit :=
  setup fuel ;; MQTTTask fuel.

End Firmware.

(** ** Events of a run *)

(** The events added between two states of one run. *)
Definition events_since (s s' : State) : list Event :=
  skipn (List.length (history s)) (history s').

Definition events {A} (m : M A) (s : State) : list Event :=
  events_since s (final (m s)).

(** ** Sample environments *)

(** Everything works: chip present, Wi-Fi and session up, publish accepted,
    no button press.  The raw random number is always 1500. *)
Definition healthy : Env :=
  {| env_axp_begin := fun _ => 0;
     env_longPress := fun _ => false;
     env_battVoltage := fun _ => 4100%Q;
     env_irq_pin := fun _ => true;
     env_irq_fires := fun _ => false;
     env_wifi_status := fun _ => WL_CONNECTED;
     env_localIP := fun _ => "192.168.1.10";
     env_mqtt_connected := fun _ => true;
     env_mqtt_connect := fun _ => true;
     env_mqtt_state := fun _ => 0;
     env_mqtt_publish := fun _ _ _ => true;
     env_random := fun _ => 1500 |}.

Definition with_bootCount (n : Z) : State := set_bootCount n power_on.

(** ** Judgements on runs *)

(** [frame hs p m]: whatever the start state, a run of [m] leaves [bootCount]
    alone, adds only events accepted by [p], and stops only with a halt
    accepted by [hs]. *)
Definition frame (hs : Halt -> bool) (p : Event -> bool) {A} (m : M A) : Prop :=
  forall s,
    bootCount (final (m s)) = bootCount s /\
    (exists d, history (final (m s)) = (history s ++ d)%list /\ forallb p d = true) /\
    (forall h s', m s = Stop h s' -> hs h = true).

Definition no_halt (h : Halt) : bool := false.

Definition Task_eqb (a b : Task) : bool :=
  match a, b with
  | TelemetryTask, TelemetryTask | PowerTask, PowerTask => true
  | _, _ => false
  end.

(** Events that make up a diagnostic write: the prints and the queries whose
    results are printed. *)
Definition console_event (e : Event) : bool :=
  match e with
  | ev_Serial_print _ | ev_Serial_println _ | ev_mqtt_state _ | ev_WiFi_localIP _ => true
  | _ => false
  end.

(** The console mutex as an automaton over events: it is taken only when
    free, given only by its owner, and while it is held nothing but a
    diagnostic write happens. *)
Definition lock_step (o : option Task) (e : Event) : option (option Task) :=
  match e, o with
  | ev_xSemaphoreTake t, None => Some (Some t)
  | ev_xSemaphoreTake _, Some _ => None
  | ev_xSemaphoreGive t, Some t' => if Task_eqb t t' then Some None else None
  | ev_xSemaphoreGive _, None => None
  | _, None => Some None
  | _, Some t => if console_event e then Some (Some t) else None
  end.

Fixpoint lock_run (o : option Task) (tr : list Event) : option (option Task) :=
  match tr with
  | [] => Some o
  | e :: r => match lock_step o e with
              | Some o' => lock_run o' r
              | None => None
              end
  end.

(** [lk o m o']: started with owner [o], the events of [m] are a run of the
    automaton; a run that returns ends with owner [o'], a run that stops (or
    is cut by fuel) ends with the mutex free. *)
Definition lk {A} (o : option Task) (m : M A) (o' : option Task) : Prop :=
  forall s, serial_owner s = o ->
    exists d, history (final (m s)) = (history s ++ d)%list /\
      match m s with
      | Done _ s' => lock_run o d = Some o' /\ serial_owner s' = o'
      | Stop _ s' | OutOfFuel s' => lock_run o d = Some None /\ serial_owner s' = None
      end.

(** Events other than a publish, the arming of the wake timer and the entry
    into deep sleep. *)
Definition quiet (e : Event) : bool :=
  match e with
  | ev_mqtt_publish _ _ _ | ev_esp_sleep_enable_timer_wakeup _ | ev_esp_deep_sleep_start => false
  | _ => true
  end.

(** Start-up can halt for want of the chip or be powered off, it cannot
    enter deep sleep. *)
Definition setup_halt (h : Halt) : bool :=
  match h with DeepSleep => false | PowerOff | Hang => true end.

(** ** Vocabulary of the properties *)

(** The code before the Wi-Fi test of line 122. *)
Definition iteration_head (env : Env) (fuel : nat) : M wl_status_t :=
  (emit ev_OTA_handle ;;
   c <- mqttClient_connected env ;;
   when (negb c) (reconnectToMQTT env fuel) ;;
   emit ev_mqtt_loop ;;
   WiFi_status env)%fw.


(** The three calls that sample one record, with their results. *)
Definition sampling (r1 r2 : Z) (mv : Q) : list Event :=
  [ev_random 1000 4500 r1; ev_random 0 10000 r2; ev_axp_getBattVoltage mv].

(** The text built at lines 160-165 from the boot counter and the samples. *)
Definition record (bc r1 r2 : Z) (mv : Q) : string :=
  dataStr bc (F32.div (F32.of_Z r1) 100) (F32.div (F32.of_Z r2) 100) (F32.div mv 1000).

(** What follows an accepted publish (lines 167-176). *)
Definition sleep_tail (payload : string) : list Event :=
  [ ev_mqtt_publish mqttTopicPub payload true;
    ev_xSemaphoreTake TelemetryTask;
    ev_Serial_println payload;
    ev_Serial_println "Going to sleep until next TX...";
    ev_xSemaphoreGive TelemetryTask;
    ev_esp_sleep_enable_timer_wakeup 30000000;
    ev_esp_deep_sleep_start ].

(** What follows a refused publish (lines 177-186). *)
Definition failure_tail (payload : string) : list Event :=
  [ ev_mqtt_publish mqttTopicPub payload false;
    ev_xSemaphoreTake TelemetryTask;
    ev_Serial_println "Failed to publish data";
    ev_xSemaphoreGive TelemetryTask;
    ev_vTaskDelay 100 ].

Definition publish_ok (e : Event) : bool :=
  match e with ev_mqtt_publish _ _ true => true | _ => false end.

Definition publish_failed (e : Event) : bool :=
  match e with ev_mqtt_publish _ _ false => true | _ => false end.

(** Events of a device that stays awake without an accepted publish. *)
Definition awake (e : Event) : bool :=
  match e with
  | ev_mqtt_publish _ _ true | ev_esp_sleep_enable_timer_wakeup _ | ev_esp_deep_sleep_start => false
  | _ => true
  end.

(** A publish was accepted between [s] and [s']. *)
Definition published (s s' : State) : bool :=
  existsb publish_ok (events_since s s').

(** [n] consecutive wake cycles, each with an accepted publish; the result is
    the state at the top of initialisation after the last wake. *)
Fixpoint cycles (env : Env) (fuel n : nat) (s : State) : option State :=
  match n with
  | O => Some s
  | S k =>
      let o := wake_cycle env fuel s in
      if published s (final o) then cycles env fuel k (wake (final o)) else None
  end.

(** The session is up, the association is up, the broker refuses every
    publish. *)
Definition refusing : Env :=
  {| env_axp_begin := fun _ => 0;
     env_longPress := fun _ => false;
     env_battVoltage := fun _ => 4100%Q;
     env_irq_pin := fun _ => true;
     env_irq_fires := fun _ => false;
     env_wifi_status := fun _ => WL_CONNECTED;
     env_localIP := fun _ => "192.168.1.10";
     env_mqtt_connected := fun _ => true;
     env_mqtt_connect := fun _ => true;
     env_mqtt_state := fun _ => 0;
     env_mqtt_publish := fun _ _ _ => false;
     env_random := fun _ => 1500 |}.

(** What a long press sets off (lines 198-203). *)
Definition shutdown_tail : list Event :=
  [ ev_xSemaphoreTake PowerTask;
    ev_Serial_println "Long press detected: Shutting down...";
    ev_xSemaphoreGive PowerTask;
    ev_vTaskDelay 100;
    ev_axp_shutdown ].

(** The button was pressed and the power controller reports a long press. *)
Definition long_press : Env :=
  {| env_axp_begin := fun _ => 0;
     env_longPress := fun _ => true;
     env_battVoltage := fun _ => 4100%Q;
     env_irq_pin := fun _ => true;
     env_irq_fires := fun _ => true;
     env_wifi_status := fun _ => WL_CONNECTED;
     env_localIP := fun _ => "192.168.1.10";
     env_mqtt_connected := fun _ => true;
     env_mqtt_connect := fun _ => true;
     env_mqtt_state := fun _ => 0;
     env_mqtt_publish := fun _ _ _ => true;
     env_random := fun _ => 1500 |}.

(** An interrupt of another cause (a short press, say). *)
Definition short_press : Env :=
  {| env_axp_begin := fun _ => 0;
     env_longPress := fun _ => false;
     env_battVoltage := fun _ => 4100%Q;
     env_irq_pin := fun _ => true;
     env_irq_fires := fun _ => true;
     env_wifi_status := fun _ => WL_CONNECTED;
     env_localIP := fun _ => "192.168.1.10";
     env_mqtt_connected := fun _ => true;
     env_mqtt_connect := fun _ => true;
     env_mqtt_state := fun _ => 0;
     env_mqtt_publish := fun _ _ _ => true;
     env_random := fun _ => 1500 |}.

Definition is_shutdown (e : Event) : bool :=
  match e with ev_axp_shutdown => true | _ => false end.

Definition is_serial_write (e : Event) : bool :=
  match e with ev_Serial_print _ | ev_Serial_println _ => true | _ => false end.


(** The result of [axp.begin] in a start-up from [s]: the answer of the
    environment after the three events that precede the call. *)
Definition chip_probe (env : Env) (s : State) : Z :=
  env_axp_begin env
    (history s ++ [ev_Serial_begin 115200; ev_Serial_println "Soil Quality Sensor Beta";
                   ev_Wire_begin SDA_PIN SCL_PIN])%list.

(** Creation of a task, sampling and publishing. *)
Definition task_or_telemetry (e : Event) : bool :=
  match e with
  | ev_xTaskCreatePinnedToCore _ _ _ _ | ev_random _ _ _ | ev_axp_getBattVoltage _
  | ev_mqtt_publish _ _ _ => true
  | _ => false
  end.

(** The power-management chip does not answer. *)
Definition no_chip : Env :=
  {| env_axp_begin := fun _ => -1;
     env_longPress := fun _ => false;
     env_battVoltage := fun _ => 0%Q;
     env_irq_pin := fun _ => true;
     env_irq_fires := fun _ => false;
     env_wifi_status := fun _ => WL_CONNECTED;
     env_localIP := fun _ => "192.168.1.10";
     env_mqtt_connected := fun _ => true;
     env_mqtt_connect := fun _ => true;
     env_mqtt_state := fun _ => 0;
     env_mqtt_publish := fun _ _ _ => true;
     env_random := fun _ => 1500 |}.

(** One round of [reconnectToMQTT]: the session was found down, a connection
    was attempted and either succeeded or failed with a status code. *)
Inductive Attempt := Connected | Failed (rc : Z).

Definition attempt_ok (a : Attempt) : bool :=
  match a with Connected => true | Failed _ => false end.

(** The events of one round (lines 336-356). *)
Definition attempt_events (a : Attempt) : list Event :=
  [ ev_mqtt_connected false;
    ev_xSemaphoreTake TelemetryTask;
    ev_Serial_print "Attempting MQTT connection...";
    ev_xSemaphoreGive TelemetryTask;
    ev_mqtt_connect "soil_quaity_sensor" access_token (attempt_ok a) ]
  ++ match a with
     | Connected =>
         [ ev_xSemaphoreTake TelemetryTask;
           ev_Serial_println "connected";
           ev_xSemaphoreGive TelemetryTask ]
     | Failed rc =>
         [ ev_xSemaphoreTake TelemetryTask;
           ev_Serial_print "failed, rc=";
           ev_mqtt_state rc;
           ev_Serial_print (Text.dec_signed rc);
           ev_Serial_println " try again in 5 seconds";
           ev_xSemaphoreGive TelemetryTask;
           ev_vTaskDelay 5000 ]
     end.

Definition is_delay (e : Event) : bool :=
  match e with ev_vTaskDelay _ => true | _ => false end.

Definition count_failed (rounds : list Attempt) : nat :=
  List.length (filter (fun a => negb (attempt_ok a)) rounds).

(** The broker refuses the first [n] connections (status -2) and accepts the
    next; the session is up once a connection was accepted. *)
Definition connect_accepted (e : Event) : bool :=
  match e with ev_mqtt_connect _ _ true => true | _ => false end.
Definition connect_tried (e : Event) : bool :=
  match e with ev_mqtt_connect _ _ _ => true | _ => false end.

Definition flaky (n : nat) : Env :=
  {| env_axp_begin := fun _ => 0;
     env_longPress := fun _ => false;
     env_battVoltage := fun _ => 4100%Q;
     env_irq_pin := fun _ => true;
     env_irq_fires := fun _ => false;
     env_wifi_status := fun _ => WL_CONNECTED;
     env_localIP := fun _ => "192.168.1.10";
     env_mqtt_connected := fun h => existsb connect_accepted h;
     env_mqtt_connect := fun h => (n <=? List.length (filter connect_tried h))%nat;
     env_mqtt_state := fun _ => -2;
     env_mqtt_publish := fun _ _ _ => true;
     env_random := fun _ => 1500 |}.

(** ** Shape of the payload *)

Module Format.
Import Text.

(** An unsigned integer: one or more digits. *)
Definition uint (s : string) : Prop := s <> "" /\ all_digits s = true.

(** A number with exactly [p] decimals: optional minus sign, one or more
    digits, a point, [p] digits. *)
Definition numeral (p : nat) (s : string) : Prop :=
  exists sign ip fp,
    s = sign ++ ip ++ "." ++ fp
    /\ (sign = "" \/ sign = "-")
    /\ uint ip /\ all_digits fp = true /\ String.length fp = p.

(** The payload with its four fields; [pad] stands before the moisture. *)
Definition payload_text (u t pad m b : string) : string :=
  "{" ++ quoted "bootCnt" ++ ":" ++ u
  ++ "," ++ quoted "soilTemperature" ++ ":" ++ t
  ++ "," ++ quoted "soilMoisture" ++ ":" ++ pad ++ m
  ++ "," ++ quoted "batVoltage" ++ ":" ++ b ++ "}".

(** The template of the specification:
    [{"bootCnt":<uint>,"soilTemperature":<float, 2 decimals>,
      "soilMoisture":<float, 2 decimals>,"batVoltage":<float, 3 decimals>}] *)
Definition spec_payload (s : string) : Prop :=
  exists u t m b,
    s = payload_text u t "" m b
    /\ uint u /\ numeral 2 t /\ numeral 2 m /\ numeral 3 b.

(** A recogniser of the same template, reading the text left to right. *)
Fixpoint eat_lit (lit s : string) : option string :=
  match lit with
  | EmptyString => Some s
  | String c l =>
      match s with
      | String c' s' => if Ascii.eqb c c' then eat_lit l s' else None
      | EmptyString => None
      end
  end.

Fixpoint eat_digits (s : string) : string :=
  match s with
  | String c r => if is_digit c then eat_digits r else s
  | EmptyString => EmptyString
  end.

Definition eat_uint (s : string) : option string :=
  match s with
  | String c r => if is_digit c then Some (eat_digits r) else None
  | EmptyString => None
  end.

Fixpoint eat_n_digits (n : nat) (s : string) : option string :=
  match n with
  | O => Some s
  | S k =>
      match s with
      | String c r => if is_digit c then eat_n_digits k r else None
      | EmptyString => None
      end
  end.

Definition eat_sign (s : string) : string :=
  match s with
  | String c r => if Ascii.eqb c "-" then r else s
  | EmptyString => s
  end.

(** The text after a number: empty, or starting with something else than a
    digit. *)
Definition stops (r : string) : bool :=
  match r with
  | String c _ => negb (is_digit c)
  | EmptyString => true
  end.

Definition then_ (o : option string) (f : string -> option string) : option string :=
  match o with Some s => f s | None => None end.

Definition eat_numeral (p : nat) (s : string) : option string :=
  then_ (then_ (eat_uint (eat_sign s)) (eat_lit ".")) (eat_n_digits p).

Definition spec_format (s : string) : bool :=
  match
    then_ (then_ (then_ (then_ (then_ (then_ (then_ (then_
      (eat_lit ("{" ++ quoted "bootCnt" ++ ":") s)
      eat_uint)
      (eat_lit ("," ++ quoted "soilTemperature" ++ ":")))
      (eat_numeral 2))
      (eat_lit ("," ++ quoted "soilMoisture" ++ ":")))
      (eat_numeral 2))
      (eat_lit ("," ++ quoted "batVoltage" ++ ":")))
      (eat_numeral 3))
      (eat_lit "}")
  with
  | Some EmptyString => true
  | _ => false
  end.

End Format.

(** The scenario of the specification: boot count 7, samples 25.00 and
    50.00, battery 4.100 V; the first raw random number is 1500, the
    second 5000. *)
Definition is_random (e : Event) : bool :=
  match e with ev_random _ _ _ => true | _ => false end.

Definition scenario : Env :=
  {| env_axp_begin := fun _ => 0;
     env_longPress := fun _ => false;
     env_battVoltage := fun _ => 4100%Q;
     env_irq_pin := fun _ => true;
     env_irq_fires := fun _ => false;
     env_wifi_status := fun _ => WL_CONNECTED;
     env_localIP := fun _ => "192.168.1.10";
     env_mqtt_connected := fun _ => true;
     env_mqtt_connect := fun _ => true;
     env_mqtt_state := fun _ => 0;
     env_mqtt_publish := fun _ _ _ => true;
     env_random := fun h => if existsb is_random h then 5000 else 1500 |}.

(** As [scenario], with a moisture sample of 5.00. *)
Definition dry : Env :=
  {| env_axp_begin := fun _ => 0;
     env_longPress := fun _ => false;
     env_battVoltage := fun _ => 4100%Q;
     env_irq_pin := fun _ => true;
     env_irq_fires := fun _ => false;
     env_wifi_status := fun _ => WL_CONNECTED;
     env_localIP := fun _ => "192.168.1.10";
     env_mqtt_connected := fun _ => true;
     env_mqtt_connect := fun _ => true;
     env_mqtt_state := fun _ => 0;
     env_mqtt_publish := fun _ _ _ => true;
     env_random := fun h => if existsb is_random h then 500 else 1500 |}.

(** The integers [lo, hi) *)
Definition zrange (lo hi : Z) : list Z :=
  map (fun i => lo + Z.of_nat i) (seq 0 (Z.to_nat (hi - lo))).

(** The value of a soil sample: [r / 100.0f]. *)
Definition soil (r : Z) : Q := F32.div (F32.of_Z r) 100.

Definition temperature_in_range (r : Z) : bool :=
  Qle_bool 10 (soil r) && negb (Qle_bool 45 (soil r)).

Definition moisture_in_range (r : Z) : bool :=
  Qle_bool 0 (soil r) && negb (Qle_bool 100 (soil r)).

(** The two digits before and after the point of [r] hundredths. *)
Definition hundredths (r : Z) : string :=
  Text.dec (r / 100) ++ "." ++ Text.fixed_digits 2 (r mod 100).

Definition temperature_text_exact (r : Z) : bool :=
  String.eqb (Printf.fmt_f 4 2 (soil r)) (hundredths r).

Definition moisture_text_exact (r : Z) : bool :=
  String.eqb (Printf.fmt_f 5 2 (soil r))
             ((if r <? 1000 then " " else "") ++ hundredths r).

(** An iteration of the power task from [s]: whether an interrupt is taken,
    the value read from the flag, and the answer of the power controller
    when it is asked for the cause. *)
Definition pek_irq (env : Env) (s : State) : bool := env_irq_fires env (history s).

Definition pek_seen (env : Env) (s : State) : bool :=
  if pek_irq env s then true else pekPressed s.

Definition pek_long (env : Env) (s : State) : bool :=
  env_longPress env
    (history s ++ (if pek_irq env s then [ev_IRQ] else [])
       ++ [ev_pekPressed_read (pek_seen env s); ev_pekPressed_write false;
           ev_axp_readIRQ])%list.

(** ** The power task with the power-off call left open

    [axp.shutdown()] belongs to the driver of the AXP192, whose code is not
    in the repository.  In [shutdown_call] the call issues the command, and
    whether it comes back is an answer of the environment: [returns h] for
    the history [h] at the call.  With [returns] constantly false this is
    [axp_shutdown]. *)
Definition shutdown_call (returns : list Event -> bool) : M unit :=
  r <- call returns (fun _ => ev_axp_shutdown) ;;
  when (negb r) (stop PowerOff).

(** The body of the loop of [PEKTask] (lines 192-210) in program order, over
    the call [shutdown] of line 203.  [PEKTask_iteration] is this pass with
    [axp_shutdown]. *)
Definition PEKTask_pass (env : Env) (shutdown : M unit) : M unit :=
  p <- read_pekPressed env ;;
  when p (write_pekPressed false ;;
          axp_readIRQ ;;
          lp <- axp_isPEKLongtPressIRQ env ;;
          when lp (b <- xSemaphoreTake PowerTask ;;
                   when b (Debugln "Long press detected: Shutting down..." ;;
                           xSemaphoreGive PowerTask) ;;
                   vTaskDelay 100 ;;
                   shutdown) ;;
          axp_clearIRQ) ;;
  vTaskDelay 100.




(** * Further definitions: start-up, association, callbacks, reader *)


(** ** Start-up in three parts *)

(** Lines 218-259 of [setup]: everything before the wait for the
    association. *)
Definition setup_init (env : Env) : M unit :=
  emit (ev_Serial_begin 115200) ;;
  Debugln "Soil Quality Sensor Beta" ;;
  emit (ev_Wire_begin SDA_PIN SCL_PIN) ;;
  rc <- axp_begin env ;;
  (if negb (rc =? 0)
   then Debugln "AXP192 not detected!" ;; stop Hang
   else Debugln "AXP192 detected") ;;
  emit (ev_axp_setPowerOutPut AXP192_LDO2 false) ;;
  emit (ev_axp_setPowerOutPut AXP192_LDO3 false) ;;
  Debugln "GPS and LoRa powered off" ;;
  emit ev_axp_adc1Enable ;;
  emit (ev_pinMode PMU_IRQ_PIN false) ;;
  axp_clearIRQ ;;
  emit ev_axp_enableIRQ ;;
  emit (ev_attachInterrupt PMU_IRQ_PIN) ;;
  emit (ev_pinMode LED_PIN true) ;;
  l <- get ledState ;;
  digitalWrite LED_PIN l ;;
  emit (ev_esp_sleep_enable_ext0_wakeup BUTTON_PIN 0) ;;
  Debug "Connecting to WIFI SSID " ;;
  Debugln ssid ;;
  emit ev_WiFi_mode_STA ;;
  emit ev_WiFi_disconnect ;;
  delay 100 ;;
  emit (ev_WiFi_begin ssid password).

(** Lines 261-261: the test of the waiting loop. *)
Definition not_associated (env : Env) : M bool :=
  st <- WiFi_status env ;; ret (negb (wl_status_eqb st WL_CONNECTED)).

(** Lines 262-277: one wait of the loop, with the inlined check of the
    power button. *)
Definition setup_wait (env : Env) : M unit :=
  delay 500 ;;
  Debug "." ;;
  modify (fun s => set_ledState (negb (ledState s)) s) ;;
  l <- get ledState ;;
  digitalWrite LED_PIN l ;;
  level <- digitalRead env PMU_IRQ_PIN ;;
  when (negb level)
    (axp_readIRQ ;;
     lp <- axp_isPEKLongtPressIRQ env ;;
     when lp (Debugln "Long press detected: Shutting down..." ;;
              delay 100 ;;
              axp_shutdown) ;;
     axp_clearIRQ).

(** Lines 280-319: what [setup] does once the association is up. *)
Definition setup_services (env : Env) : M unit :=
  Debugln "" ;;
  Debug "WiFi connected, IP address: " ;;
  ip <- WiFi_localIP env ;;
  Debugln ip ;;
  l <- get ledState ;;
  when l (digitalWrite LED_PIN false) ;;
  setupOTA ;;
  emit ev_setCACert ;;
  emit (ev_mqtt_setServer mqtt_server mqtt_port) ;;
  emit ev_xSemaphoreCreateMutex ;;
  emit (ev_xTaskCreatePinnedToCore TelemetryTask 10000 1 1) ;;
  emit (ev_xTaskCreatePinnedToCore PowerTask 5000 1 0).

(** Events of the FreeRTOS objects: the mutex and the tasks. *)
Definition rtos_event (e : Event) : bool :=
  match e with
  | ev_xSemaphoreCreateMutex | ev_xSemaphoreTake _ | ev_xSemaphoreGive _
  | ev_xTaskCreatePinnedToCore _ _ _ _ => true
  | _ => false
  end.

(** Events of start-up before the FreeRTOS objects exist: no mutex, no task,
    no sample, no publish, no sleep. *)
Definition boot_event (e : Event) : bool :=
  negb (rtos_event e) && negb (task_or_telemetry e) && quiet e.

Definition only_hang (h : Halt) : bool :=
  match h with Hang => true | _ => false end.

Definition only_power_off (h : Halt) : bool :=
  match h with PowerOff => true | _ => false end.

(** The events of [setup_services] for an address [ip], with the LED
    variable at [l]. *)
Definition services_events (ip : string) (l : bool) : list Event :=
  [ ev_Serial_println ""; ev_Serial_print "WiFi connected, IP address: ";
    ev_WiFi_localIP ip; ev_Serial_println ip ]
  ++ (if l then [ev_digitalWrite LED_PIN false] else [])
  ++ [ ev_OTA_setHostname "soil-quality-sensor"; ev_OTA_setPassword "pw0123";
       ev_OTA_callbacks; ev_OTA_begin; ev_Serial_println "OTA service started!";
       ev_setCACert; ev_mqtt_setServer mqtt_server mqtt_port ].

(** The three events that end a start-up. *)
Definition rtos_objects : list Event :=
  [ ev_xSemaphoreCreateMutex;
    ev_xTaskCreatePinnedToCore TelemetryTask 10000 1 1;
    ev_xTaskCreatePinnedToCore PowerTask 5000 1 0 ].

(** The association never comes up, the interrupt line is low and the power
    controller reports a long press. *)
Definition boot_press : Env :=
  {| env_axp_begin := fun _ => 0;
     env_longPress := fun _ => true;
     env_battVoltage := fun _ => 4100%Q;
     env_irq_pin := fun _ => false;
     env_irq_fires := fun _ => false;
     env_wifi_status := fun _ => WL_DISCONNECTED;
     env_localIP := fun _ => "0.0.0.0";
     env_mqtt_connected := fun _ => false;
     env_mqtt_connect := fun _ => false;
     env_mqtt_state := fun _ => -2;
     env_mqtt_publish := fun _ _ _ => false;
     env_random := fun _ => 0 |}.

(** ** Association to Wi-Fi inside the telemetry task, in three parts *)

(** Lines 124-133 *)
Definition wifi_begin : M unit :=
  b <- xSemaphoreTake TelemetryTask ;;
  when b (Debug "Connecting to WIFI SSID " ;;
          Debugln ssid ;;
          xSemaphoreGive TelemetryTask) ;;
  emit ev_WiFi_mode_STA ;;
  emit ev_WiFi_disconnect ;;
  vTaskDelay 100 ;;
  emit (ev_WiFi_begin ssid password).

(** Lines 136-142: one wait of the loop. *)
Definition wifi_wait : M unit :=
  vTaskDelay 500 ;;
  b <- xSemaphoreTake TelemetryTask ;;
  when b (Debug "." ;;
          xSemaphoreGive TelemetryTask) ;;
  modify (fun s => set_ledState (negb (ledState s)) s) ;;
  l <- get ledState ;;
  digitalWrite LED_PIN l.

(** Lines 145-155 *)
Definition wifi_report (env : Env) : M unit :=
  b <- xSemaphoreTake TelemetryTask ;;
  when b (Debugln "" ;;
          Debug "WiFi connected, IP address: " ;;
          ip <- WiFi_localIP env ;;
          Debugln ip ;;
          xSemaphoreGive TelemetryTask) ;;
  l <- get ledState ;;
  when l (digitalWrite LED_PIN false).

Definition wifi_begin_events : list Event :=
  [ ev_xSemaphoreTake TelemetryTask; ev_Serial_print "Connecting to WIFI SSID ";
    ev_Serial_println ssid; ev_xSemaphoreGive TelemetryTask;
    ev_WiFi_mode_STA; ev_WiFi_disconnect; ev_vTaskDelay 100;
    ev_WiFi_begin ssid password ].

(** The waits of the loop: one per status that was not [WL_CONNECTED], each
    with its dot and its toggle of the LED, starting from the LED variable
    at [l]. *)
Fixpoint wifi_waits (sts : list wl_status_t) (l : bool) : list Event :=
  match sts with
  | [] => []
  | st :: r =>
      [ ev_WiFi_status st; ev_vTaskDelay 500;
        ev_xSemaphoreTake TelemetryTask; ev_Serial_print ".";
        ev_xSemaphoreGive TelemetryTask; ev_digitalWrite LED_PIN (negb l) ]
      ++ wifi_waits r (negb l)
  end.

Definition wifi_report_events (ip : string) (l : bool) : list Event :=
  [ ev_xSemaphoreTake TelemetryTask; ev_Serial_println "";
    ev_Serial_print "WiFi connected, IP address: "; ev_WiFi_localIP ip;
    ev_Serial_println ip; ev_xSemaphoreGive TelemetryTask ]
  ++ (if l then [ev_digitalWrite LED_PIN false] else []).

Definition associated (st : wl_status_t) : bool := wl_status_eqb st WL_CONNECTED.

(** The association comes up at the third look: [WiFi.status()] answers
    [WL_DISCONNECTED] until two waits have passed. *)
Definition is_wait (e : Event) : bool :=
  match e with ev_vTaskDelay 500 | ev_delay 500 => true | _ => false end.

Definition slow_wifi : Env :=
  {| env_axp_begin := fun _ => 0;
     env_longPress := fun _ => false;
     env_battVoltage := fun _ => 4100%Q;
     env_irq_pin := fun _ => true;
     env_irq_fires := fun _ => false;
     env_wifi_status := fun h =>
       if (2 <=? List.length (filter is_wait h))%nat then WL_CONNECTED
       else WL_DISCONNECTED;
     env_localIP := fun _ => "192.168.1.10";
     env_mqtt_connected := fun _ => true;
     env_mqtt_connect := fun _ => true;
     env_mqtt_state := fun _ => 0;
     env_mqtt_publish := fun _ _ _ => true;
     env_random := fun _ => 1500 |}.

(** The events of an idle poll of the power task: the flag is read as false
    and the task waits 100 ms. *)
Definition idle_poll : list Event := [ev_pekPressed_read false; ev_vTaskDelay 100].

(** Calls into the driver of the power-management chip. *)
Definition pmu_event (e : Event) : bool :=
  match e with
  | ev_axp_begin _ | ev_axp_setPowerOutPut _ _ | ev_axp_adc1Enable | ev_axp_clearIRQ
  | ev_axp_enableIRQ | ev_axp_readIRQ | ev_axp_isPEKLongtPressIRQ _ | ev_axp_shutdown
  | ev_axp_getBattVoltage _ => true
  | _ => false
  end.

(** ** The progress callback registered by [setupOTA] (lines 380-382)

    [progress / (total / 100)] on [unsigned int].  When [total / 100] is
    zero the division is by zero: undefined in C++, an exception on the
    ESP32; the model gives no result then. *)

Definition onProgress_percent (progress total : Z) : option Z :=
  if total / 100 =? 0 then None else Some (progress / (total / 100)).

(** The text of [Debugf("Progress: %u%%\r", ...)]; [None] for the trap. *)
Definition onProgress (progress total : Z) : option string :=
  match onProgress_percent progress total with
  | Some pct => Some ("Progress: " ++ Text.dec pct ++ "%" ++ String "013"%char "")
  | None => None
  end.

(** ** Reading a payload back

    A reader of the telemetry: it takes the payload apart from left to right
    and returns the boot count and the two samples in hundredths. *)

Module Reader.
Import Text Format.

Definition digit_val (c : ascii) : Z := Z.of_nat (nat_of_ascii c) - 48.

(** The value of the leading digits of [s], continuing from [v], and the
    rest of [s]. *)
Fixpoint read_digits (v : Z) (s : string) : Z * string :=
  match s with
  | String c r => if is_digit c then read_digits (10 * v + digit_val c) r else (v, s)
  | EmptyString => (v, s)
  end.

(** A number with two decimals, in hundredths. *)
Definition read_hundredths (s : string) : option (Z * string) :=
  let (ip, s1) := read_digits 0 s in
  match eat_lit "." s1 with
  | Some (String a (String b s2)) =>
      if is_digit a && is_digit b
      then Some (100 * ip + 10 * digit_val a + digit_val b, s2)
      else None
  | _ => None
  end.

Definition skip_space (s : string) : string :=
  match s with
  | String c r => if Ascii.eqb c " " then r else s
  | EmptyString => s
  end.

Definition read_record (s : string) : option (Z * Z * Z) :=
  match eat_lit ("{" ++ quoted "bootCnt" ++ ":") s with
  | None => None
  | Some s1 =>
      let (bc, s2) := read_digits 0 s1 in
      match eat_lit ("," ++ quoted "soilTemperature" ++ ":") s2 with
      | None => None
      | Some s3 =>
          match read_hundredths s3 with
          | None => None
          | Some (t, s4) =>
              match eat_lit ("," ++ quoted "soilMoisture" ++ ":") s4 with
              | None => None
              | Some s5 =>
                  match read_hundredths (skip_space s5) with
                  | None => None
                  | Some (m, _) => Some (bc, t, m)
                  end
              end
          end
      end
  end.

End Reader.

(** ** The LED *)

(** The level of the last [digitalWrite] to the LED pin in a list of
    events, if there is one. *)
Fixpoint last_led (d : list Event) : option bool :=
  match d with
  | [] => None
  | e :: r =>
      match last_led r with
      | Some b => Some b
      | None =>
          match e with
          | ev_digitalWrite pin b => if pin =? LED_PIN then Some b else None
          | _ => None
          end
      end
  end.

(** Since [s] the LED pin has been written, and the last level written is
    the value of the LED variable in [x]. *)
Definition led_since (s x : State) : Prop :=
  exists d, history x = (history s ++ d)%list /\ last_led d = Some (ledState x).

(** ** Who writes which variable *)

(** [keeps f m]: a run of [m] ends with the value of [f] it started with. *)
Definition keeps {X A : Type} (f : State -> X) (m : M A) : Prop :=
  forall s, f (final (m s)) = f s.

(** * Properties *)

(** ** Sample runs *)

Example dec_examples :
  Text.dec 0 = "0" /\ Text.dec 7 = "7" /\ Text.dec 4294967295 = "4294967295"
  /\ Text.dec_signed (-4) = "-4" /\ Text.fixed_digits 3 7 = "007".
Proof. repeat split; reflexivity. Qed.

Example fmt_examples :
  Printf.fmt_f 4 2 (F32.div (F32.of_Z 2500) 100) = "25.00"
  /\ Printf.fmt_f 5 2 (F32.div (F32.of_Z 500) 100) = " 5.00"
  /\ Printf.fmt_f 4 3 (F32.div (F32.round 4100) 1000) = "4.100"
  /\ Printf.fmt_f 4 2 (1 # 8) = "0.12"
  /\ Printf.fmt_f 4 2 (3 # 8) = "0.38".
Proof. repeat split; vm_compute; reflexivity. Qed.

Example healthy_task_run :
  exists s', MQTTTask healthy 1 (with_bootCount 7) = Stop DeepSleep s'
             /\ bootCount s' = 8
             /\ history s' =
                [ ev_OTA_handle; ev_mqtt_connected true; ev_mqtt_loop;
                  ev_WiFi_status WL_CONNECTED;
                  ev_random 1000 4500 2500; ev_random 0 10000 1500;
                  ev_axp_getBattVoltage 4100;
                  ev_mqtt_publish mqttTopicPub
                    ("{" ++ quoted "bootCnt" ++ ":7," ++ quoted "soilTemperature" ++ ":25.00,"
                     ++ quoted "soilMoisture" ++ ":15.00," ++ quoted "batVoltage" ++ ":4.100}") true;
                  ev_xSemaphoreTake TelemetryTask;
                  ev_Serial_println
                    ("{" ++ quoted "bootCnt" ++ ":7," ++ quoted "soilTemperature" ++ ":25.00,"
                     ++ quoted "soilMoisture" ++ ":15.00," ++ quoted "batVoltage" ++ ":4.100}");
                  ev_Serial_println "Going to sleep until next TX...";
                  ev_xSemaphoreGive TelemetryTask;
                  ev_esp_sleep_enable_timer_wakeup 30000000;
                  ev_esp_deep_sleep_start ].
Proof. eexists. split; [vm_compute; reflexivity|]. split; vm_compute; reflexivity. Qed.

(** ** Basic facts about states and events *)

Lemma history_log e s : history (log e s) = (history s ++ [e])%list.
Proof. reflexivity. Qed.

Lemma events_since_app s s' d :
  history s' = (history s ++ d)%list -> events_since s s' = d.
Proof.
  unfold events_since. intros ->.
  rewrite skipn_app, skipn_all, Nat.sub_diag. reflexivity.
Qed.

Lemma app_assoc1 {X} (a b : list X) (x : X) : ((a ++ [x]) ++ b = a ++ x :: b)%list.
Proof. rewrite <- app_assoc. reflexivity. Qed.

(** ** Rules for [frame] *)

Section FrameRules.

Variable hs : Halt -> bool.
Variable p : Event -> bool.

Lemma frame_ret {A} (a : A) : frame hs p (ret a).
Proof.
  intro s. cbn. split; [reflexivity|]. split; [|discriminate].
  exists []. rewrite app_nil_r. auto.
Qed.

Lemma frame_bind {A B} (m : M A) (k : A -> M B) :
  frame hs p m -> (forall a, frame hs p (k a)) -> frame hs p (bind m k).
Proof.
  intros Hm Hk s. unfold bind.
  destruct (Hm s) as (Hb & (d & Hd & Hp) & Hh).
  destruct (m s) as [a s1 | h s1 | s1] eqn:E; cbn in *.
  - destruct (Hk a s1) as (Hb' & (d' & Hd' & Hp') & Hh').
    split; [congruence|]. split; [|exact Hh'].
    exists (d ++ d')%list. rewrite Hd', Hd, app_assoc, forallb_app, Hp, Hp'. auto.
  - split; [assumption|]. split; [eauto|].
    intros h' s' [= <- <-]. eauto.
  - split; [assumption|]. split; [eauto|]. discriminate.
Qed.

Lemma frame_emit e : p e = true -> frame hs p (emit e).
Proof.
  intros He s. cbn. split; [reflexivity|]. split; [|discriminate].
  exists [e]. cbn. rewrite He. auto.
Qed.

Lemma frame_call {A} (f : list Event -> A) (ev : A -> Event) :
  (forall a, p (ev a) = true) -> frame hs p (call f ev).
Proof.
  intros He s. cbn. split; [reflexivity|]. split; [|discriminate].
  eexists [_]. cbn. rewrite He. auto.
Qed.

Lemma frame_get {A} (f : State -> A) : frame hs p (get f).
Proof. intro s. apply (frame_ret (f s)). Qed.

Lemma frame_modify (f : State -> State) :
  (forall s, bootCount (f s) = bootCount s /\ history (f s) = history s) ->
  frame hs p (modify f).
Proof.
  intros Hf s. cbn. destruct (Hf s) as [Hb Hh]. split; [assumption|].
  split; [|discriminate]. exists []. rewrite app_nil_r. auto.
Qed.

Lemma frame_stop {A} h : hs h = true -> frame hs p (@stop A h).
Proof.
  intros Hh s. cbn. split; [reflexivity|]. split.
  - exists []. rewrite app_nil_r. auto.
  - intros h' s' [= <- <-]. assumption.
Qed.

Lemma frame_out_of_fuel {A} : frame hs p (@out_of_fuel A).
Proof.
  intro s. cbn. split; [reflexivity|]. split; [|discriminate].
  exists []. rewrite app_nil_r. auto.
Qed.

Lemma frame_when b m : frame hs p m -> frame hs p (when b m).
Proof. destruct b; cbn; auto using frame_ret. Qed.

Lemma frame_while fuel cond body :
  frame hs p cond -> frame hs p body -> frame hs p (while fuel cond body).
Proof.
  intros Hc Hb. induction fuel as [|f IH]; cbn [while];
    (apply frame_bind; [assumption|]); intros [|];
    auto using frame_ret, frame_out_of_fuel, frame_bind.
Qed.

Lemma frame_forever fuel body :
  frame hs p body -> frame hs p (forever fuel body).
Proof.
  intros Hb. induction fuel as [|f IH]; cbn [forever];
    auto using frame_out_of_fuel, frame_bind.
Qed.

End FrameRules.

Lemma frame_pending_interrupt hs p env :
  p ev_IRQ = true -> frame hs p (pending_interrupt env).
Proof.
  intros Hp s. unfold pending_interrupt.
  destruct (env_irq_fires env (history s)).
  - apply (frame_bind hs p (emit ev_IRQ) (fun _ => modify (set_pekPressed true))).
    + apply frame_emit; assumption.
    + intros _. apply frame_modify. intros s0. split; reflexivity.
  - apply (frame_ret hs p tt).
Qed.

Create HintDb fw.

#[local] Hint Unfold Debug Debugln handlePMUIRQ vTaskDelay delay xSemaphoreTake
  xSemaphoreGive random axp_getBattVoltage mqttClient_connected mqttClient_connect
  mqttClient_state mqttClient_publish WiFi_status WiFi_localIP digitalRead
  digitalWrite axp_begin axp_readIRQ axp_isPEKLongtPressIRQ axp_clearIRQ
  axp_shutdown esp_deep_sleep_start read_pekPressed write_pekPressed : fw.

Ltac frame_step :=
  lazymatch goal with
  | |- frame _ _ (bind _ _) => apply frame_bind; [|intro]
  | |- frame _ _ (ret _) => apply frame_ret
  | |- frame _ _ (emit _) => apply frame_emit; reflexivity
  | |- frame _ _ (call _ _) => apply frame_call; intro; reflexivity
  | |- frame _ _ (get _) => apply frame_get
  | |- frame _ _ (modify _) => apply frame_modify; intro; split; reflexivity
  | |- frame _ _ (stop _) => apply frame_stop; reflexivity
  | |- frame _ _ out_of_fuel => apply frame_out_of_fuel
  | |- frame _ _ (when _ _) => apply frame_when
  | |- frame _ _ (while _ _ _) => apply frame_while
  | |- frame _ _ (forever _ _) => apply frame_forever
  | |- frame _ _ (pending_interrupt _) => apply frame_pending_interrupt; reflexivity
  | |- frame _ _ (if ?b then _ else _) => destruct b
  end.

Ltac frame_auto := autounfold with fw; repeat frame_step.

(** ** Code that neither publishes nor sleeps *)

Lemma reconnect_attempt_frame env : frame no_halt quiet (reconnect_attempt env).
Proof. unfold reconnect_attempt. frame_auto. Qed.

Lemma reconnectToMQTT_frame env fuel : frame no_halt quiet (reconnectToMQTT env fuel).
Proof. unfold reconnectToMQTT. frame_auto. apply reconnect_attempt_frame. Qed.

Lemma wifi_reassociate_frame env fuel : frame no_halt quiet (wifi_reassociate env fuel).
Proof. unfold wifi_reassociate. frame_auto. Qed.

Lemma PEKTask_iteration_frame env : frame setup_halt quiet (PEKTask_iteration env).
Proof. unfold PEKTask_iteration. frame_auto. Qed.

Lemma setup_frame env fuel : frame setup_halt quiet (setup env fuel).
Proof. unfold setup, setupOTA. frame_auto. Qed.

(** ** The publish block, run in full *)

(** Evaluation of the monadic structure only: arithmetic, formatting and the
    answers of the environment stay as they are. *)
Ltac fw_eval :=
  cbv beta iota zeta delta
    [bind ret call emit get modify when stop out_of_fuel log final
     set_bootCount set_ledState set_pekPressed set_serial_owner
     history bootCount ledState pekPressed serial_owner
     Debug Debugln handlePMUIRQ pending_interrupt vTaskDelay delay
     xSemaphoreTake xSemaphoreGive random axp_getBattVoltage
     mqttClient_connected mqttClient_connect mqttClient_state
     mqttClient_publish WiFi_status WiFi_localIP digitalRead digitalWrite
     axp_begin axp_readIRQ axp_isPEKLongtPressIRQ axp_clearIRQ axp_shutdown
     esp_deep_sleep_start read_pekPressed write_pekPressed negb].

(** Histories in the form [h ++ [e1; ...; en]]. *)
Ltac norm_hist := repeat first [rewrite <- !app_assoc | progress (cbn [app])].

Lemma mqtt_pub_run env s :
  let h := history s in
  let r1 := 1000 + env_random env h mod 3500 in
  let h1 := (h ++ [ev_random 1000 4500 r1])%list in
  let r2 := 0 + env_random env h1 mod 10000 in
  let h2 := (h1 ++ [ev_random 0 10000 r2])%list in
  let mv := F32.round (env_battVoltage env h2) in
  let h3 := (h2 ++ [ev_axp_getBattVoltage mv])%list in
  let payload :=
    dataStr (bootCount s) (F32.div (F32.of_Z r1) 100) (F32.div (F32.of_Z r2) 100)
            (F32.div mv 1000) in
  mqtt_pub env s =
  if env_mqtt_publish env h3 mqttTopicPub payload then
    Stop DeepSleep
      {| bootCount := uint32 (bootCount s + 1); ledState := ledState s;
         pekPressed := pekPressed s; serial_owner := None;
         history := (h3 ++ [ev_mqtt_publish mqttTopicPub payload true;
                            ev_xSemaphoreTake TelemetryTask;
                            ev_Serial_println payload;
                            ev_Serial_println "Going to sleep until next TX...";
                            ev_xSemaphoreGive TelemetryTask;
                            ev_esp_sleep_enable_timer_wakeup 30000000;
                            ev_esp_deep_sleep_start])%list |}
  else
    Done tt
      {| bootCount := bootCount s; ledState := ledState s;
         pekPressed := pekPressed s; serial_owner := None;
         history := (h3 ++ [ev_mqtt_publish mqttTopicPub payload false;
                            ev_xSemaphoreTake TelemetryTask;
                            ev_Serial_println "Failed to publish data";
                            ev_xSemaphoreGive TelemetryTask])%list |}.
Proof.
  intros h r1 h1 r2 h2 mv h3 payload.
  subst h r1 h1 r2 h2 mv h3 payload.
  destruct s as [bc led pek own hist].
  unfold mqtt_pub. fw_eval.
  change (4500 <=? 1000) with false. change (10000 <=? 0) with false.
  change (4500 - 1000) with 3500. change (10000 - 0) with 10000.
  change SLEEP_DURATION_US with 30000000. cbv iota.
  destruct (env_mqtt_publish env _ _ _); rewrite <- ?app_assoc; reflexivity.
Qed.

(** ** One iteration of the telemetry task, by cases *)

Lemma quiet_awake d : forallb quiet d = true -> forallb awake d = true.
Proof.
  induction d as [|e d IH]; cbn; [reflexivity|].
  intros H. apply andb_prop in H as [He Hd]. rewrite (IH Hd), andb_true_r.
  destruct e; try reflexivity; discriminate.
Qed.

Lemma random_range lo hi x : lo < hi -> lo <= lo + x mod (hi - lo) < hi.
Proof. intros H. pose proof (Z.mod_pos_bound x (hi - lo)). lia. Qed.

Lemma iteration_head_frame env fuel : frame no_halt quiet (iteration_head env fuel).
Proof. unfold iteration_head. frame_auto. apply reconnectToMQTT_frame. Qed.

Lemma MQTTTask_iteration_split env fuel s :
  MQTTTask_iteration env fuel s =
  bind (iteration_head env fuel)
       (fun st => bind (if negb (wl_status_eqb st WL_CONNECTED)
                        then wifi_reassociate env fuel else mqtt_pub env)
                       (fun _ => vTaskDelay 100)) s.
Proof.
  unfold MQTTTask_iteration, iteration_head, bind.
  repeat match goal with
         | |- context [match ?x with Done _ _ => _ | Stop _ _ => _ | OutOfFuel _ => _ end] =>
             destruct x; try reflexivity
         end.
Qed.

Lemma MQTTTask_iteration_cases env fuel s :
  exists pre, forallb quiet pre = true /\
    ((exists s' r1 r2 mv,
         MQTTTask_iteration env fuel s = Stop DeepSleep s'
         /\ 1000 <= r1 < 4500 /\ 0 <= r2 < 10000
         /\ bootCount s' = uint32 (bootCount s + 1)
         /\ history s' = (history s ++ pre ++ sampling r1 r2 mv
                            ++ sleep_tail (record (bootCount s) r1 r2 mv))%list)
     \/ (exists s' r1 r2 mv,
         MQTTTask_iteration env fuel s = Done tt s'
         /\ 1000 <= r1 < 4500 /\ 0 <= r2 < 10000
         /\ bootCount s' = bootCount s
         /\ history s' = (history s ++ pre ++ sampling r1 r2 mv
                            ++ failure_tail (record (bootCount s) r1 r2 mv))%list)
     \/ ((forall h s', MQTTTask_iteration env fuel s <> Stop h s')
         /\ bootCount (final (MQTTTask_iteration env fuel s)) = bootCount s
         /\ history (final (MQTTTask_iteration env fuel s)) = (history s ++ pre)%list)).
Proof.
  rewrite MQTTTask_iteration_split. unfold bind.
  destruct (iteration_head_frame env fuel s) as (Hb & (d & Hd & Hq) & Hh).
  destruct (iteration_head env fuel s) as [st s1 | h s1 | s1] eqn:E; cbn in Hb, Hd.
  - destruct (wl_status_eqb st WL_CONNECTED); cbn [negb].
    + (* association is up: the publish block *)
      rewrite !mqtt_pub_run. cbv zeta.
      set (r1 := 1000 + _ mod 3500). set (r2 := 0 + _ mod 10000).
      set (mv := F32.round _). fold (record (bootCount s1) r1 r2 mv).
      assert (H1 : 1000 <= r1 < 4500) by (subst r1; apply (random_range 1000 4500); lia).
      assert (H2 : 0 <= r2 < 10000) by (subst r2; apply (random_range 0 10000); lia).
      exists d. split; [assumption|].
      destruct (env_mqtt_publish env _ _ _).
      * left. eexists _, r1, r2, mv. split; [reflexivity|].
        cbn [bootCount history]. split; [exact H1|]. split; [exact H2|].
        split; [congruence|]. rewrite Hd, Hb, <- !app_assoc. reflexivity.
      * right. left. eexists _, r1, r2, mv. split; [reflexivity|].
        cbn [bootCount history log]. split; [exact H1|]. split; [exact H2|].
        split; [congruence|]. rewrite Hd, Hb, <- !app_assoc. reflexivity.
    + (* association is lost *)
      destruct (wifi_reassociate_frame env fuel s1) as (Hb' & (d' & Hd' & Hq') & Hh').
      destruct (wifi_reassociate env fuel s1) as [[] s2 | h s2 | s2] eqn:E2;
        cbn in Hb', Hd'.
      * exists (d ++ d' ++ [ev_vTaskDelay 100])%list. split.
        { rewrite !forallb_app, Hq, Hq'. reflexivity. }
        right. right. cbn. split; [discriminate|]. split; [congruence|].
        rewrite Hd', Hd, <- !app_assoc. reflexivity.
      * specialize (Hh' _ _ eq_refl). discriminate.
      * exists (d ++ d')%list. split; [rewrite forallb_app, Hq, Hq'; reflexivity|].
        right. right. cbn. split; [discriminate|]. split; [congruence|].
        rewrite Hd', Hd, app_assoc. reflexivity.
  - specialize (Hh _ _ eq_refl). discriminate.
  - exists d. split; [assumption|]. right. right. cbn. repeat split; try assumption.
    discriminate.
Qed.

Lemma forallb_In {X} (p : X -> bool) (l : list X) (x : X) :
  forallb p l = true -> In x l -> p x = true.
Proof. intros H Hx. rewrite forallb_forall in H. auto. Qed.

Lemma awake_not_published d : forallb awake d = true -> existsb publish_ok d = false.
Proof.
  induction d as [|e d IH]; cbn; [reflexivity|].
  intros H. apply andb_prop in H as [He Hd]. rewrite (IH Hd), orb_false_r.
  destruct e; try reflexivity. destruct ok; [discriminate|reflexivity].
Qed.

Lemma sampling_quiet r1 r2 mv : forallb quiet (sampling r1 r2 mv) = true.
Proof. reflexivity. Qed.

Lemma failure_tail_awake payload : forallb awake (failure_tail payload) = true.
Proof. reflexivity. Qed.

(** ** The telemetry task and the wake cycle, by cases *)

Lemma forever_iteration_cases env fuel n s :
  exists pre, forallb awake pre = true /\
    ((exists s' r1 r2 mv,
         forever n (MQTTTask_iteration env fuel) s = Stop DeepSleep s'
         /\ bootCount s' = uint32 (bootCount s + 1)
         /\ history s' = (history s ++ pre ++ sampling r1 r2 mv
                            ++ sleep_tail (record (bootCount s) r1 r2 mv))%list)
     \/ (exists s',
         forever n (MQTTTask_iteration env fuel) s = OutOfFuel s'
         /\ bootCount s' = bootCount s
         /\ history s' = (history s ++ pre)%list)).
Proof.
  revert s. induction n as [|n IH]; intros s.
  - exists []. split; [reflexivity|]. right. exists s. cbn.
    rewrite app_nil_r. auto.
  - cbn [forever]. unfold bind.
    destruct (MQTTTask_iteration_cases env fuel s) as (pre & Hq & [A | [B | C]]).
    + destruct A as (s' & r1 & r2 & mv & -> & _ & _ & Hb & Hh).
      exists pre. split; [apply quiet_awake; assumption|]. left. eauto 10.
    + destruct B as (s1 & r1 & r2 & mv & -> & _ & _ & Hb & Hh).
      destruct (IH s1) as (pre' & Hq' & [A' | C']).
      * destruct A' as (s' & r1' & r2' & mv' & -> & Hb' & Hh').
        exists (pre ++ sampling r1 r2 mv ++ failure_tail (record (bootCount s) r1 r2 mv)
                  ++ pre')%list.
        split.
        { rewrite !forallb_app, (quiet_awake _ Hq), Hq'. reflexivity. }
        left. exists s', r1', r2', mv'. split; [reflexivity|].
        split; [congruence|]. rewrite Hh', Hh, Hb, <- !app_assoc. reflexivity.
      * destruct C' as (s' & -> & Hb' & Hh').
        exists (pre ++ sampling r1 r2 mv ++ failure_tail (record (bootCount s) r1 r2 mv)
                  ++ pre')%list.
        split.
        { rewrite !forallb_app, (quiet_awake _ Hq), Hq'. reflexivity. }
        right. exists s'. split; [reflexivity|]. split; [congruence|].
        rewrite Hh', Hh, <- !app_assoc. reflexivity.
    + destruct C as (Hn & Hb & Hh).
      destruct (MQTTTask_iteration env fuel s) as [[] s1 | h s1 | s1]; cbn in Hb, Hh.
      * destruct (IH s1) as (pre' & Hq' & [A' | C']).
        -- destruct A' as (s' & r1' & r2' & mv' & -> & Hb' & Hh').
           exists (pre ++ pre')%list. split.
           { rewrite forallb_app, (quiet_awake _ Hq), Hq'. reflexivity. }
           left. exists s', r1', r2', mv'. split; [reflexivity|].
           split; [congruence|]. rewrite Hh', Hh, Hb, <- !app_assoc. reflexivity.
        -- destruct C' as (s' & -> & Hb' & Hh').
           exists (pre ++ pre')%list. split.
           { rewrite forallb_app, (quiet_awake _ Hq), Hq'. reflexivity. }
           right. exists s'. split; [reflexivity|]. split; [congruence|].
           rewrite Hh', Hh, <- !app_assoc. reflexivity.
      * exfalso. exact (Hn h s1 eq_refl).
      * exists pre. split; [apply quiet_awake; assumption|]. right. eauto.
Qed.

Lemma wake_cycle_cases env fuel s :
  exists pre, forallb awake pre = true /\
    ((exists s' r1 r2 mv,
         wake_cycle env fuel s = Stop DeepSleep s'
         /\ bootCount s' = uint32 (bootCount s + 1)
         /\ history s' = (history s ++ pre ++ sampling r1 r2 mv
                            ++ sleep_tail (record (bootCount s) r1 r2 mv))%list)
     \/ (bootCount (final (wake_cycle env fuel s)) = bootCount s
         /\ history (final (wake_cycle env fuel s)) = (history s ++ pre)%list
         /\ forall s', wake_cycle env fuel s <> Stop DeepSleep s')).
Proof.
  unfold wake_cycle, bind.
  destruct (setup_frame env fuel s) as (Hb & (d & Hd & Hq) & Hs).
  destruct (setup env fuel s) as [[] s1 | h s1 | s1]; cbn in Hb, Hd.
  - unfold MQTTTask.
    destruct (forever_iteration_cases env fuel fuel s1) as (pre & Hq' & [A | C]).
    + destruct A as (s' & r1 & r2 & mv & -> & Hb' & Hh').
      exists (d ++ pre)%list. split.
      { rewrite forallb_app, (quiet_awake _ Hq), Hq'. reflexivity. }
      left. exists s', r1, r2, mv. split; [reflexivity|]. split; [congruence|].
      rewrite Hh', Hd, Hb, <- !app_assoc. reflexivity.
    + destruct C as (s' & -> & Hb' & Hh').
      exists (d ++ pre)%list. split.
      { rewrite forallb_app, (quiet_awake _ Hq), Hq'. reflexivity. }
      right. cbn. split; [congruence|].
      split; [rewrite Hh', Hd, <- !app_assoc; reflexivity|discriminate].
  - exists d. split; [apply quiet_awake; assumption|]. right. cbn.
    split; [assumption|]. split; [assumption|].
    intros s' [= -> _]. specialize (Hs _ _ eq_refl). discriminate.
  - exists d. split; [apply quiet_awake; assumption|]. right. cbn.
    split; [assumption|]. split; [assumption|discriminate].
Qed.

Lemma published_sleep_tail s s' pre payload :
  history s' = (history s ++ pre ++ sleep_tail payload)%list -> published s s' = true.
Proof.
  intros H. unfold published. rewrite (events_since_app _ _ _ H).
  rewrite existsb_app. cbn. apply orb_true_r.
Qed.

(** With the healthy environment one unit of fuel is enough for a whole
    cycle, from any state. *)
Lemma healthy_setup s : exists s1, setup healthy 1 s = Done tt s1.
Proof.
  destruct s as [bc led pek own hist].
  unfold setup, setupOTA, while. fw_eval.
  cbv beta iota delta [healthy env_axp_begin env_wifi_status env_localIP
    wl_status_eqb Z.eqb negb].
  destruct led; eexists; reflexivity.
Qed.

Lemma healthy_task s : exists s', MQTTTask healthy 1 s = Stop DeepSleep s'.
Proof.
  destruct s as [bc led pek own hist].
  unfold MQTTTask, forever, MQTTTask_iteration, reconnectToMQTT, while, mqtt_pub.
  fw_eval.
  cbv beta iota delta [healthy env_wifi_status env_mqtt_connected env_mqtt_publish
    wl_status_eqb negb].
  eexists. reflexivity.
Qed.

Lemma healthy_wake_cycle s :
  exists s' pre payload,
    wake_cycle healthy 1 s = Stop DeepSleep s'
    /\ history s' = (history s ++ pre ++ sleep_tail payload)%list.
Proof.
  destruct (wake_cycle_cases healthy 1 s) as (pre & Hq & [A | C]).
  - destruct A as (s' & r1 & r2 & mv & E & _ & Hh).
    exists s', (pre ++ sampling r1 r2 mv)%list, (record (bootCount s) r1 r2 mv).
    split; [exact E|]. rewrite Hh, <- !app_assoc. reflexivity.
  - exfalso. destruct C as (_ & _ & Hn).
    destruct (healthy_setup s) as (s1 & E1). destruct (healthy_task s1) as (s' & E2).
    apply (Hn s'). unfold wake_cycle, bind. rewrite E1. exact E2.
Qed.

Lemma healthy_cycles n s : exists s', cycles healthy 1 n s = Some s'.
Proof.
  revert s. induction n as [|n IH]; intros s; cbn [cycles].
  - eauto.
  - destruct (healthy_wake_cycle s) as (s' & pre & payload & E & H).
    rewrite E. cbn [final]. rewrite (published_sleep_tail _ _ _ _ H). apply IH.
Qed.

Lemma uint32_succ a : uint32 (uint32 a + 1) = uint32 (a + 1).
Proof. unfold uint32. rewrite Z.add_mod_idemp_l by lia. reflexivity. Qed.

Lemma iter_shift {X} (f : X -> X) n x : Nat.iter n f (f x) = f (Nat.iter n f x).
Proof.
  unfold Nat.iter. induction n as [|n IH]; cbn [nat_rect]; [reflexivity|].
  rewrite IH. reflexivity.
Qed.

Lemma cycles_bootCount env fuel n s s' :
  cycles env fuel n s = Some s' ->
  bootCount s' = Nat.iter n (fun b => uint32 (b + 1)) (bootCount s).
Proof.
  revert s. induction n as [|n IH]; intros s; cbn [cycles].
  - intros [= <-]. reflexivity.
  - destruct (published s (final (wake_cycle env fuel s))) eqn:P; [|discriminate].
    destruct (wake_cycle_cases env fuel s) as (pre & Hq & [A | C]).
    + destruct A as (s1 & r1 & r2 & mv & E & Hb & Hh). rewrite E. cbn [final].
      intros Hc. rewrite (IH _ Hc). cbn [wake bootCount]. rewrite Hb.
      exact (iter_shift (fun b => uint32 (b + 1)) n (bootCount s)).
    + destruct C as (_ & Hh & _). unfold published in P.
      rewrite (events_since_app _ _ _ Hh), (awake_not_published _ Hq) in P.
      discriminate.
Qed.

Lemma iter_uint32_succ n b :
  0 <= b < 2 ^ 32 ->
  Nat.iter n (fun b => uint32 (b + 1)) b = uint32 (b + Z.of_nat n).
Proof.
  intros Hb. induction n as [|n IH].
  - cbn. rewrite Z.add_0_r. symmetry. apply Z.mod_small. assumption.
  - change (Nat.iter (S n) (fun b0 => uint32 (b0 + 1)) b)
      with (uint32 (Nat.iter n (fun b0 => uint32 (b0 + 1)) b + 1)).
    rewrite IH, uint32_succ. f_equal. lia.
Qed.

(** C1 (as amended).  In a wake cycle with an accepted publish the telemetry
    task adds one to the boot counter modulo 2^32 (it is a [uint32_t]), arms
    the wake timer with 30 000 000 microseconds and enters deep sleep, which
    ends the run; nothing was published or put to sleep before.  After [n]
    such cycles in a row the counter is its first value plus [n] modulo 2^32,
    hence exactly plus [n] as long as that stays below 2^32; with the healthy
    environment every number of cycles is completed. *)
Theorem C1_boot_counter (env : Env) (fuel : nat) (s : State) :
  0 <= bootCount s < 2 ^ 32 ->
  (published s (final (wake_cycle env fuel s)) = true ->
   exists s' pre payload,
     wake_cycle env fuel s = Stop DeepSleep s'
     /\ bootCount s' = (bootCount s + 1) mod 2 ^ 32
     /\ events (wake_cycle env fuel) s =
          (pre ++ [ev_mqtt_publish mqttTopicPub payload true;
                   ev_xSemaphoreTake TelemetryTask;
                   ev_Serial_println payload;
                   ev_Serial_println "Going to sleep until next TX...";
                   ev_xSemaphoreGive TelemetryTask;
                   ev_esp_sleep_enable_timer_wakeup 30000000;
                   ev_esp_deep_sleep_start])%list
     /\ forallb awake pre = true)
  /\ (forall n s', cycles env fuel n s = Some s' ->
        bootCount s' = (bootCount s + Z.of_nat n) mod 2 ^ 32
        /\ (bootCount s + Z.of_nat n < 2 ^ 32 -> bootCount s' = bootCount s + Z.of_nat n))
  /\ (forall n, exists s', cycles healthy 1 n s = Some s').
Proof.
  intros Hrange. split; [|split].
  - intros P.
    destruct (wake_cycle_cases env fuel s) as (pre & Hq & [A | C]).
    + destruct A as (s' & r1 & r2 & mv & E & Hb & Hh).
      exists s', (pre ++ sampling r1 r2 mv)%list, (record (bootCount s) r1 r2 mv).
      split; [assumption|]. split; [exact Hb|]. split.
      * unfold events. rewrite E. cbn [final]. apply events_since_app.
        rewrite Hh, <- !app_assoc. reflexivity.
      * rewrite forallb_app, Hq. reflexivity.
    + destruct C as (_ & Hh & _). unfold published in P.
      rewrite (events_since_app _ _ _ Hh), (awake_not_published _ Hq) in P.
      discriminate.
  - intros n s' Hc.
    assert (Hb : bootCount s' = (bootCount s + Z.of_nat n) mod 2 ^ 32).
    { rewrite (cycles_bootCount _ _ _ _ _ Hc). apply iter_uint32_succ. assumption. }
    split; [assumption|]. intros Hlt. rewrite Hb. apply Z.mod_small. lia.
  - intros n. apply healthy_cycles.
Qed.

Lemma C1_boot_counter_witness :
  0 <= bootCount power_on < 2 ^ 32
  /\ published power_on (final (wake_cycle healthy 1 power_on)) = true
  /\ (exists s', wake_cycle healthy 1 power_on = Stop DeepSleep s' /\ bootCount s' = 2)
  /\ (exists s', cycles healthy 1 3 power_on = Some s' /\ bootCount s' = 4).
Proof.
  assert (R : 0 <= bootCount power_on < 2 ^ 32) by (cbn; lia).
  assert (P : published power_on (final (wake_cycle healthy 1 power_on)) = true)
    by (vm_compute; reflexivity).
  destruct (C1_boot_counter healthy 1 power_on R) as (H1 & H2 & _).
  split; [exact R|]. split; [exact P|]. split.
  - destruct (H1 P) as (s' & pre & payload & E & Hb & _).
    exists s'. split; [exact E|]. rewrite Hb. reflexivity.
  - destruct (cycles healthy 1 3 power_on) as [s'|] eqn:E.
    + exists s'. split; [reflexivity|].
      destruct (H2 3%nat s' E) as [Hb _]. rewrite Hb. reflexivity.
    + vm_compute in E. discriminate.
Defined.

Lemma C1_counterexample :
  exists s',
    wake_cycle healthy 1 (with_bootCount 4294967295) = Stop DeepSleep s'
    /\ published (with_bootCount 4294967295) s' = true
    /\ bootCount s' = 0
    /\ bootCount s' <> bootCount (with_bootCount 4294967295) + 1.
Proof.
  eexists. split; [vm_compute; reflexivity|].
  split; [vm_compute; reflexivity|]. split; [vm_compute; reflexivity|].
  vm_compute. discriminate.
Qed.

(** ** A refused publish *)

Lemma quiet_no_publish d topic payload ok :
  forallb quiet d = true -> ~ In (ev_mqtt_publish topic payload ok) d.
Proof. intros H Hin. apply (forallb_In _ _ _ H) in Hin. discriminate. Qed.

Lemma in_sleep_tail topic payload ok x :
  In (ev_mqtt_publish topic payload ok) (sleep_tail x) ->
  topic = mqttTopicPub /\ payload = x /\ ok = true.
Proof.
  unfold sleep_tail. cbn [In].
  intros [H | [H | [H | [H | [H | [H | [H | []]]]]]]]; try discriminate H.
  injection H as <- <- <-. auto.
Qed.

Lemma in_failure_tail topic payload ok x :
  In (ev_mqtt_publish topic payload ok) (failure_tail x) ->
  topic = mqttTopicPub /\ payload = x /\ ok = false.
Proof.
  unfold failure_tail. cbn [In].
  intros [H | [H | [H | [H | [H | []]]]]]; try discriminate H.
  injection H as <- <- <-. auto.
Qed.

Lemma in_after_quiet topic payload ok pre r1 r2 mv tail :
  forallb quiet pre = true ->
  In (ev_mqtt_publish topic payload ok) (pre ++ sampling r1 r2 mv ++ tail) ->
  In (ev_mqtt_publish topic payload ok) tail.
Proof.
  intros Hq Hin.
  apply in_app_or in Hin as [Hin | Hin];
    [exfalso; exact (quiet_no_publish _ _ _ _ Hq Hin)|].
  apply in_app_or in Hin as [Hin | Hin];
    [exfalso; exact (quiet_no_publish _ _ _ _ (sampling_quiet _ _ _) Hin)|].
  exact Hin.
Qed.

(** C3.  In an iteration of the telemetry task whose publish is refused, the
    iteration returns (no deep sleep), the boot counter is unchanged, the
    refused publish is the only publish of the iteration and it is followed
    by nothing but the failure line, written under the console lock, and the
    100 ms delay that ends the iteration; the next iteration starts over. *)
Theorem C3_publish_failure (env : Env) (fuel : nat) (s : State)
    (topic payload : string) :
  In (ev_mqtt_publish topic payload false) (events (MQTTTask_iteration env fuel) s) ->
  exists s' pre,
    MQTTTask_iteration env fuel s = Done tt s'
    /\ bootCount s' = bootCount s
    /\ events (MQTTTask_iteration env fuel) s =
         (pre ++ [ev_mqtt_publish topic payload false;
                  ev_xSemaphoreTake TelemetryTask;
                  ev_Serial_println "Failed to publish data";
                  ev_xSemaphoreGive TelemetryTask;
                  ev_vTaskDelay 100])%list
    /\ forallb quiet pre = true
    /\ (forall n, forever (S n) (MQTTTask_iteration env fuel) s
                  = forever n (MQTTTask_iteration env fuel) s').
Proof.
  intros Hin. unfold events in *.
  destruct (MQTTTask_iteration_cases env fuel s) as (pre & Hq & [A | [B | C]]).
  - exfalso. destruct A as (s' & r1 & r2 & mv & E & _ & _ & _ & Hh).
    rewrite E in Hin. cbn [final] in Hin. rewrite (events_since_app _ _ _ Hh) in Hin.
    apply in_after_quiet in Hin; [|exact Hq].
    apply in_sleep_tail in Hin as (_ & _ & Hok). discriminate.
  - destruct B as (s' & r1 & r2 & mv & E & _ & _ & Hb & Hh).
    rewrite E in *. cbn [final] in *. rewrite (events_since_app _ _ _ Hh) in *.
    apply in_after_quiet in Hin; [|exact Hq].
    apply in_failure_tail in Hin as (-> & -> & _).
    exists s', (pre ++ sampling r1 r2 mv)%list.
    split; [reflexivity|]. split; [exact Hb|]. split.
    + rewrite <- !app_assoc. reflexivity.
    + split; [rewrite forallb_app, Hq; reflexivity|].
      intros n. cbn [forever]. unfold bind. rewrite E. reflexivity.
  - exfalso. destruct C as (_ & _ & Hh).
    rewrite (events_since_app _ _ _ Hh) in Hin.
    exact (quiet_no_publish _ _ _ _ Hq Hin).
Qed.

Lemma C3_publish_failure_witness :
  exists s',
    MQTTTask_iteration refusing 1 (with_bootCount 7) = Done tt s'
    /\ bootCount s' = 7.
Proof.
  destruct (C3_publish_failure refusing 1 (with_bootCount 7) mqttTopicPub
              (record 7 2500 1500 4100)) as (s' & pre & E & Hb & _).
  - vm_compute. tauto.
  - exists s'. split; [exact E|exact Hb].
Defined.

(** ** One iteration of the power task, run in full *)

Lemma PEKTask_iteration_run env s :
  PEKTask_iteration env s =
  let irq := if pek_irq env s then [ev_IRQ] else [] in
  if pek_seen env s then
    if pek_long env s then
      Stop PowerOff
        {| bootCount := bootCount s; ledState := ledState s; pekPressed := false;
           serial_owner := None;
           history := (history s ++ irq
                         ++ [ev_pekPressed_read true; ev_pekPressed_write false;
                             ev_axp_readIRQ; ev_axp_isPEKLongtPressIRQ true]
                         ++ shutdown_tail)%list |}
    else
      Done tt
        {| bootCount := bootCount s; ledState := ledState s; pekPressed := false;
           serial_owner := serial_owner s;
           history := (history s ++ irq
                         ++ [ev_pekPressed_read true; ev_pekPressed_write false;
                             ev_axp_readIRQ; ev_axp_isPEKLongtPressIRQ false;
                             ev_axp_clearIRQ; ev_vTaskDelay 100])%list |}
  else
    Done tt
      {| bootCount := bootCount s; ledState := ledState s; pekPressed := false;
         serial_owner := serial_owner s;
         history := (history s ++ irq
                       ++ [ev_pekPressed_read false; ev_vTaskDelay 100])%list |}.
Proof.
  unfold pek_long, pek_seen, pek_irq.
  destruct s as [bc led pek own hist].
  unfold PEKTask_iteration, shutdown_tail. fw_eval.
  destruct (env_irq_fires env hist); [|destruct pek]; cbv iota;
    norm_hist; try (destruct (env_longPress env _)); norm_hist; reflexivity.
Qed.

(** The events of the iteration, by the same cases. *)
Lemma PEKTask_iteration_events env s :
  events (PEKTask_iteration env) s =
  ((if pek_irq env s then [ev_IRQ] else [])
     ++ (if pek_seen env s then
           [ev_pekPressed_read true; ev_pekPressed_write false; ev_axp_readIRQ;
            ev_axp_isPEKLongtPressIRQ (pek_long env s)]
           ++ (if pek_long env s then shutdown_tail
               else [ev_axp_clearIRQ; ev_vTaskDelay 100])
         else [ev_pekPressed_read false; ev_vTaskDelay 100]))%list.
Proof.
  unfold events. rewrite PEKTask_iteration_run. cbv zeta.
  apply events_since_app.
  destruct (pek_seen env s); [destruct (pek_long env s)|];
    cbn [final history]; norm_hist; reflexivity.
Qed.

Ltac in_cases H :=
  cbn [app In] in H;
  repeat (destruct H as [H | H]; [try discriminate H|]);
  try contradiction.

Lemma PEK_seen env s :
  In (ev_pekPressed_read true) (events (PEKTask_iteration env) s) ->
  pek_seen env s = true.
Proof.
  rewrite PEKTask_iteration_events. unfold shutdown_tail.
  destruct (pek_seen env s); [reflexivity|].
  destruct (pek_irq env s); intros H; in_cases H.
Qed.

Lemma PEK_classified env s lp :
  In (ev_axp_isPEKLongtPressIRQ lp) (events (PEKTask_iteration env) s) ->
  pek_seen env s = true /\ pek_long env s = lp.
Proof.
  rewrite PEKTask_iteration_events. unfold shutdown_tail.
  destruct (pek_seen env s), (pek_irq env s), (pek_long env s);
    intros H; in_cases H; try (injection H as <-); auto.
Qed.

(** ** The power task's classification pass *)

(** C4.  In a pass of the power task that reads the press flag as true, the
    very next event is the write of false to the flag, and only then comes
    the query of the power controller ([readIRQ], [isPEKLongtPressIRQ]).
    Whatever the answer of the controller the flag is false in the last state
    of the pass; the pass returns whenever the cause is not a long press. *)
Theorem C4_press_flag_cleared_first (env : Env) (s : State) :
  In (ev_pekPressed_read true) (events (PEKTask_iteration env) s) ->
  (exists irq lp rest,
      events (PEKTask_iteration env) s =
        (irq ++ [ev_pekPressed_read true; ev_pekPressed_write false;
                 ev_axp_readIRQ; ev_axp_isPEKLongtPressIRQ lp] ++ rest)%list
      /\ (irq = [] \/ irq = [ev_IRQ])
      /\ (lp = false -> exists s', PEKTask_iteration env s = Done tt s'))
  /\ pekPressed (final (PEKTask_iteration env s)) = false
  /\ (forall s', PEKTask_iteration env s = Done tt s' -> pekPressed s' = false).
Proof.
  intros Hin. apply PEK_seen in Hin.
  rewrite PEKTask_iteration_events, PEKTask_iteration_run, Hin. cbv zeta.
  split; [|split].
  - exists (if pek_irq env s then [ev_IRQ] else []), (pek_long env s).
    eexists. split; [reflexivity|].
    split; [destruct (pek_irq env s); auto|].
    intros ->. eexists. reflexivity.
  - destruct (pek_long env s); reflexivity.
  - destruct (pek_long env s); intros s' [= <-]; reflexivity.
Qed.

Lemma C4_press_flag_cleared_first_witness :
  In (ev_pekPressed_read true) (events (PEKTask_iteration short_press) power_on)
  /\ pekPressed (final (PEKTask_iteration short_press power_on)) = false.
Proof.
  assert (H : In (ev_pekPressed_read true)
                 (events (PEKTask_iteration short_press) power_on))
    by (vm_compute; tauto).
  split; [exact H|].
  exact (proj1 (proj2 (C4_press_flag_cleared_first short_press power_on H))).
Defined.

(** C5.  A pass that classifies the interrupt as a long press ends in the
    power-off command: the events after the classification are the lock
    taken, one diagnostic line, the lock given, a 100 ms pause and one
    [shutdown], which stops the run; the pass has exactly one shutdown and
    one printed line.  A pass with any other classification has no shutdown
    and no printed line: it re-arms the interrupt, waits the 100 ms of the
    idle poll and returns. *)
Theorem C5_long_press_shutdown (env : Env) (s : State) (lp : bool) :
  In (ev_axp_isPEKLongtPressIRQ lp) (events (PEKTask_iteration env) s) ->
  let evs := events (PEKTask_iteration env) s in
  if lp then
    exists s' pre,
      PEKTask_iteration env s = Stop PowerOff s'
      /\ evs = (pre ++ [ev_axp_isPEKLongtPressIRQ true;
                        ev_xSemaphoreTake PowerTask;
                        ev_Serial_println "Long press detected: Shutting down...";
                        ev_xSemaphoreGive PowerTask;
                        ev_vTaskDelay 100;
                        ev_axp_shutdown])%list
      /\ List.length (filter is_shutdown evs) = 1%nat
      /\ List.length (filter is_serial_write evs) = 1%nat
  else
    exists s' pre,
      PEKTask_iteration env s = Done tt s'
      /\ evs = (pre ++ [ev_axp_isPEKLongtPressIRQ false; ev_axp_clearIRQ;
                        ev_vTaskDelay 100])%list
      /\ filter is_shutdown evs = []
      /\ filter is_serial_write evs = [].
Proof.
  intros Hin evs. subst evs. apply PEK_classified in Hin as [P L].
  rewrite PEKTask_iteration_events, PEKTask_iteration_run, P, L. cbv zeta.
  unfold shutdown_tail.
  destruct lp.
  - eexists.
    exists ((if pek_irq env s then [ev_IRQ] else [])
              ++ [ev_pekPressed_read true; ev_pekPressed_write false; ev_axp_readIRQ])%list.
    split; [reflexivity|]. split; [norm_hist; reflexivity|].
    destruct (pek_irq env s); split; reflexivity.
  - eexists.
    exists ((if pek_irq env s then [ev_IRQ] else [])
              ++ [ev_pekPressed_read true; ev_pekPressed_write false; ev_axp_readIRQ])%list.
    split; [reflexivity|]. split; [norm_hist; reflexivity|].
    destruct (pek_irq env s); split; reflexivity.
Qed.

Lemma C5_long_press_shutdown_witness :
  In (ev_axp_isPEKLongtPressIRQ true) (events (PEKTask_iteration long_press) power_on)
  /\ (exists s', PEKTask_iteration long_press power_on = Stop PowerOff s')
  /\ In (ev_axp_isPEKLongtPressIRQ false) (events (PEKTask_iteration short_press) power_on)
  /\ (exists s', PEKTask_iteration short_press power_on = Done tt s').
Proof.
  assert (H1 : In (ev_axp_isPEKLongtPressIRQ true)
                  (events (PEKTask_iteration long_press) power_on))
    by (vm_compute; tauto).
  assert (H2 : In (ev_axp_isPEKLongtPressIRQ false)
                  (events (PEKTask_iteration short_press) power_on))
    by (vm_compute; tauto).
  split; [exact H1|]. split.
  - destruct (C5_long_press_shutdown long_press power_on true H1) as (s' & pre & E & _).
    exists s'. exact E.
  - split; [exact H2|].
    destruct (C5_long_press_shutdown short_press power_on false H2) as (s' & pre & E & _).
    exists s'. exact E.
Defined.

(** ** The power task in program order *)

Lemma shutdown_call_never_returns : shutdown_call (fun _ => false) = axp_shutdown.
Proof. reflexivity. Qed.

Lemma PEKTask_pass_axp_shutdown env : PEKTask_pass env axp_shutdown = PEKTask_iteration env.
Proof. reflexivity. Qed.




(** ** Start-up without the power-management chip *)

(** C8.  If [axp.begin] does not return 0, start-up prints "AXP192 not
    detected!" and halts in [while(1);]: whatever the fuel, the run of the
    whole wake cycle is that of [setup] and stops there, after five events,
    none of which creates a task, samples or publishes. *)
Theorem C8_halt_without_chip (env : Env) (fuel : nat) (s : State) :
  chip_probe env s <> 0 ->
  exists s',
    setup env fuel s = Stop Hang s'
    /\ wake_cycle env fuel s = Stop Hang s'
    /\ events (wake_cycle env fuel) s =
         [ ev_Serial_begin 115200;
           ev_Serial_println "Soil Quality Sensor Beta";
           ev_Wire_begin 21 22;
           ev_axp_begin (chip_probe env s);
           ev_Serial_println "AXP192 not detected!" ]
    /\ existsb task_or_telemetry (events (wake_cycle env fuel) s) = false.
Proof.
  intros Hrc.
  assert (E : setup env fuel s =
              Stop Hang
                {| bootCount := bootCount s; ledState := ledState s;
                   pekPressed := pekPressed s; serial_owner := serial_owner s;
                   history := (history s ++
                     [ ev_Serial_begin 115200;
                       ev_Serial_println "Soil Quality Sensor Beta";
                       ev_Wire_begin 21 22;
                       ev_axp_begin (chip_probe env s);
                       ev_Serial_println "AXP192 not detected!" ])%list |}).
  { unfold chip_probe in *. destruct s as [bc led pek own hist].
    unfold setup. fw_eval. cbn [history] in Hrc. norm_hist.
    destruct (Z.eqb_spec (env_axp_begin env
      (hist ++ [ev_Serial_begin 115200; ev_Serial_println "Soil Quality Sensor Beta";
                ev_Wire_begin SDA_PIN SCL_PIN])) 0) as [H0 | _]; [contradiction|].
    norm_hist. reflexivity. }
  assert (W : wake_cycle env fuel s = setup env fuel s).
  { unfold wake_cycle, bind. rewrite E. reflexivity. }
  eexists. split; [exact E|]. split; [rewrite W; exact E|].
  assert (Ev : events (wake_cycle env fuel) s =
               [ ev_Serial_begin 115200;
                 ev_Serial_println "Soil Quality Sensor Beta";
                 ev_Wire_begin 21 22;
                 ev_axp_begin (chip_probe env s);
                 ev_Serial_println "AXP192 not detected!" ]).
  { unfold events. rewrite W, E. apply events_since_app. reflexivity. }
  split; [exact Ev|]. rewrite Ev. reflexivity.
Qed.

Lemma C8_halt_without_chip_witness :
  chip_probe no_chip power_on <> 0
  /\ exists s', wake_cycle no_chip 5 power_on = Stop Hang s'.
Proof.
  assert (H : chip_probe no_chip power_on <> 0) by (vm_compute; discriminate).
  split; [exact H|].
  destruct (C8_halt_without_chip no_chip 5 power_on H) as (s' & _ & E & _).
  exists s'. exact E.
Defined.

(** ** Reconnection to the broker *)

Lemma reconnect_attempt_run env s :
  exists a s',
    reconnect_attempt env s = Done tt s'
    /\ bootCount s' = bootCount s
    /\ serial_owner s' = None
    /\ history s' = (history s ++ tl (attempt_events a))%list.
Proof.
  destruct s as [bc led pek own hist].
  unfold reconnect_attempt. fw_eval.
  destruct (env_mqtt_connect env _) eqn:C.
  - exists Connected. eexists. split; [reflexivity|].
    cbn [bootCount serial_owner history attempt_events attempt_ok tl app].
    repeat split. norm_hist. reflexivity.
  - eexists (Failed _). eexists. split; [reflexivity|].
    cbn [bootCount serial_owner history attempt_events attempt_ok tl app].
    repeat split. norm_hist. reflexivity.
Qed.

Lemma attempt_events_cons a :
  attempt_events a = ev_mqtt_connected false :: tl (attempt_events a).
Proof. destruct a; reflexivity. Qed.

(** One unfolding of the loop of [reconnectToMQTT]. *)
Lemma reconnectToMQTT_step env fuel s :
  reconnectToMQTT env fuel s =
  if env_mqtt_connected env (history s) then Done tt (log (ev_mqtt_connected true) s)
  else match fuel with
       | O => OutOfFuel (log (ev_mqtt_connected false) s)
       | S f =>
           match reconnect_attempt env (log (ev_mqtt_connected false) s) with
           | Done _ s1 => reconnectToMQTT env f s1
           | Stop h s1 => Stop h s1
           | OutOfFuel s1 => OutOfFuel s1
           end
       end.
Proof.
  unfold reconnectToMQTT. destruct fuel; cbn [while];
    unfold bind, mqttClient_connected, call, ret;
    destruct (env_mqtt_connected env (history s)); reflexivity.
Qed.

Lemma reconnectToMQTT_rounds env fuel s :
  exists rounds,
    (exists s',
        reconnectToMQTT env fuel s = Done tt s'
        /\ (List.length rounds <= fuel)%nat
        /\ history s' = (history s ++ flat_map attempt_events rounds
                           ++ [ev_mqtt_connected true])%list)
    \/ (exists s',
        reconnectToMQTT env fuel s = OutOfFuel s'
        /\ List.length rounds = fuel
        /\ history s' = (history s ++ flat_map attempt_events rounds
                           ++ [ev_mqtt_connected false])%list).
Proof.
  revert s. induction fuel as [|f IH]; intros s; rewrite reconnectToMQTT_step;
    destruct (env_mqtt_connected env (history s)) eqn:C.
  - exists []. left. eexists. split; [reflexivity|]. split; [apply Nat.le_0_l|].
    reflexivity.
  - exists []. right. eexists. split; [reflexivity|]. split; reflexivity.
  - exists []. left. eexists. split; [reflexivity|]. split; [apply Nat.le_0_l|].
    reflexivity.
  - destruct (reconnect_attempt_run env (log (ev_mqtt_connected false) s))
      as (a & s1 & E & _ & _ & Hh).
    rewrite E. cbn [history log] in Hh.
    destruct (IH s1) as (rounds & [D | O]).
    + destruct D as (s' & E' & Hl & Hh'). exists (a :: rounds). left.
      exists s'. split; [exact E'|]. split; [cbn; lia|].
      rewrite Hh', Hh. cbn [flat_map]. rewrite (attempt_events_cons a).
      norm_hist. reflexivity.
    + destruct O as (s' & E' & Hl & Hh'). exists (a :: rounds). right.
      exists s'. split; [exact E'|]. split; [cbn; lia|].
      rewrite Hh', Hh. cbn [flat_map]. rewrite (attempt_events_cons a).
      norm_hist. reflexivity.
Qed.

Lemma attempt_delays rounds :
  filter is_delay (flat_map attempt_events rounds)
  = repeat (ev_vTaskDelay 5000) (count_failed rounds).
Proof.
  unfold count_failed. induction rounds as [|a rounds IH]; [reflexivity|].
  cbn [flat_map]. rewrite filter_app, IH. destruct a; reflexivity.
Qed.

(** With a broker that refuses [n] connections in a row the routine makes
    all [n] attempts, each followed by its wait, and returns after the next. *)
Lemma flaky_reconnect n k s :
  (k <= n)%nat ->
  List.length (filter connect_tried (history s)) = (n - k)%nat ->
  existsb connect_accepted (history s) = false ->
  exists s',
    reconnectToMQTT (flaky n) (S k) s = Done tt s'
    /\ history s' = (history s
                       ++ flat_map attempt_events (repeat (Failed (-2)) k ++ [Connected])
                       ++ [ev_mqtt_connected true])%list.
Proof.
  revert s. induction k as [|k IH]; intros s Hk Ht Ha;
    rewrite reconnectToMQTT_step;
    change (env_mqtt_connected (flaky n) (history s))
      with (existsb connect_accepted (history s)); rewrite Ha.
  - assert (E : exists s1,
      reconnect_attempt (flaky n) (log (ev_mqtt_connected false) s) = Done tt s1
      /\ history s1 = (history s ++ attempt_events Connected)%list).
    { destruct s as [bc led pek own hist]. cbn [history] in *.
      unfold reconnect_attempt. fw_eval.
      cbv beta iota delta [flaky env_mqtt_connect env_mqtt_state].
      rewrite !filter_app, !length_app, Ht. cbn [filter connect_tried List.length].
      replace (n <=? n - 0 + 0 + 0 + 0 + 0)%nat with true
        by (symmetry; apply Nat.leb_le; lia).
      cbv iota. eexists. split; [reflexivity|]. cbn [history].
      norm_hist. reflexivity. }
    destruct E as (s1 & -> & H1).
    rewrite reconnectToMQTT_step.
    change (env_mqtt_connected (flaky n) (history s1))
      with (existsb connect_accepted (history s1)).
    rewrite H1, existsb_app. cbn [attempt_events attempt_ok app existsb connect_accepted].
    rewrite !orb_true_r.
    eexists. split; [reflexivity|]. cbn [history log]. rewrite H1.
    cbn [repeat app flat_map attempt_events attempt_ok]. norm_hist. reflexivity.
  - assert (E : exists s1,
      reconnect_attempt (flaky n) (log (ev_mqtt_connected false) s) = Done tt s1
      /\ history s1 = (history s ++ attempt_events (Failed (-2)))%list).
    { destruct s as [bc led pek own hist]. cbn [history] in *.
      unfold reconnect_attempt. fw_eval.
      cbv beta iota delta [flaky env_mqtt_connect env_mqtt_state].
      rewrite !filter_app, !length_app, Ht. cbn [filter connect_tried List.length].
      replace (n <=? n - S k + 0 + 0 + 0 + 0)%nat with false
        by (symmetry; apply Nat.leb_gt; lia).
      cbv iota. eexists. split; [reflexivity|]. cbn [history].
      norm_hist. reflexivity. }
    destruct E as (s1 & -> & H1).
    destruct (IH s1) as (s' & E' & H').
    + lia.
    + rewrite H1, filter_app, length_app, Ht. cbn. lia.
    + rewrite H1, existsb_app, Ha. reflexivity.
    + exists s'. split; [exact E'|]. rewrite H', H1.
      cbn [repeat app flat_map]. norm_hist. reflexivity.
Qed.

(** C7.  A run of [reconnectToMQTT] is a sequence of rounds.  Each round
    finds the session down and attempts one connection; a failed attempt is
    followed by the line with the status code, written under the console
    lock, and by one wait of 5000 ms, the same in every round.  The routine
    returns only after [connected()] answered true.  It never gives up: a run
    that has not returned has used all its fuel in rounds that found the
    session down, and against a broker refusing [n] connections in a row it
    makes all [n] attempts and [n] waits and returns after the next one. *)
Theorem C7_reconnect_until_connected (env : Env) (fuel : nat) (s : State) :
  (exists rounds,
      let evs := events (reconnectToMQTT env fuel) s in
      ((exists s',
           reconnectToMQTT env fuel s = Done tt s'
           /\ (List.length rounds <= fuel)%nat
           /\ evs = (flat_map attempt_events rounds ++ [ev_mqtt_connected true])%list)
       \/ (exists s',
           reconnectToMQTT env fuel s = OutOfFuel s'
           /\ List.length rounds = fuel
           /\ evs = (flat_map attempt_events rounds ++ [ev_mqtt_connected false])%list))
      /\ filter is_delay evs = repeat (ev_vTaskDelay 5000) (count_failed rounds))
  /\ (forall n, exists s',
        reconnectToMQTT (flaky n) (S n) power_on = Done tt s'
        /\ filter is_delay (history s') = repeat (ev_vTaskDelay 5000) n).
Proof.
  split.
  - destruct (reconnectToMQTT_rounds env fuel s) as (rounds & [D | O]).
    + destruct D as (s' & E & Hl & Hh). exists rounds. cbv zeta.
      unfold events. rewrite E. cbn [final]. rewrite (events_since_app _ _ _ Hh).
      split; [left; eauto|].
      rewrite filter_app, attempt_delays. cbn. apply app_nil_r.
    + destruct O as (s' & E & Hl & Hh). exists rounds. cbv zeta.
      unfold events. rewrite E. cbn [final]. rewrite (events_since_app _ _ _ Hh).
      split; [right; eauto|].
      rewrite filter_app, attempt_delays. cbn. apply app_nil_r.
  - intros n.
    destruct (flaky_reconnect n n power_on) as (s' & E & Hh).
    + lia.
    + cbn. lia.
    + reflexivity.
    + exists s'. split; [exact E|]. rewrite Hh. cbn [history power_on app].
      rewrite filter_app, attempt_delays. cbn [filter is_delay app].
      rewrite app_nil_r. unfold count_failed.
      rewrite filter_app. cbn [filter attempt_ok negb app]. rewrite app_nil_r.
      f_equal. clear. induction n as [|n IH]; [reflexivity|].
      cbn. rewrite IH. reflexivity.
Qed.

(** ** Rules for the console lock *)

Lemma lock_run_app o d1 d2 :
  lock_run o (d1 ++ d2) =
  match lock_run o d1 with
  | Some o1 => lock_run o1 d2
  | None => None
  end.
Proof.
  revert o. induction d1 as [|e d1 IH]; intros o; cbn; [reflexivity|].
  destruct (lock_step o e); [apply IH|reflexivity].
Qed.

Lemma lk_ret {A} o (a : A) : lk o (ret a) o.
Proof. intros s Hs. exists []. cbn. rewrite app_nil_r. auto. Qed.

Lemma lk_bind {A B} o o1 o2 (m : M A) (k : A -> M B) :
  lk o m o1 -> (forall a, lk o1 (k a) o2) -> lk o (bind m k) o2.
Proof.
  intros Hm Hk s Hs. unfold bind.
  destruct (Hm s Hs) as (d & Hd & H).
  destruct (m s) as [a s1 | h s1 | s1]; cbn in Hd.
  - destruct H as [Hr Ho].
    destruct (Hk a s1 Ho) as (d' & Hd' & H').
    exists (d ++ d')%list. split; [rewrite Hd', Hd, app_assoc; reflexivity|].
    rewrite lock_run_app, Hr. exact H'.
  - exists d. auto.
  - exists d. auto.
Qed.

Lemma lk_emit o e : lock_step o e = Some o -> lk o (emit e) o.
Proof.
  intros He s Hs. exists [e]. cbn. rewrite He. auto.
Qed.

Lemma lk_call {A} o (f : list Event -> A) (ev : A -> Event) :
  (forall a, lock_step o (ev a) = Some o) -> lk o (call f ev) o.
Proof.
  intros He s Hs. eexists [_]. cbn. rewrite He. auto.
Qed.

Lemma lk_get {A} o (f : State -> A) : lk o (get f) o.
Proof. intros s Hs. exists []. cbn. rewrite app_nil_r. auto. Qed.

Lemma lk_modify o (f : State -> State) :
  (forall s, serial_owner (f s) = serial_owner s /\ history (f s) = history s) ->
  lk o (modify f) o.
Proof.
  intros Hf s Hs. destruct (Hf s) as [Ho Hh]. exists []. cbn.
  rewrite app_nil_r. split; [assumption|]. split; [reflexivity|congruence].
Qed.

Lemma lk_stop {A} h o' : lk None (@stop A h) o'.
Proof. intros s Hs. exists []. cbn. rewrite app_nil_r. auto. Qed.

Lemma lk_out_of_fuel {A} o' : lk None (@out_of_fuel A) o'.
Proof. intros s Hs. exists []. cbn. rewrite app_nil_r. auto. Qed.

Lemma lk_when o b m : lk o m o -> lk o (when b m) o.
Proof. destruct b; cbn; auto using lk_ret. Qed.

Lemma lk_while fuel cond body :
  lk None cond None -> lk None body None -> lk None (while fuel cond body) None.
Proof.
  intros Hc Hb. induction fuel as [|f IH]; cbn [while];
    (eapply lk_bind; [exact Hc|]); intros [|];
    eauto using lk_ret, lk_out_of_fuel, lk_bind.
Qed.

Lemma lk_forever fuel body :
  lk None body None -> lk None (forever fuel body) None.
Proof.
  intros Hb. induction fuel as [|f IH]; cbn [forever];
    eauto using lk_out_of_fuel, lk_bind.
Qed.

(** Taking the mutex succeeds: the code that follows runs as its owner. *)
Lemma lk_take_bind {B} t (k : bool -> M B) o' :
  lk (Some t) (k true) o' -> lk None (bind (xSemaphoreTake t) k) o'.
Proof.
  intros Hk s Hs. unfold bind, xSemaphoreTake. cbn.
  destruct (Hk (set_serial_owner (Some t) (log (ev_xSemaphoreTake t) s)) eq_refl)
    as (d & Hd & H).
  cbn [history set_serial_owner log] in Hd.
  exists (ev_xSemaphoreTake t :: d). split; [rewrite Hd, app_assoc1; reflexivity|].
  exact H.
Qed.

Lemma lk_give t : lk (Some t) (xSemaphoreGive t) None.
Proof.
  intros s Hs. exists [ev_xSemaphoreGive t]. cbn. destruct t; cbn; auto.
Qed.

Lemma lk_pending_interrupt env : lk None (pending_interrupt env) None.
Proof.
  intros s Hs. unfold pending_interrupt.
  destruct (env_irq_fires env (history s)).
  - exists [ev_IRQ]. cbn. auto.
  - exists []. cbn. rewrite app_nil_r. auto.
Qed.

Ltac lk_go :=
  lazymatch goal with
  | |- lk None (bind (xSemaphoreTake _) _) _ => apply lk_take_bind; cbn [when]; lk_go
  | |- lk _ (bind _ _) _ => eapply lk_bind; [lk_go | intro; lk_go]
  | |- lk _ (ret _) _ => apply lk_ret
  | |- lk _ (xSemaphoreGive _) _ => apply lk_give
  | |- lk _ (emit _) _ => apply lk_emit; reflexivity
  | |- lk _ (call _ _) _ => apply lk_call; intro; reflexivity
  | |- lk _ (get _) _ => apply lk_get
  | |- lk _ (modify _) _ => apply lk_modify; intro; split; reflexivity
  | |- lk _ (stop _) _ => apply lk_stop
  | |- lk _ out_of_fuel _ => apply lk_out_of_fuel
  | |- lk _ (when _ _) _ => apply lk_when; lk_go
  | |- lk _ (while _ _ _) _ => apply lk_while; lk_go
  | |- lk _ (forever _ _) _ => apply lk_forever; lk_go
  | |- lk _ (pending_interrupt _) _ => apply lk_pending_interrupt
  | |- lk _ (if ?b then _ else _) _ => destruct b; lk_go
  | |- _ => idtac
  end.

Ltac lk_auto :=
  unfold Debug, Debugln, handlePMUIRQ, vTaskDelay, delay, random, axp_getBattVoltage,
    mqttClient_connected, mqttClient_connect, mqttClient_state, mqttClient_publish,
    WiFi_status, WiFi_localIP, digitalRead, digitalWrite, axp_begin, axp_readIRQ,
    axp_isPEKLongtPressIRQ, axp_clearIRQ, axp_shutdown, esp_deep_sleep_start,
    read_pekPressed, write_pekPressed;
  lk_go.

Lemma reconnect_attempt_lk env : lk None (reconnect_attempt env) None.
Proof. unfold reconnect_attempt. lk_auto. Qed.

Lemma reconnectToMQTT_lk env fuel : lk None (reconnectToMQTT env fuel) None.
Proof. unfold reconnectToMQTT. lk_auto. apply reconnect_attempt_lk. Qed.

Lemma wifi_reassociate_lk env fuel : lk None (wifi_reassociate env fuel) None.
Proof. unfold wifi_reassociate. lk_auto. Qed.

Lemma mqtt_pub_lk env : lk None (mqtt_pub env) None.
Proof. unfold mqtt_pub. lk_auto. Qed.

Lemma MQTTTask_iteration_lk env fuel : lk None (MQTTTask_iteration env fuel) None.
Proof.
  unfold MQTTTask_iteration. lk_auto.
  - apply reconnectToMQTT_lk.
  - apply wifi_reassociate_lk.
  - apply mqtt_pub_lk.
Qed.

Lemma PEKTask_iteration_lk env : lk None (PEKTask_iteration env) None.
Proof. unfold PEKTask_iteration. lk_auto. Qed.

Lemma lk_run {A} (m : M A) s :
  lk None m None -> serial_owner s = None ->
  lock_run None (events m s) = Some None /\ serial_owner (final (m s)) = None.
Proof.
  intros H Hs. destruct (H s Hs) as (d & Hd & Hr).
  unfold events. rewrite (events_since_app _ _ _ Hd).
  destruct (m s); exact Hr.
Qed.

(** C9.  Started with the console mutex free, each task produces a run of
    the mutex automaton: the mutex is taken only when free, while it is held
    nothing happens but the diagnostic write, and it is given back by its
    owner.  The run ends with the mutex free wherever it ends; in particular
    it is free in the state in which the telemetry task enters deep sleep and
    in the state in which the power task issues the power-off command, and
    both of these endings do occur. *)
Theorem C9_console_lock_released (env : Env) (fuel : nat) (s : State) :
  serial_owner s = None ->
  (lock_run None (events (MQTTTask env fuel) s) = Some None
   /\ serial_owner (final (MQTTTask env fuel s)) = None
   /\ forall h s', MQTTTask env fuel s = Stop h s' -> h = DeepSleep /\ serial_owner s' = None)
  /\ (lock_run None (events (PEKTask env fuel) s) = Some None
      /\ serial_owner (final (PEKTask env fuel s)) = None
      /\ forall h s', PEKTask env fuel s = Stop h s' -> h = PowerOff /\ serial_owner s' = None)
  /\ (exists s', MQTTTask healthy 1 s = Stop DeepSleep s')
  /\ (exists s', PEKTask long_press 1 s = Stop PowerOff s').
Proof.
  intros Hs. split; [|split; [|split]].
  - assert (L : lk None (MQTTTask env fuel) None).
    { unfold MQTTTask. apply lk_forever, MQTTTask_iteration_lk. }
    destruct (lk_run _ s L Hs) as [Hr Ho]. split; [exact Hr|]. split; [exact Ho|].
    intros h s' E. rewrite E in Ho. cbn in Ho. split; [|exact Ho].
    unfold MQTTTask in E.
    destruct (forever_iteration_cases env fuel fuel s) as (pre & _ & [A | C]).
    + destruct A as (s1 & _ & _ & _ & E1 & _). congruence.
    + destruct C as (s1 & E1 & _). congruence.
  - assert (L : lk None (PEKTask env fuel) None).
    { unfold PEKTask. apply lk_forever, PEKTask_iteration_lk. }
    destruct (lk_run _ s L Hs) as [Hr Ho]. split; [exact Hr|]. split; [exact Ho|].
    intros h s' E. rewrite E in Ho. cbn in Ho. split; [|exact Ho].
    clear Hr Ho L Hs. unfold PEKTask in E. revert s E.
    induction fuel as [|f IH]; intros s E; cbn [forever] in E; [discriminate|].
    unfold bind in E. rewrite PEKTask_iteration_run in E. cbv zeta in E.
    repeat match type of E with
           | context [if ?b then _ else _] => destruct b
           end;
      first [ injection E as <- _; reflexivity | exact (IH _ E) ].
  - destruct s as [bc led pek own hist].
    unfold MQTTTask, forever, MQTTTask_iteration, reconnectToMQTT, while, mqtt_pub.
    fw_eval.
    cbv beta iota delta [healthy env_wifi_status env_mqtt_connected env_mqtt_publish
      wl_status_eqb negb].
    eexists. reflexivity.
  - destruct s as [bc led pek own hist].
    unfold PEKTask, forever, PEKTask_iteration. fw_eval.
    cbv beta iota delta [long_press env_irq_fires env_longPress].
    eexists. reflexivity.
Qed.

Lemma C9_console_lock_released_witness :
  serial_owner power_on = None
  /\ lock_run None (events (MQTTTask healthy 1) power_on) = Some None
  /\ lock_run None (events (PEKTask long_press 1) power_on) = Some None.
Proof.
  assert (H : serial_owner power_on = None) by reflexivity.
  destruct (C9_console_lock_released healthy 1 power_on H) as ((H1 & _) & _).
  destruct (C9_console_lock_released long_press 1 power_on H) as (_ & (H2 & _) & _).
  split; [exact H|]. split; [exact H1|exact H2].
Defined.

(** ** Digits and numerals *)

Module TextFacts.
Import Text.

Lemma append_assoc (a b c : string) : (a ++ b) ++ c = a ++ (b ++ c).
Proof. induction a as [|x a IH]; cbn; [reflexivity|]. rewrite IH. reflexivity. Qed.

Lemma append_nil_r (a : string) : a ++ "" = a.
Proof. induction a as [|x a IH]; cbn; [reflexivity|]. rewrite IH. reflexivity. Qed.

Lemma length_append (a b : string) :
  String.length (a ++ b) = (String.length a + String.length b)%nat.
Proof. induction a as [|x a IH]; cbn; [reflexivity|]. rewrite IH. reflexivity. Qed.

Lemma all_digits_append (a b : string) :
  all_digits (a ++ b) = all_digits a && all_digits b.
Proof.
  induction a as [|x a IH]; cbn; [reflexivity|].
  rewrite IH, andb_assoc. reflexivity.
Qed.

Lemma is_digit_digit n : is_digit (digit n) = true.
Proof.
  unfold digit. pose proof (Z.mod_pos_bound n 10 ltac:(lia)) as H.
  assert (C : n mod 10 = 0 \/ n mod 10 = 1 \/ n mod 10 = 2 \/ n mod 10 = 3
              \/ n mod 10 = 4 \/ n mod 10 = 5 \/ n mod 10 = 6 \/ n mod 10 = 7
              \/ n mod 10 = 8 \/ n mod 10 = 9) by lia.
  repeat destruct C as [-> | C]; try rewrite C; reflexivity.
Qed.

Lemma dec_fuel_digits fuel n acc :
  all_digits acc = true -> all_digits (dec_fuel fuel n acc) = true.
Proof.
  revert n acc. induction fuel as [|f IH]; intros n acc H; cbn [dec_fuel]; [assumption|].
  assert (H' : all_digits (String (digit n) acc) = true)
    by (cbn [all_digits]; rewrite is_digit_digit, H; reflexivity).
  destruct (n / 10 =? 0); [assumption|]. apply IH. assumption.
Qed.

Lemma dec_fuel_nonempty fuel n acc : acc <> "" -> dec_fuel fuel n acc <> "".
Proof.
  revert n acc. induction fuel as [|f IH]; intros n acc H; cbn [dec_fuel]; [assumption|].
  destruct (n / 10 =? 0); [discriminate|]. apply IH. discriminate.
Qed.

Lemma dec_uint n : Format.uint (dec n).
Proof.
  unfold dec, Format.uint. split.
  - cbn [dec_fuel]. destruct (n / 10 =? 0); [discriminate|].
    apply dec_fuel_nonempty. discriminate.
  - apply dec_fuel_digits. reflexivity.
Qed.

Lemma fixed_digits_digits p n : all_digits (fixed_digits p n) = true.
Proof.
  revert n. induction p as [|p IH]; intros n; cbn [fixed_digits]; [reflexivity|].
  rewrite all_digits_append, IH. cbn [all_digits]. rewrite is_digit_digit. reflexivity.
Qed.

Lemma fixed_digits_length p n : String.length (fixed_digits p n) = p.
Proof.
  revert n. induction p as [|p IH]; intros n; cbn [fixed_digits]; [reflexivity|].
  rewrite length_append, IH. cbn. lia.
Qed.

Lemma uint_length s : Format.uint s -> (1 <= String.length s)%nat.
Proof. intros [H _]. destruct s; [contradiction|cbn; lia]. Qed.

(** The body written by [%.Pf], for [P > 0], is a numeral with [P] decimals. *)
Lemma fixed_body_numeral p x : Format.numeral (S p) (Printf.fixed_body (S p) x).
Proof.
  unfold Printf.fixed_body, Format.numeral.
  eexists (if Qnum x <? 0 then "-" else ""), _, _.
  split; [reflexivity|]. split; [destruct (Qnum x <? 0); auto|].
  split; [apply dec_uint|]. split; [apply fixed_digits_digits|].
  apply fixed_digits_length.
Qed.

Lemma numeral_length p s : Format.numeral p s -> (2 + p <= String.length s)%nat.
Proof.
  intros (sign & ip & fp & -> & _ & Hu & _ & Hl).
  rewrite !length_append. apply uint_length in Hu. cbn. lia.
Qed.

Lemma lpad_small w s : (w <= String.length s)%nat -> lpad w s = s.
Proof.
  intros H. unfold lpad. replace (w - String.length s)%nat with O by lia.
  reflexivity.
Qed.

(** [%4.2f] and [%4.3f] never pad: the shortest body has four characters. *)
Lemma fmt_f_4_2 x : Format.numeral 2 (Printf.fmt_f 4 2 x).
Proof.
  unfold Printf.fmt_f. pose proof (fixed_body_numeral 1 x) as H.
  rewrite lpad_small; [exact H|]. apply numeral_length in H. lia.
Qed.

Lemma fmt_f_4_3 x : Format.numeral 3 (Printf.fmt_f 4 3 x).
Proof.
  unfold Printf.fmt_f. pose proof (fixed_body_numeral 2 x) as H.
  rewrite lpad_small; [exact H|]. apply numeral_length in H. lia.
Qed.

(** [%5.2f] pads a body of four characters with one space. *)
Lemma fmt_f_5_2 x :
  exists pad m,
    Printf.fmt_f 5 2 x = pad ++ m /\ Format.numeral 2 m
    /\ ((pad = " " /\ String.length m = 4%nat) \/ (pad = "" /\ (5 <= String.length m)%nat)).
Proof.
  unfold Printf.fmt_f. pose proof (fixed_body_numeral 1 x) as H.
  pose proof (numeral_length _ _ H) as L.
  destruct (Nat.eq_dec (String.length (Printf.fixed_body 2 x)) 4) as [E | E].
  - exists " ", (Printf.fixed_body 2 x). unfold lpad. rewrite E. cbn [Nat.sub spaces].
    auto.
  - exists "", (Printf.fixed_body 2 x). rewrite lpad_small by lia.
    split; [reflexivity|]. split; [exact H|]. right. split; [reflexivity|lia].
Qed.

End TextFacts.

(** ** The recogniser of the specification's template *)

Module FormatFacts.
Import Text Format TextFacts.

Lemma eat_lit_app l r : eat_lit l (l ++ r) = Some r.
Proof.
  induction l as [|c l IH]; cbn; [reflexivity|].
  rewrite Ascii.eqb_refl. exact IH.
Qed.

Lemma eat_digits_app u r :
  all_digits u = true -> stops r = true -> eat_digits (u ++ r) = r.
Proof.
  intros Hu Hr. induction u as [|c u IH]; cbn in *.
  - destruct r as [|c r]; [reflexivity|]. cbn [stops] in Hr. cbn [eat_digits].
    destruct (is_digit c); [discriminate|reflexivity].
  - apply andb_prop in Hu as [Hc Hu]. rewrite Hc. auto.
Qed.

Lemma eat_uint_app u r :
  uint u -> stops r = true -> eat_uint (u ++ r) = Some r.
Proof.
  intros [Hn Hu] Hr. destruct u as [|c u]; [contradiction|].
  cbn in *. apply andb_prop in Hu as [Hc Hu]. rewrite Hc.
  rewrite eat_digits_app by assumption. reflexivity.
Qed.

Lemma eat_n_digits_app f r :
  all_digits f = true -> eat_n_digits (String.length f) (f ++ r) = Some r.
Proof.
  induction f as [|c f IH]; cbn; [reflexivity|].
  intros H. apply andb_prop in H as [Hc Hf]. rewrite Hc. auto.
Qed.

Lemma digit_not_minus c : is_digit c = true -> Ascii.eqb c "-" = false.
Proof.
  intros H. destruct (Ascii.eqb_spec c "-") as [-> | _]; [discriminate|reflexivity].
Qed.

Lemma eat_sign_app sign ip r :
  sign = "" \/ sign = "-" -> uint ip -> eat_sign (sign ++ ip ++ r) = ip ++ r.
Proof.
  intros [-> | ->] [Hn Hu]; [|reflexivity].
  destruct ip as [|c ip]; [contradiction|]. cbn in *.
  apply andb_prop in Hu as [Hc _]. rewrite (digit_not_minus _ Hc). reflexivity.
Qed.

Lemma eat_numeral_app p t r : numeral p t -> eat_numeral p (t ++ r) = Some r.
Proof.
  intros (sign & ip & fp & -> & Hs & Hu & Hf & <-).
  unfold eat_numeral. rewrite !append_assoc.
  rewrite (eat_sign_app _ _ _ Hs Hu).
  rewrite (eat_uint_app _ _ Hu) by reflexivity.
  cbn [then_]. rewrite eat_lit_app. cbn [then_].
  apply eat_n_digits_app. assumption.
Qed.

Lemma eat_numeral_space p r : eat_numeral p (" " ++ r) = None.
Proof. reflexivity. Qed.

(** The recogniser accepts the payload of the code exactly when the moisture
    is not padded. *)
Lemma spec_format_payload_text u t pad m b :
  uint u -> numeral 2 t -> numeral 2 m -> numeral 3 b ->
  pad = "" \/ pad = " " ->
  spec_format (payload_text u t pad m b) = if String.eqb pad "" then true else false.
Proof.
  intros Hu Ht Hm Hb Hp. unfold spec_format, payload_text.
  change (eat_lit ("{" ++ quoted "bootCnt" ++ ":")
            ("{" ++ quoted "bootCnt" ++ ":" ++ ?x))
    with (eat_lit ("{" ++ quoted "bootCnt" ++ ":")
            (("{" ++ quoted "bootCnt" ++ ":") ++ x)).
  rewrite eat_lit_app. cbn [then_].
  rewrite (eat_uint_app _ _ Hu) by reflexivity. cbn [then_].
  change (eat_lit ("," ++ quoted "soilTemperature" ++ ":")
            ("," ++ quoted "soilTemperature" ++ ":" ++ ?x))
    with (eat_lit ("," ++ quoted "soilTemperature" ++ ":")
            (("," ++ quoted "soilTemperature" ++ ":") ++ x)).
  rewrite eat_lit_app. cbn [then_].
  rewrite (eat_numeral_app _ _ _ Ht). cbn [then_].
  change (eat_lit ("," ++ quoted "soilMoisture" ++ ":")
            ("," ++ quoted "soilMoisture" ++ ":" ++ ?x))
    with (eat_lit ("," ++ quoted "soilMoisture" ++ ":")
            (("," ++ quoted "soilMoisture" ++ ":") ++ x)).
  rewrite eat_lit_app. cbn [then_].
  destruct Hp as [-> | ->].
  - change ("" ++ ?x) with x.
    rewrite (eat_numeral_app _ _ _ Hm). cbn [then_].
    change (eat_lit ("," ++ quoted "batVoltage" ++ ":")
              ("," ++ quoted "batVoltage" ++ ":" ++ ?x))
      with (eat_lit ("," ++ quoted "batVoltage" ++ ":")
              (("," ++ quoted "batVoltage" ++ ":") ++ x)).
    rewrite eat_lit_app. cbn [then_].
    rewrite (eat_numeral_app _ _ _ Hb). cbn [then_]. reflexivity.
  - rewrite eat_numeral_space. reflexivity.
Qed.

(** A text of the template's shape is accepted. *)
Lemma spec_format_sound s : spec_payload s -> spec_format s = true.
Proof.
  intros (u & t & m & b & -> & Hu & Ht & Hm & Hb).
  rewrite spec_format_payload_text; auto.
Qed.

End FormatFacts.

(** ** Samples: ranges and printed digits, checked value by value *)

Lemma zrange_forall (P : Z -> bool) lo hi :
  forallb P (zrange lo hi) = true ->
  forall r, lo <= r < hi -> P r = true.
Proof.
  intros H r Hr. rewrite forallb_forall in H. apply H.
  unfold zrange. apply in_map_iff. exists (Z.to_nat (r - lo)).
  split; [lia|]. apply in_seq. lia.
Qed.

Lemma temperature_range_checked : forallb temperature_in_range (zrange 1000 4500) = true.
Proof. vm_compute. reflexivity. Qed.

Lemma moisture_range_checked : forallb moisture_in_range (zrange 0 10000) = true.
Proof. vm_compute. reflexivity. Qed.

Lemma temperature_text_checked : forallb temperature_text_exact (zrange 1000 4500) = true.
Proof. vm_compute. reflexivity. Qed.

Lemma moisture_text_checked : forallb moisture_text_exact (zrange 0 10000) = true.
Proof. vm_compute. reflexivity. Qed.

Lemma in_range_Q lo hi x :
  Qle_bool lo x && negb (Qle_bool hi x) = true -> (lo <= x < hi)%Q.
Proof.
  intros H. apply andb_prop in H as [H1 H2]. split.
  - apply Qle_bool_iff. assumption.
  - apply Qnot_le_lt. intros Hle. apply Qle_bool_iff in Hle.
    rewrite Hle in H2. discriminate.
Qed.

Lemma temperature_range r : 1000 <= r < 4500 -> (10 <= soil r < 45)%Q.
Proof.
  intros Hr. apply in_range_Q.
  apply (zrange_forall temperature_in_range 1000 4500 temperature_range_checked). exact Hr.
Qed.

Lemma moisture_range r : 0 <= r < 10000 -> (0 <= soil r < 100)%Q.
Proof.
  intros Hr. apply in_range_Q.
  apply (zrange_forall moisture_in_range 0 10000 moisture_range_checked). exact Hr.
Qed.

(** ** Every publish of the telemetry task *)

Lemma iteration_publish env fuel s topic payload ok :
  In (ev_mqtt_publish topic payload ok) (events (MQTTTask_iteration env fuel) s) ->
  topic = mqttTopicPub
  /\ exists r1 r2 mv pre post,
       1000 <= r1 < 4500 /\ 0 <= r2 < 10000
       /\ payload = record (bootCount s) r1 r2 mv
       /\ events (MQTTTask_iteration env fuel) s =
            (pre ++ sampling r1 r2 mv ++ ev_mqtt_publish topic payload ok :: post)%list
       /\ forallb quiet pre = true.
Proof.
  intros Hin. unfold events in *.
  destruct (MQTTTask_iteration_cases env fuel s) as (pre & Hq & [A | [B | C]]).
  - destruct A as (s' & r1 & r2 & mv & E & H1 & H2 & _ & Hh).
    rewrite E in *. cbn [final] in *. rewrite (events_since_app _ _ _ Hh) in *.
    apply in_after_quiet in Hin; [|exact Hq].
    apply in_sleep_tail in Hin as (-> & -> & ->). split; [reflexivity|].
    exists r1, r2, mv, pre. eexists.
    split; [exact H1|]. split; [exact H2|]. split; [reflexivity|].
    split; [reflexivity|exact Hq].
  - destruct B as (s' & r1 & r2 & mv & E & H1 & H2 & _ & Hh).
    rewrite E in *. cbn [final] in *. rewrite (events_since_app _ _ _ Hh) in *.
    apply in_after_quiet in Hin; [|exact Hq].
    apply in_failure_tail in Hin as (-> & -> & ->). split; [reflexivity|].
    exists r1, r2, mv, pre. eexists.
    split; [exact H1|]. split; [exact H2|]. split; [reflexivity|].
    split; [reflexivity|exact Hq].
  - exfalso. destruct C as (_ & _ & Hh).
    rewrite (events_since_app _ _ _ Hh) in Hin.
    exact (quiet_no_publish _ _ _ _ Hq Hin).
Qed.

Lemma record_text bc r1 r2 mv :
  record bc r1 r2 mv =
  "{" ++ quoted "bootCnt" ++ ":" ++ Text.dec bc
  ++ "," ++ quoted "soilTemperature" ++ ":" ++ Printf.fmt_f 4 2 (soil r1)
  ++ "," ++ quoted "soilMoisture" ++ ":" ++ Printf.fmt_f 5 2 (soil r2)
  ++ "," ++ quoted "batVoltage" ++ ":" ++ Printf.fmt_f 4 3 (F32.div mv 1000) ++ "}".
Proof.
  unfold record, dataStr, dataStr_format, soil. cbn [sprintf]. unfold Printf.fmt_lu.
  cbn [append quoted]. reflexivity.
Qed.

Lemma hundredths_numeral r : Format.numeral 2 (hundredths r).
Proof.
  unfold hundredths. exists "", (Text.dec (r / 100)), (Text.fixed_digits 2 (r mod 100)).
  split; [reflexivity|]. split; [auto|]. split; [apply TextFacts.dec_uint|].
  split; [apply TextFacts.fixed_digits_digits|apply TextFacts.fixed_digits_length].
Qed.

Lemma temperature_text r :
  1000 <= r < 4500 -> Printf.fmt_f 4 2 (soil r) = hundredths r.
Proof.
  intros Hr. apply String.eqb_eq.
  apply (zrange_forall temperature_text_exact 1000 4500 temperature_text_checked). exact Hr.
Qed.

Lemma moisture_text r :
  0 <= r < 10000 ->
  Printf.fmt_f 5 2 (soil r) = (if r <? 1000 then " " else "") ++ hundredths r.
Proof.
  intros Hr. apply String.eqb_eq.
  apply (zrange_forall moisture_text_exact 0 10000 moisture_text_checked). exact Hr.
Qed.

(** ** The payload *)

(** C2 (as amended).  Every payload published by the telemetry task is
    [{"bootCnt":U,"soilTemperature":T,"soilMoisture":PM,"batVoltage":B}] in
    this order, where [U] is the boot counter in decimal, [T] and [M] are the
    two samples with exactly two decimals, [B] has exactly three decimals,
    and [P] is one space when the moisture is below 10.00 and nothing
    otherwise ([%5.2f] right-aligns in five columns).  So the payload fits
    the template of the specification exactly when the moisture is at least
    10.00.  With boot count 7, samples 25.00 and 50.00 and 4.100 V it is
    [{"bootCnt":7,"soilTemperature":25.00,"soilMoisture":50.00,"batVoltage":4.100}]. *)
Theorem C2_payload_format (env : Env) (fuel : nat) (s : State)
    (topic payload : string) (ok : bool) :
  In (ev_mqtt_publish topic payload ok) (events (MQTTTask_iteration env fuel) s) ->
  (exists r1 r2 b,
      1000 <= r1 < 4500 /\ 0 <= r2 < 10000
      /\ payload = Format.payload_text (Text.dec (bootCount s)) (hundredths r1)
                     (if r2 <? 1000 then " " else "") (hundredths r2) b
      /\ Format.uint (Text.dec (bootCount s))
      /\ Format.numeral 2 (hundredths r1)
      /\ Format.numeral 2 (hundredths r2)
      /\ Format.numeral 3 b
      /\ Format.spec_format payload = (1000 <=? r2))
  /\ In (ev_mqtt_publish mqttTopicPub
           ("{" ++ quoted "bootCnt" ++ ":7," ++ quoted "soilTemperature" ++ ":25.00,"
            ++ quoted "soilMoisture" ++ ":50.00," ++ quoted "batVoltage" ++ ":4.100}")
           true)
        (events (MQTTTask_iteration scenario 1) (with_bootCount 7)).
Proof.
  intros Hin. split; [|vm_compute; tauto].
  destruct (iteration_publish _ _ _ _ _ _ Hin)
    as (_ & r1 & r2 & mv & pre & post & H1 & H2 & -> & _).
  exists r1, r2, (Printf.fmt_f 4 3 (F32.div mv 1000)).
  split; [exact H1|]. split; [exact H2|].
  assert (E : record (bootCount s) r1 r2 mv =
              Format.payload_text (Text.dec (bootCount s)) (hundredths r1)
                (if r2 <? 1000 then " " else "") (hundredths r2)
                (Printf.fmt_f 4 3 (F32.div mv 1000))).
  { rewrite record_text, (temperature_text r1 H1), (moisture_text r2 H2).
    unfold Format.payload_text. rewrite !TextFacts.append_assoc. reflexivity. }
  split; [exact E|].
  split; [apply TextFacts.dec_uint|]. split; [apply hundredths_numeral|].
  split; [apply hundredths_numeral|]. split; [apply TextFacts.fmt_f_4_3|].
  rewrite E, FormatFacts.spec_format_payload_text;
    auto using TextFacts.dec_uint, hundredths_numeral, TextFacts.fmt_f_4_3.
  - destruct (Z.ltb_spec r2 1000), (Z.leb_spec 1000 r2); try lia; reflexivity.
  - destruct (r2 <? 1000); auto.
Qed.

Lemma C2_payload_format_witness :
  In (ev_mqtt_publish mqttTopicPub (record 7 2500 5000 4100) true)
     (events (MQTTTask_iteration scenario 1) (with_bootCount 7))
  /\ exists r1 r2 b,
       record 7 2500 5000 4100 =
       Format.payload_text (Text.dec 7) (hundredths r1)
         (if r2 <? 1000 then " " else "") (hundredths r2) b
       /\ Format.spec_format (record 7 2500 5000 4100) = (1000 <=? r2).
Proof.
  assert (H : In (ev_mqtt_publish mqttTopicPub (record 7 2500 5000 4100) true)
                 (events (MQTTTask_iteration scenario 1) (with_bootCount 7)))
    by (vm_compute; tauto).
  split; [exact H|].
  destruct (proj1 (C2_payload_format scenario 1 (with_bootCount 7) _ _ _ H))
    as (r1 & r2 & b & _ & _ & E & _ & _ & _ & _ & F).
  exists r1, r2, b. split; [exact E|exact F].
Defined.

(** With a moisture of 5.00 the payload has a space after ["soilMoisture":]
    and is not of the template's shape. *)
Lemma C2_counterexample :
  In (ev_mqtt_publish mqttTopicPub
        ("{" ++ quoted "bootCnt" ++ ":7," ++ quoted "soilTemperature" ++ ":25.00,"
         ++ quoted "soilMoisture" ++ ": 5.00," ++ quoted "batVoltage" ++ ":4.100}")
        true)
     (events (MQTTTask_iteration dry 1) (with_bootCount 7))
  /\ ~ Format.spec_payload
         ("{" ++ quoted "bootCnt" ++ ":7," ++ quoted "soilTemperature" ++ ":25.00,"
          ++ quoted "soilMoisture" ++ ": 5.00," ++ quoted "batVoltage" ++ ":4.100}").
Proof.
  split; [vm_compute; tauto|].
  intros H. apply FormatFacts.spec_format_sound in H. vm_compute in H. discriminate.
Qed.

(** C10.  Before every publish of the telemetry task come exactly three
    samplings: [random(1000, 4500)], [random(0, 10000)] and
    [axp.getBattVoltage()].  The temperature and the moisture of the record
    are the two random integers divided by [100.0f], so they lie in
    [10, 45) and [0, 100); the battery voltage is the reading of the
    power-management chip divided by [1000.0f].  No other call supplies a
    value of the record. *)
Theorem C10_samples (env : Env) (fuel : nat) (s : State)
    (topic payload : string) (ok : bool) :
  In (ev_mqtt_publish topic payload ok) (events (MQTTTask_iteration env fuel) s) ->
  exists r1 r2 mv pre post,
    events (MQTTTask_iteration env fuel) s =
      (pre ++ [ev_random 1000 4500 r1; ev_random 0 10000 r2; ev_axp_getBattVoltage mv;
               ev_mqtt_publish topic payload ok] ++ post)%list
    /\ forallb quiet pre = true
    /\ payload = dataStr (bootCount s) (F32.div (F32.of_Z r1) 100)
                   (F32.div (F32.of_Z r2) 100) (F32.div mv 1000)
    /\ (10 <= F32.div (F32.of_Z r1) 100 < 45)%Q
    /\ (0 <= F32.div (F32.of_Z r2) 100 < 100)%Q.
Proof.
  intros Hin.
  destruct (iteration_publish _ _ _ _ _ _ Hin)
    as (_ & r1 & r2 & mv & pre & post & H1 & H2 & Hp & He & Hq).
  exists r1, r2, mv, pre, post. split; [exact He|]. split; [exact Hq|].
  split; [exact Hp|]. split.
  - exact (temperature_range r1 H1).
  - exact (moisture_range r2 H2).
Qed.

Lemma C10_samples_witness :
  In (ev_mqtt_publish mqttTopicPub (record 7 2500 5000 4100) true)
     (events (MQTTTask_iteration scenario 1) (with_bootCount 7))
  /\ exists r1 r2 mv,
       record 7 2500 5000 4100 =
       dataStr 7 (F32.div (F32.of_Z r1) 100) (F32.div (F32.of_Z r2) 100) (F32.div mv 1000).
Proof.
  assert (H : In (ev_mqtt_publish mqttTopicPub (record 7 2500 5000 4100) true)
                 (events (MQTTTask_iteration scenario 1) (with_bootCount 7)))
    by (vm_compute; tauto).
  split; [exact H|].
  destruct (C10_samples scenario 1 (with_bootCount 7) _ _ _ H)
    as (r1 & r2 & mv & _ & _ & _ & _ & Hp & _).
  exists r1, r2, mv. exact Hp.
Defined.


(** * Further properties of the code *)

(** ** Start-up *)

Ltac split_binds :=
  unfold bind;
  repeat match goal with
         | |- context [match ?x with Done _ _ => _ | Stop _ _ => _ | OutOfFuel _ => _ end] =>
             destruct x; try reflexivity
         end.

Lemma setup_split env fuel s :
  setup env fuel s =
  bind (setup_init env)
       (fun _ => bind (while fuel (not_associated env) (setup_wait env))
                      (fun _ => setup_services env)) s.
Proof. unfold setup, setup_init, setup_services, not_associated, setup_wait. split_binds. Qed.

Lemma setup_init_frame env : frame only_hang boot_event (setup_init env).
Proof. unfold setup_init. frame_auto. Qed.

Lemma not_associated_frame env : frame no_halt boot_event (not_associated env).
Proof. unfold not_associated. frame_auto. Qed.

Lemma setup_wait_frame env : frame only_power_off boot_event (setup_wait env).
Proof. unfold setup_wait. frame_auto. Qed.

(** A loop that stops was stopped by its body, in a state reached through
    events of the loop. *)
Lemma while_stop hs p fuel cond body :
  frame no_halt p cond -> frame hs p body ->
  forall s h s',
    while fuel cond body s = Stop h s' ->
    exists s1 d,
      history s1 = (history s ++ d)%list /\ forallb p d = true
      /\ bootCount s1 = bootCount s
      /\ body s1 = Stop h s'.
Proof.
  intros Hc Hb. induction fuel as [|f IH]; intros s h s'; cbn [while]; unfold bind;
    destruct (Hc s) as (Hcb & (d & Hd & Hp) & Hch);
    destruct (cond s) as [[|] s0 | h0 s0 | s0]; cbn in Hcb, Hd; try discriminate.
  - specialize (Hch _ _ eq_refl). discriminate.
  - destruct (Hb s0) as (Hbb & (d' & Hd' & Hp') & _).
    destruct (body s0) as [[] s2 | h2 s2 | s2] eqn:E; cbn in Hbb, Hd'; try discriminate.
    + intros Hw. destruct (IH _ _ _ Hw) as (s1 & d1 & H1 & Hp1 & Hb1 & E1).
      exists s1, (d ++ d' ++ d1)%list.
      split; [rewrite H1, Hd', Hd, <- !app_assoc; reflexivity|].
      split; [rewrite !forallb_app, Hp, Hp', Hp1; reflexivity|].
      split; [congruence|exact E1].
    + intros [= <- <-]. exists s0, d. repeat split; assumption.
  - specialize (Hch _ _ eq_refl). discriminate.
Qed.

(** A loop that returns saw its test fail, in a state reached through events
    of the loop. *)
Lemma while_done hs p fuel cond body :
  frame no_halt p cond -> frame hs p body ->
  forall s s',
    while fuel cond body s = Done tt s' ->
    exists s1 d,
      history s1 = (history s ++ d)%list /\ forallb p d = true
      /\ bootCount s1 = bootCount s
      /\ cond s1 = Done false s'.
Proof.
  intros Hc Hb. induction fuel as [|f IH]; intros s s'; cbn [while]; unfold bind;
    destruct (Hc s) as (Hcb & (d & Hd & Hp) & Hch);
    destruct (cond s) as [[|] s0 | h0 s0 | s0] eqn:Ec; cbn in Hcb, Hd;
    try discriminate.
  - intros [= <-]. exists s, []. rewrite app_nil_r. repeat split. exact Ec.
  - destruct (Hb s0) as (Hbb & (d' & Hd' & Hp') & _).
    destruct (body s0) as [[] s2 | h2 s2 | s2] eqn:E; cbn in Hbb, Hd'; try discriminate.
    intros Hw. destruct (IH _ _ Hw) as (s1 & d1 & H1 & Hp1 & Hb1 & E1).
    exists s1, (d ++ d' ++ d1)%list.
    split; [rewrite H1, Hd', Hd, <- !app_assoc; reflexivity|].
    split; [rewrite !forallb_app, Hp, Hp', Hp1; reflexivity|].
    split; [congruence|exact E1].
  - intros [= <-]. exists s, []. rewrite app_nil_r. repeat split. exact Ec.
Qed.

Lemma setup_services_run env s :
  exists ip,
    setup_services env s =
    Done tt {| bootCount := bootCount s; ledState := ledState s;
               pekPressed := pekPressed s; serial_owner := serial_owner s;
               history := (history s ++ services_events ip (ledState s)
                             ++ rtos_objects)%list |}.
Proof.
  destruct s as [bc led pek own hist].
  unfold setup_services, setupOTA, services_events, rtos_objects. fw_eval.
  eexists. destruct led; cbv iota; norm_hist; reflexivity.
Qed.

Lemma services_events_boot ip l : forallb boot_event (services_events ip l) = true.
Proof. destruct l; reflexivity. Qed.

Lemma not_associated_false env s s' :
  not_associated env s = Done false s' ->
  s' = log (ev_WiFi_status WL_CONNECTED) s.
Proof.
  unfold not_associated, bind, WiFi_status, call, ret.
  destruct (env_wifi_status env (history s)); cbn; intros [= <-]; try discriminate.
  reflexivity.
Qed.

(** The power button during the wait for the association. *)
Lemma setup_wait_stop env s h s' :
  setup_wait env s = Stop h s' ->
  h = PowerOff
  /\ bootCount s' = bootCount s
  /\ history s' =
       (history s ++ [ ev_delay 500; ev_Serial_print ".";
                       ev_digitalWrite LED_PIN (negb (ledState s));
                       ev_digitalRead PMU_IRQ_PIN false; ev_axp_readIRQ;
                       ev_axp_isPEKLongtPressIRQ true;
                       ev_Serial_println "Long press detected: Shutting down...";
                       ev_delay 100; ev_axp_shutdown ])%list.
Proof.
  destruct s as [bc led pek own hist]. unfold setup_wait. fw_eval.
  destruct (env_irq_pin env _); cbv iota; [discriminate|].
  destruct (env_longPress env _); cbv iota; [|discriminate].
  intros [= <- <-]. cbn [bootCount history ledState]. norm_hist. auto.
Qed.

(** X1.  A start-up that returns ends with the creation of the mutex, of the
    telemetry task (stack 10000, priority 1, core 1) and of the power task
    (stack 5000, priority 1, core 0), in this order.  They come after
    [WiFi.status()] answered [WL_CONNECTED]; nothing before them uses the
    mutex, creates a task, samples, publishes or sleeps, and the boot counter
    is as it was. *)
Theorem setup_creates_tasks_last (env : Env) (fuel : nat) (s s' : State) :
  setup env fuel s = Done tt s' ->
  exists pre mid,
    events (setup env fuel) s =
      (pre ++ [ev_WiFi_status WL_CONNECTED] ++ mid
         ++ [ ev_xSemaphoreCreateMutex;
              ev_xTaskCreatePinnedToCore TelemetryTask 10000 1 1;
              ev_xTaskCreatePinnedToCore PowerTask 5000 1 0 ])%list
    /\ forallb boot_event pre = true
    /\ forallb boot_event mid = true
    /\ bootCount s' = bootCount s.
Proof.
  intros E. unfold events. rewrite E. cbn [final].
  rewrite setup_split in E. unfold bind in E.
  destruct (setup_init_frame env s) as (Hb0 & (d0 & Hd0 & Hp0) & _).
  destruct (setup_init env s) as [[] s0 | h0 s0 | s0]; cbn in Hb0, Hd0; try discriminate.
  destruct (while fuel (not_associated env) (setup_wait env) s0)
    as [[] s1 | h1 s1 | s1] eqn:W; try discriminate.
  destruct (while_done _ _ _ _ _ (not_associated_frame env) (setup_wait_frame env)
              _ _ W) as (s2 & d2 & Hd2 & Hp2 & Hb2 & C).
  apply not_associated_false in C. subst s1.
  destruct (setup_services_run env (log (ev_WiFi_status WL_CONNECTED) s2)) as (ip & R).
  rewrite R in E. injection E as <-. cbn [bootCount history log ledState].
  pose proof (services_events_boot ip (ledState s2)) as Hsv.
  set (sv := services_events ip (ledState s2)) in *.
  exists (d0 ++ d2)%list, sv.
  split.
  - apply events_since_app. cbn [history log ledState]. rewrite Hd2, Hd0.
    subst sv. unfold services_events, rtos_objects. norm_hist. reflexivity.
  - split; [rewrite forallb_app, Hp0, Hp2; reflexivity|].
    split; [exact Hsv|congruence].
Qed.

Lemma setup_creates_tasks_last_witness :
  exists s',
    setup healthy 1 power_on = Done tt s' /\ bootCount s' = 1.
Proof.
  destruct (setup healthy 1 power_on) as [[] s' | h s' | s'] eqn:E.
  - exists s'. split; [reflexivity|].
    destruct (setup_creates_tasks_last healthy 1 power_on s' E) as (_ & _ & _ & _ & _ & H).
    exact H.
  - vm_compute in E. discriminate.
  - vm_compute in E. discriminate.
Defined.

(** X2.  A start-up that ends in power-off does so from the inlined check of
    the power button: the interrupt line was read low, the power controller
    reported a long press, the message was printed, and after 100 ms the
    power-off command was issued.  Up to then no mutex and no task was
    created (the message is printed without the mutex), nothing was sampled
    or published, and the boot counter is unchanged. *)
Theorem setup_long_press_powers_off (env : Env) (fuel : nat) (s s' : State) :
  setup env fuel s = Stop PowerOff s' ->
  exists pre,
    events (setup env fuel) s =
      (pre ++ [ ev_digitalRead PMU_IRQ_PIN false; ev_axp_readIRQ;
                ev_axp_isPEKLongtPressIRQ true;
                ev_Serial_println "Long press detected: Shutting down...";
                ev_delay 100; ev_axp_shutdown ])%list
    /\ forallb boot_event (events (setup env fuel) s) = true
    /\ bootCount s' = bootCount s.
Proof.
  intros E. unfold events. rewrite E. cbn [final].
  rewrite setup_split in E. unfold bind in E.
  destruct (setup_init_frame env s) as (Hb0 & (d0 & Hd0 & Hp0) & Hh0).
  destruct (setup_init env s) as [[] s0 | h0 s0 | s0]; cbn in Hb0, Hd0.
  - destruct (while fuel (not_associated env) (setup_wait env) s0)
      as [[] s1 | h1 s1 | s1] eqn:W.
    + destruct (setup_services_run env s1) as (ip & R). rewrite R in E. discriminate.
    + injection E as -> ->.
      destruct (while_stop _ _ _ _ _ (not_associated_frame env) (setup_wait_frame env)
                  _ _ _ W) as (s2 & d2 & Hd2 & Hp2 & Hb2 & B).
      apply setup_wait_stop in B as (_ & Hb & Hh).
      assert (Ev : events_since s s' =
                   ((d0 ++ d2 ++ [ev_delay 500; ev_Serial_print ".";
                                  ev_digitalWrite LED_PIN (negb (ledState s2))])
                      ++ [ ev_digitalRead PMU_IRQ_PIN false; ev_axp_readIRQ;
                           ev_axp_isPEKLongtPressIRQ true;
                           ev_Serial_println "Long press detected: Shutting down...";
                           ev_delay 100; ev_axp_shutdown ])%list).
      { apply events_since_app. rewrite Hh, Hd2, Hd0, <- !app_assoc. reflexivity. }
      rewrite Ev. eexists. split; [reflexivity|]. split; [|congruence].
      rewrite !forallb_app, Hp0, Hp2. reflexivity.
    + discriminate.
  - injection E as -> ->. specialize (Hh0 _ _ eq_refl). discriminate.
  - discriminate.
Qed.

Lemma setup_long_press_powers_off_witness :
  exists s', setup boot_press 1 power_on = Stop PowerOff s' /\ bootCount s' = 1.
Proof.
  destruct (setup boot_press 1 power_on) as [a s' | [| |] s' | s'] eqn:E;
    try (vm_compute in E; discriminate).
  exists s'. split; [reflexivity|].
  destruct (setup_long_press_powers_off boot_press 1 power_on s' E) as (_ & _ & _ & H).
  exact H.
Defined.

(** ** Association to Wi-Fi inside the telemetry task *)

Lemma wifi_reassociate_split env fuel s :
  wifi_reassociate env fuel s =
  bind wifi_begin
       (fun _ => bind (while fuel (not_associated env) wifi_wait)
                      (fun _ => wifi_report env)) s.
Proof.
  unfold wifi_reassociate, wifi_begin, wifi_wait, wifi_report, not_associated.
  split_binds.
Qed.

Lemma wifi_begin_run s :
  wifi_begin s =
  Done tt {| bootCount := bootCount s; ledState := ledState s;
             pekPressed := pekPressed s; serial_owner := None;
             history := (history s ++ wifi_begin_events)%list |}.
Proof.
  destruct s as [bc led pek own hist]. unfold wifi_begin, wifi_begin_events. fw_eval.
  norm_hist. reflexivity.
Qed.

Lemma wifi_wait_run s :
  wifi_wait s =
  Done tt {| bootCount := bootCount s; ledState := negb (ledState s);
             pekPressed := pekPressed s; serial_owner := None;
             history := (history s
                           ++ [ ev_vTaskDelay 500; ev_xSemaphoreTake TelemetryTask;
                                ev_Serial_print "."; ev_xSemaphoreGive TelemetryTask;
                                ev_digitalWrite LED_PIN (negb (ledState s)) ])%list |}.
Proof.
  destruct s as [bc led pek own hist]. unfold wifi_wait. fw_eval.
  norm_hist. reflexivity.
Qed.

Lemma wifi_report_run env s :
  exists ip,
    wifi_report env s =
    Done tt {| bootCount := bootCount s; ledState := ledState s;
               pekPressed := pekPressed s; serial_owner := None;
               history := (history s ++ wifi_report_events ip (ledState s))%list |}.
Proof.
  destruct s as [bc led pek own hist]. unfold wifi_report, wifi_report_events. fw_eval.
  eexists. destruct led; cbv iota; norm_hist; reflexivity.
Qed.

Lemma not_associated_run env s :
  not_associated env s =
  Done (negb (associated (env_wifi_status env (history s))))
       (log (ev_WiFi_status (env_wifi_status env (history s))) s).
Proof. reflexivity. Qed.

Lemma associated_true st : associated st = true -> st = WL_CONNECTED.
Proof. destruct st; cbn; intros H; try discriminate H; reflexivity. Qed.

Lemma xorb_odd_succ l n : xorb (negb l) (Nat.odd n) = xorb l (Nat.odd (S n)).
Proof.
  rewrite Nat.odd_succ, <- Nat.negb_odd. destruct l, (Nat.odd n); reflexivity.
Qed.

(** The waiting loop, round by round. *)
Lemma wifi_wait_loop env fuel s :
  exists sts,
    forallb (fun st => negb (associated st)) sts = true
    /\ ((exists s',
           while fuel (not_associated env) wifi_wait s = Done tt s'
           /\ (List.length sts <= fuel)%nat
           /\ bootCount s' = bootCount s
           /\ ledState s' = xorb (ledState s) (Nat.odd (List.length sts))
           /\ history s' = (history s ++ wifi_waits sts (ledState s)
                              ++ [ev_WiFi_status WL_CONNECTED])%list)
        \/ (exists s' last,
              while fuel (not_associated env) wifi_wait s = OutOfFuel s'
              /\ List.length sts = fuel
              /\ associated last = false
              /\ history s' = (history s ++ wifi_waits sts (ledState s)
                                 ++ [ev_WiFi_status last])%list)).
Proof.
  revert s. induction fuel as [|f IH]; intros s; cbn [while]; unfold bind;
    rewrite not_associated_run;
    destruct (associated (env_wifi_status env (history s))) eqn:A; cbn [negb].
  - exists []. split; [reflexivity|]. left. eexists. split; [reflexivity|].
    apply associated_true in A. rewrite A. cbn. rewrite xorb_false_r. auto using Nat.le_0_l.
  - exists []. split; [reflexivity|]. right. eexists. eexists.
    split; [reflexivity|]. split; [reflexivity|]. split; [exact A|reflexivity].
  - exists []. split; [reflexivity|]. left. eexists. split; [reflexivity|].
    apply associated_true in A. rewrite A. cbn. rewrite xorb_false_r. auto using Nat.le_0_l.
  - rewrite wifi_wait_run.
    set (st := env_wifi_status env (history s)) in *.
    set (s2 := {| bootCount := _ |}).
    destruct (IH s2) as (sts & Hs & [D | O]).
    + destruct D as (s' & E & Hl & Hb & Hled & Hh).
      exists (st :: sts). split; [cbn; rewrite A, Hs; reflexivity|]. left.
      exists s'. split; [exact E|]. split; [cbn; lia|]. split; [exact Hb|].
      split.
      * rewrite Hled. subst s2. cbn [ledState log List.length]. apply xorb_odd_succ.
      * rewrite Hh. subst s2. cbn [history ledState log wifi_waits].
        norm_hist. reflexivity.
    + destruct O as (s' & last & E & Hl & Ha & Hh).
      exists (st :: sts). split; [cbn; rewrite A, Hs; reflexivity|]. right.
      exists s', last. split; [exact E|]. split; [cbn; lia|]. split; [exact Ha|].
      rewrite Hh. subst s2. cbn [history ledState log wifi_waits].
      norm_hist. reflexivity.
Qed.

(** X3.  A run of the task's Wi-Fi association that returns is: the
    announcement under the console lock and the restart of the association;
    then one wait of 500 ms for each [WiFi.status()] that was not
    [WL_CONNECTED], each with a dot printed under the lock and a toggle of
    the LED; then the status [WL_CONNECTED] and the report of the address.
    The LED variable has been toggled once per wait and is not reset when
    the LED is switched off at the end; the boot counter is unchanged. *)
Theorem wifi_reassociate_rounds (env : Env) (fuel : nat) (s s' : State) :
  wifi_reassociate env fuel s = Done tt s' ->
  exists sts ip,
    events (wifi_reassociate env fuel) s =
      (wifi_begin_events ++ wifi_waits sts (ledState s)
         ++ [ev_WiFi_status WL_CONNECTED] ++ wifi_report_events ip (ledState s'))%list
    /\ forallb (fun st => negb (associated st)) sts = true
    /\ (List.length sts <= fuel)%nat
    /\ ledState s' = xorb (ledState s) (Nat.odd (List.length sts))
    /\ bootCount s' = bootCount s
    /\ serial_owner s' = None.
Proof.
  intros E. unfold events. rewrite E. cbn [final].
  rewrite wifi_reassociate_split in E. unfold bind in E.
  rewrite wifi_begin_run in E.
  set (s0 := {| bootCount := _ |}) in E.
  destruct (wifi_wait_loop env fuel s0) as (sts & Hs & [D | O]).
  - destruct D as (s1 & W & Hl & Hb & Hled & Hh). rewrite W in E.
    destruct (wifi_report_run env s1) as (ip & R). rewrite R in E.
    injection E as <-. cbn [bootCount ledState serial_owner history].
    exists sts, ip. split.
    + apply events_since_app. cbn [history]. rewrite Hh. subst s0.
      cbn [history ledState]. norm_hist. reflexivity.
    + split; [exact Hs|]. split; [exact Hl|]. split; [exact Hled|].
      split; [exact Hb|reflexivity].
  - destruct O as (s1 & last & W & _). rewrite W in E. discriminate.
Qed.

Lemma wifi_reassociate_rounds_witness :
  exists s',
    wifi_reassociate slow_wifi 5 power_on = Done tt s'
    /\ bootCount s' = 1 /\ serial_owner s' = None.
Proof.
  destruct (wifi_reassociate slow_wifi 5 power_on) as [[] s' | h s' | s'] eqn:E;
    try (vm_compute in E; discriminate).
  exists s'. split; [reflexivity|].
  destruct (wifi_reassociate_rounds slow_wifi 5 power_on s' E)
    as (_ & _ & _ & _ & _ & _ & Hb & Ho).
  split; [exact Hb|exact Ho].
Defined.

(** ** The telemetry task over several iterations *)

Lemma rounds_quiet rounds : forallb quiet (flat_map attempt_events rounds) = true.
Proof.
  induction rounds as [|a rounds IH]; [reflexivity|].
  cbn [flat_map]. rewrite forallb_app, IH. destruct a; reflexivity.
Qed.

Lemma iteration_head_done env fuel s st s1 :
  iteration_head env fuel s = Done st s1 ->
  bootCount s1 = bootCount s
  /\ exists pre,
       history s1 = (history s ++ pre ++ [ev_mqtt_connected true; ev_mqtt_loop;
                                          ev_WiFi_status st])%list
       /\ forallb quiet pre = true.
Proof.
  unfold iteration_head, bind, emit, mqttClient_connected, call, WiFi_status.
  cbn [history log].
  destruct (env_mqtt_connected env (history s ++ [ev_OTA_handle])) eqn:C; cbn [negb when].
  - unfold ret. intros [= <- <-]. split; [reflexivity|].
    exists [ev_OTA_handle]. split; [|reflexivity]. cbn [history log]. norm_hist. reflexivity.
  - destruct (reconnectToMQTT_frame env fuel (log (ev_mqtt_connected false) (log ev_OTA_handle s)))
      as (Hb & (d & Hd & Hq) & _).
    destruct (reconnectToMQTT_rounds env fuel (log (ev_mqtt_connected false) (log ev_OTA_handle s)))
      as (rounds & [D | O]).
    + destruct D as (s2 & E & _ & Hh). rewrite E in *. cbn [final] in Hb, Hd.
      intros [= <- <-]. split; [exact Hb|].
      cbn [history log] in *. rewrite Hh.
      pose proof (rounds_quiet rounds) as Hqr.
      exists ([ev_OTA_handle; ev_mqtt_connected false] ++ flat_map attempt_events rounds)%list.
      split; [norm_hist; reflexivity|].
      rewrite forallb_app, Hqr. reflexivity.
    + destruct O as (s2 & E & _). rewrite E. discriminate.
Qed.

(** X4.  The telemetry task samples and publishes only in this position:
    right after [mqttClient.connected()] answered true (at once or at the
    end of a reconnection), [mqttClient.loop()] ran and [WiFi.status()]
    answered [WL_CONNECTED].  The three samplings and the publish follow
    without anything in between, and nothing before them in the iteration is
    a publish, an arming of the wake timer or an entry into deep sleep. *)
Theorem publish_follows_connectivity (env : Env) (fuel : nat) (s : State)
    (topic payload : string) (ok : bool) :
  In (ev_mqtt_publish topic payload ok) (events (MQTTTask_iteration env fuel) s) ->
  exists pre r1 r2 mv post,
    events (MQTTTask_iteration env fuel) s =
      (pre ++ [ ev_mqtt_connected true; ev_mqtt_loop; ev_WiFi_status WL_CONNECTED;
                ev_random 1000 4500 r1; ev_random 0 10000 r2;
                ev_axp_getBattVoltage mv;
                ev_mqtt_publish topic payload ok ] ++ post)%list
    /\ forallb quiet pre = true.
Proof.
  unfold events. rewrite MQTTTask_iteration_split. unfold bind.
  destruct (iteration_head_frame env fuel s) as (_ & _ & Hh).
  destruct (iteration_head env fuel s) as [st s1 | h s1 | s1] eqn:E.
  - destruct (iteration_head_done _ _ _ _ _ E) as (Hb & pre & Hd & Hq).
    destruct (wl_status_eqb st WL_CONNECTED) eqn:A; cbn [negb].
    + apply associated_true in A. subst st.
      rewrite mqtt_pub_run. cbv zeta.
      set (r1 := 1000 + _ mod 3500). set (r2 := 0 + _ mod 10000).
      set (mv := F32.round _).
      set (p := dataStr _ _ _ _).
      destruct (env_mqtt_publish env _ _ _); unfold vTaskDelay, emit;
        cbn [final history log].
      * rewrite (events_since_app s _
          (pre ++ [ev_mqtt_connected true; ev_mqtt_loop; ev_WiFi_status WL_CONNECTED;
                   ev_random 1000 4500 r1; ev_random 0 10000 r2; ev_axp_getBattVoltage mv]
               ++ sleep_tail p))
          by (cbn [history]; rewrite Hd; unfold sleep_tail; norm_hist; reflexivity).
        intros Hin. apply in_app_or in Hin as [Hin | Hin];
          [exfalso; exact (quiet_no_publish _ _ _ _ Hq Hin)|].
        apply in_app_or in Hin as [Hin | Hin]; [exfalso; in_cases Hin|].
        apply in_sleep_tail in Hin as (-> & -> & ->).
        exists pre, r1, r2, mv. eexists. split; [|exact Hq].
        unfold sleep_tail. norm_hist. reflexivity.
      * rewrite (events_since_app s _
          (pre ++ [ev_mqtt_connected true; ev_mqtt_loop; ev_WiFi_status WL_CONNECTED;
                   ev_random 1000 4500 r1; ev_random 0 10000 r2; ev_axp_getBattVoltage mv]
               ++ failure_tail p))
          by (cbn [history log]; rewrite Hd; unfold failure_tail; norm_hist; reflexivity).
        intros Hin. apply in_app_or in Hin as [Hin | Hin];
          [exfalso; exact (quiet_no_publish _ _ _ _ Hq Hin)|].
        apply in_app_or in Hin as [Hin | Hin]; [exfalso; in_cases Hin|].
        apply in_failure_tail in Hin as (-> & -> & ->).
        exists pre, r1, r2, mv. eexists. split; [|exact Hq].
        unfold failure_tail. norm_hist. reflexivity.
    + intros Hin. exfalso.
      destruct (frame_bind no_halt quiet _ (fun _ : unit => vTaskDelay 100)
                  (wifi_reassociate_frame env fuel) ltac:(intro; frame_auto) s1)
        as (_ & (d' & Hd' & Hq') & _).
      unfold bind in Hd'.
      assert (Hall : forallb quiet
                (pre ++ [ev_mqtt_connected true; ev_mqtt_loop; ev_WiFi_status st] ++ d')
              = true) by (rewrite !forallb_app, Hq, Hq'; reflexivity).
      rewrite (events_since_app s _ _ ltac:(rewrite Hd', Hd, <- !app_assoc; reflexivity))
        in Hin.
      exact (quiet_no_publish _ _ _ _ Hall Hin).
  - exfalso. specialize (Hh _ _ eq_refl). discriminate.
  - intros Hin. exfalso. cbn [final] in Hin.
    destruct (iteration_head_frame env fuel s) as (_ & (d & Hd & Hq) & _).
    rewrite E in Hd. cbn [final] in Hd.
    rewrite (events_since_app _ _ _ Hd) in Hin.
    exact (quiet_no_publish _ _ _ _ Hq Hin).
Qed.

Lemma publish_follows_connectivity_witness :
  In (ev_mqtt_publish mqttTopicPub (record 7 2500 5000 4100) true)
     (events (MQTTTask_iteration scenario 1) (with_bootCount 7))
  /\ exists pre post,
       events (MQTTTask_iteration scenario 1) (with_bootCount 7) =
       (pre ++ [ ev_mqtt_connected true; ev_mqtt_loop; ev_WiFi_status WL_CONNECTED ]
            ++ post)%list.
Proof.
  assert (H : In (ev_mqtt_publish mqttTopicPub (record 7 2500 5000 4100) true)
                 (events (MQTTTask_iteration scenario 1) (with_bootCount 7)))
    by (vm_compute; tauto).
  split; [exact H|].
  destruct (publish_follows_connectivity scenario 1 (with_bootCount 7) _ _ _ H)
    as (pre & r1 & r2 & mv & post & E & _).
  exists pre. eexists. rewrite E. reflexivity.
Defined.

Lemma forever_history env fuel n s :
  exists d, history (final (forever n (MQTTTask_iteration env fuel) s))
            = (history s ++ d)%list.
Proof.
  destruct (forever_iteration_cases env fuel n s) as (pre & _ & [A | C]).
  - destruct A as (s' & r1 & r2 & mv & -> & _ & Hh). eexists. exact Hh.
  - destruct C as (s' & -> & _ & Hh). eexists. exact Hh.
Qed.

Lemma in_record_tail topic payload ok pre r1 r2 mv tail bc :
  forallb quiet pre = true ->
  tail = sleep_tail (record bc r1 r2 mv) \/ tail = failure_tail (record bc r1 r2 mv) ->
  In (ev_mqtt_publish topic payload ok) (pre ++ sampling r1 r2 mv ++ tail) ->
  topic = mqttTopicPub /\ payload = record bc r1 r2 mv.
Proof.
  intros Hq Ht Hin. apply in_after_quiet in Hin; [|exact Hq].
  destruct Ht as [-> | ->].
  - apply in_sleep_tail in Hin as (-> & -> & _). auto.
  - apply in_failure_tail in Hin as (-> & -> & _). auto.
Qed.

Lemma forever_publishes env fuel n s topic payload ok :
  In (ev_mqtt_publish topic payload ok)
     (events (forever n (MQTTTask_iteration env fuel)) s) ->
  topic = mqttTopicPub
  /\ exists r1 r2 mv,
       1000 <= r1 < 4500 /\ 0 <= r2 < 10000 /\ payload = record (bootCount s) r1 r2 mv.
Proof.
  revert s. induction n as [|n IH]; intros s; unfold events.
  - cbn [forever final out_of_fuel]. unfold events_since.
    rewrite skipn_all. intros [].
  - cbn [forever]. unfold bind.
    destruct (MQTTTask_iteration_cases env fuel s) as (pre & Hq & [A | [B | C]]).
    + destruct A as (s' & r1 & r2 & mv & -> & H1 & H2 & _ & Hh). cbn [final].
      rewrite (events_since_app _ _ _ Hh). intros Hin.
      apply in_record_tail with (bc := bootCount s) in Hin as [-> ->]; auto.
      split; [reflexivity|]. exists r1, r2, mv. auto.
    + destruct B as (s1 & r1 & r2 & mv & -> & H1 & H2 & Hb & Hh).
      destruct (forever_history env fuel n s1) as (d & Hd).
      rewrite (events_since_app s _
                 ((pre ++ sampling r1 r2 mv ++ failure_tail (record (bootCount s) r1 r2 mv))
                    ++ d))
        by (rewrite Hd, Hh, <- !app_assoc; reflexivity).
      intros Hin. apply in_app_or in Hin as [Hin | Hin].
      * apply in_record_tail with (bc := bootCount s) in Hin as [-> ->]; auto.
        split; [reflexivity|]. exists r1, r2, mv. auto.
      * rewrite <- Hb. apply IH. unfold events.
        rewrite (events_since_app _ _ _ Hd). exact Hin.
    + destruct C as (Hn & Hb & Hh).
      destruct (MQTTTask_iteration env fuel s) as [[] s1 | h s1 | s1]; cbn [final] in *.
      * destruct (forever_history env fuel n s1) as (d & Hd).
        rewrite (events_since_app s _ (pre ++ d))
          by (rewrite Hd, Hh, <- !app_assoc; reflexivity).
        intros Hin. apply in_app_or in Hin as [Hin | Hin];
          [exfalso; exact (quiet_no_publish _ _ _ _ Hq Hin)|].
        rewrite <- Hb. apply IH. unfold events.
        rewrite (events_since_app _ _ _ Hd). exact Hin.
      * exfalso. exact (Hn h s1 eq_refl).
      * rewrite (events_since_app _ _ _ Hh). intros Hin.
        exfalso. exact (quiet_no_publish _ _ _ _ Hq Hin).
Qed.

(** X5.  Within one run of the telemetry task, however many iterations it
    takes, every publish goes to the telemetry topic and carries the boot
    count the run started with: after a refused publish the next iteration
    builds a fresh record (new random samples) with the same [bootCnt]. *)
Theorem retries_carry_the_same_boot_count (env : Env) (fuel : nat) (s : State)
    (topic payload : string) (ok : bool) :
  In (ev_mqtt_publish topic payload ok) (events (MQTTTask env fuel) s) ->
  topic = mqttTopicPub
  /\ exists r1 r2 mv,
       1000 <= r1 < 4500 /\ 0 <= r2 < 10000
       /\ payload = dataStr (bootCount s) (F32.div (F32.of_Z r1) 100)
                      (F32.div (F32.of_Z r2) 100) (F32.div mv 1000).
Proof. unfold MQTTTask. apply forever_publishes. Qed.

Lemma retries_carry_the_same_boot_count_witness :
  List.length (filter publish_failed (events (MQTTTask refusing 3) (with_bootCount 7)))
  = 3%nat
  /\ In (ev_mqtt_publish mqttTopicPub (record 7 2500 1500 4100) false)
        (events (MQTTTask refusing 3) (with_bootCount 7))
  /\ exists r1 r2 mv,
       record 7 2500 1500 4100 =
       dataStr 7 (F32.div (F32.of_Z r1) 100) (F32.div (F32.of_Z r2) 100) (F32.div mv 1000).
Proof.
  assert (H : In (ev_mqtt_publish mqttTopicPub (record 7 2500 1500 4100) false)
                 (events (MQTTTask refusing 3) (with_bootCount 7)))
    by (vm_compute; tauto).
  split; [vm_compute; reflexivity|]. split; [exact H|].
  destruct (retries_carry_the_same_boot_count refusing 3 (with_bootCount 7) _ _ _ H)
    as (_ & r1 & r2 & mv & _ & _ & E).
  exists r1, r2, mv. exact E.
Defined.

(** ** The power task over several iterations *)

Lemma PEKTask_iteration_clear env s :
  pekPressed s = false ->
  (exists s',
      PEKTask_iteration env s = Stop PowerOff s'
      /\ bootCount s' = bootCount s
      /\ history s' =
           (history s ++ [ev_IRQ; ev_pekPressed_read true; ev_pekPressed_write false;
                          ev_axp_readIRQ; ev_axp_isPEKLongtPressIRQ true]
              ++ shutdown_tail)%list)
  \/ (exists s1 d,
        PEKTask_iteration env s = Done tt s1
        /\ pekPressed s1 = false /\ bootCount s1 = bootCount s
        /\ history s1 = (history s ++ d)%list
        /\ filter is_shutdown d = []
        /\ (pek_irq env s = false -> d = idle_poll)).
Proof.
  intros Hp. rewrite PEKTask_iteration_run. cbv zeta. unfold pek_seen. rewrite Hp.
  destruct (pek_irq env s) eqn:I.
  - destruct (pek_long env s).
    + left. eexists. split; [reflexivity|]. cbn [bootCount history]. split; reflexivity.
    + right. eexists. eexists. split; [reflexivity|]. cbn [bootCount history pekPressed].
      repeat split; try reflexivity. discriminate.
  - right. eexists. eexists. split; [reflexivity|]. cbn [bootCount history pekPressed].
    repeat split; reflexivity.
Qed.

Lemma PEKTask_stop env fuel s h s' :
  pekPressed s = false ->
  forever fuel (PEKTask_iteration env) s = Stop h s' ->
  h = PowerOff
  /\ bootCount s' = bootCount s
  /\ exists pre,
       history s' =
         (history s ++ pre
            ++ [ev_IRQ; ev_pekPressed_read true; ev_pekPressed_write false;
                ev_axp_readIRQ; ev_axp_isPEKLongtPressIRQ true] ++ shutdown_tail)%list
       /\ filter is_shutdown pre = [].
Proof.
  revert s. induction fuel as [|f IH]; intros s Hp E; cbn [forever] in *; [discriminate|].
  unfold bind in *.
  destruct (PEKTask_iteration_clear env s Hp) as [S | D].
  - destruct S as (s1 & R & Hb & Hh). rewrite R in *. injection E as <- <-.
    split; [reflexivity|]. split; [exact Hb|]. exists []. split; [exact Hh|reflexivity].
  - destruct D as (s1 & d & R & Hp1 & Hb & Hh & Hs & _). rewrite R in *.
    destruct (IH s1 Hp1 E) as (-> & Hb' & pre & Hh' & Hpre).
    split; [reflexivity|]. split; [congruence|].
    exists (d ++ pre)%list. split; [|rewrite filter_app, Hs, Hpre; reflexivity].
    rewrite Hh', Hh, <- !app_assoc. reflexivity.
Qed.

(** X6.  From a state with the press flag clear, a run of the power task
    that stops does so with the power-off command, in an iteration that
    began with an interrupt and classified it as a long press; that is the
    only [shutdown] of the run, and the boot counter is unchanged. *)
Theorem power_task_stops_only_on_long_press (env : Env) (fuel : nat) (s : State)
    (h : Halt) (s' : State) :
  pekPressed s = false ->
  PEKTask env fuel s = Stop h s' ->
  h = PowerOff
  /\ bootCount s' = bootCount s
  /\ exists pre,
       events (PEKTask env fuel) s =
         (pre ++ [ ev_IRQ; ev_pekPressed_read true; ev_pekPressed_write false;
                   ev_axp_readIRQ; ev_axp_isPEKLongtPressIRQ true;
                   ev_xSemaphoreTake PowerTask;
                   ev_Serial_println "Long press detected: Shutting down...";
                   ev_xSemaphoreGive PowerTask; ev_vTaskDelay 100; ev_axp_shutdown ])%list
       /\ filter is_shutdown pre = [].
Proof.
  intros Hp E. unfold PEKTask in *.
  destruct (PEKTask_stop env fuel s h s' Hp E) as (Hh & Hb & pre & Hhist & Hpre).
  split; [exact Hh|]. split; [exact Hb|]. exists pre. split; [|exact Hpre].
  unfold events. rewrite E. cbn [final]. apply events_since_app.
  rewrite Hhist. unfold shutdown_tail. reflexivity.
Qed.

Lemma power_task_stops_only_on_long_press_witness :
  pekPressed power_on = false
  /\ exists s', PEKTask long_press 3 power_on = Stop PowerOff s' /\ bootCount s' = 1.
Proof.
  split; [reflexivity|].
  destruct (PEKTask long_press 3 power_on) as [a s' | h s' | s'] eqn:E;
    try (vm_compute in E; discriminate).
  destruct (power_task_stops_only_on_long_press long_press 3 power_on h s' eq_refl E)
    as (-> & Hb & _).
  exists s'. split; [reflexivity|exact Hb].
Defined.

(** X7.  While no interrupt arrives, the power task, started with the flag
    clear, only polls: for every number of iterations its events are that
    many times a read of the flag as false followed by a wait of 100 ms.  It
    makes no call to the driver of the power-management chip, takes no lock,
    prints nothing and changes neither the flag nor the boot counter. *)
Theorem power_task_idles_without_interrupt (env : Env) (fuel : nat) (s : State) :
  (forall h, env_irq_fires env h = false) ->
  pekPressed s = false ->
  exists s',
    PEKTask env fuel s = OutOfFuel s'
    /\ events (PEKTask env fuel) s = List.concat (repeat idle_poll fuel)
    /\ existsb pmu_event (events (PEKTask env fuel) s) = false
    /\ bootCount s' = bootCount s /\ pekPressed s' = false
    /\ serial_owner s' = serial_owner s.
Proof.
  intros Hirq Hp.
  assert (H : exists s',
    forever fuel (PEKTask_iteration env) s = OutOfFuel s'
    /\ history s' = (history s ++ List.concat (repeat idle_poll fuel))%list
    /\ bootCount s' = bootCount s /\ pekPressed s' = false
    /\ serial_owner s' = serial_owner s).
  { revert s Hp. induction fuel as [|f IH]; intros s Hp; cbn [forever].
    - exists s. cbn. rewrite app_nil_r. auto.
    - unfold bind. rewrite PEKTask_iteration_run. cbv zeta.
      unfold pek_seen, pek_irq. rewrite Hirq, Hp.
      set (s1 := {| bootCount := _ |}).
      destruct (IH s1 eq_refl) as (s' & E & Hh & Hb & Hp' & Ho).
      exists s'. split; [exact E|]. split; [|auto].
      rewrite Hh. subst s1. cbn [history repeat List.concat app]. unfold idle_poll.
      norm_hist. reflexivity. }
  destruct H as (s' & E & Hh & Hb & Hp' & Ho). unfold PEKTask.
  exists s'. split; [exact E|].
  assert (Ev : events (forever fuel (PEKTask_iteration env)) s
               = List.concat (repeat idle_poll fuel)).
  { unfold events. rewrite E. apply events_since_app. exact Hh. }
  split; [exact Ev|]. split; [|auto]. rewrite Ev. clear.
  induction fuel as [|f IH]; [reflexivity|]. cbn [repeat List.concat].
  rewrite existsb_app, IH. reflexivity.
Qed.

Lemma power_task_idles_without_interrupt_witness :
  (forall h, env_irq_fires healthy h = false)
  /\ pekPressed power_on = false
  /\ exists s', PEKTask healthy 4 power_on = OutOfFuel s' /\ bootCount s' = 1.
Proof.
  assert (H1 : forall h, env_irq_fires healthy h = false) by reflexivity.
  assert (H2 : pekPressed power_on = false) by reflexivity.
  split; [exact H1|]. split; [exact H2|].
  destruct (power_task_idles_without_interrupt healthy 4 power_on H1 H2)
    as (s' & E & _ & _ & Hb & _).
  exists s'. split; [exact E|exact Hb].
Defined.

(** ** The progress callback of the firmware update *)

(** X8.  The progress callback divides by [total / 100]: for an image of
    fewer than 100 bytes the division is by zero and the callback gives no
    text; for any larger image a line is printed. *)
Theorem onProgress_traps_below_100 (progress total : Z) :
  0 <= total < 2 ^ 32 ->
  (onProgress progress total = None <-> total < 100).
Proof.
  intros Ht. unfold onProgress, onProgress_percent.
  destruct (Z.eqb_spec (total / 100) 0) as [E | E].
  - split; [intros _|reflexivity].
    apply Z.div_small_iff in E; lia.
  - split; [discriminate|]. intros Hlt. exfalso. apply E.
    apply Z.div_small. lia.
Qed.

Lemma onProgress_traps_below_100_witness :
  onProgress 50 99 = None /\ onProgress 50 100 <> None.
Proof.
  split.
  - apply (onProgress_traps_below_100 50 99); lia.
  - intros H. apply (onProgress_traps_below_100 50 100) in H; lia.
Defined.

(** X9.  For an image of at least 100 bytes and a progress between 0 and the
    total, the percentage printed lies between 0 and 199; at completion it
    is at least 100, and it is exactly 100 when the total is a multiple
    of 100.  (With a total of 150 bytes completion prints 150.) *)
Theorem onProgress_percent_bounds (progress total : Z) :
  100 <= total < 2 ^ 32 ->
  0 <= progress <= total ->
  exists pct,
    onProgress_percent progress total = Some pct
    /\ 0 <= pct <= 199
    /\ (progress = total -> 100 <= pct)
    /\ (total mod 100 = 0 -> pct <= 100)
    /\ onProgress_percent 150 150 = Some 150.
Proof.
  intros Ht Hp. unfold onProgress_percent.
  assert (Hq : 1 <= total / 100) by (apply Z.div_le_lower_bound; lia).
  destruct (Z.eqb_spec (total / 100) 0) as [E | _]; [lia|].
  eexists. split; [reflexivity|].
  pose proof (Z.div_mod total 100 ltac:(lia)) as Hdm.
  pose proof (Z.mod_pos_bound total 100 ltac:(lia)) as Hm.
  set (q := total / 100) in *. set (r := total mod 100) in *.
  split; [split|split; [|split]].
  - apply Z.div_pos; lia.
  - apply Z.lt_succ_r. apply Z.div_lt_upper_bound; [lia|]. nia.
  - intros ->. apply Z.div_le_lower_bound; [lia|]. nia.
  - intros Hr. apply Z.lt_succ_r. apply Z.div_lt_upper_bound; [lia|]. nia.
  - reflexivity.
Qed.

Lemma onProgress_percent_bounds_witness :
  exists pct, onProgress_percent 1024 4096 = Some pct /\ 0 <= pct <= 199.
Proof.
  destruct (onProgress_percent_bounds 1024 4096) as (pct & E & B & _); [lia|lia|].
  exists pct. split; [exact E|exact B].
Defined.

(** ** The length of the payload *)

Import Text.

Lemma dec_fuel_length d : forall fuel n acc,
  0 <= n < 10 ^ Z.of_nat (S d) ->
  (String.length (dec_fuel fuel n acc) <= S d + String.length acc)%nat.
Proof.
  induction d as [|d IH]; intros fuel n acc Hn.
  - destruct fuel as [|f]; cbn [dec_fuel]; [lia|].
    replace (n / 10) with 0 by (symmetry; apply Z.div_small; cbn in Hn; lia).
    cbn. lia.
  - destruct fuel as [|f]; cbn [dec_fuel]; [lia|].
    destruct (n / 10 =? 0); [cbn; lia|].
    assert (Hq : 0 <= n / 10 < 10 ^ Z.of_nat (S d)).
    { split; [apply Z.div_pos; lia|].
      apply Z.div_lt_upper_bound; [lia|].
      replace (Z.of_nat (S (S d))) with (Z.of_nat (S d) + 1) in Hn by lia.
      rewrite Z.pow_add_r in Hn by lia. lia. }
    specialize (IH f (n / 10) (String (digit n) acc) Hq). cbn [String.length] in IH. lia.
Qed.

Lemma dec_length d n :
  0 <= n < 10 ^ Z.of_nat (S d) -> (String.length (dec n) <= S d)%nat.
Proof.
  intros Hn. unfold dec. pose proof (dec_fuel_length d (S (Z.to_nat (Z.log2 n))) n "" Hn) as H.
  cbn [String.length] in H. lia.
Qed.

Lemma rne_div_bounds n d :
  0 <= n -> 0 < d -> n / d <= F32.rne_div n d <= n / d + 1.
Proof.
  intros Hn Hd. unfold F32.rne_div.
  destruct (2 * (n mod d) <? d); [lia|].
  destruct (d <? 2 * (n mod d)); [lia|].
  destruct (Z.even (n / d)); lia.
Qed.

Lemma hundredths_length r : 0 <= r < 10000 -> (String.length (hundredths r) <= 5)%nat.
Proof.
  intros Hr. unfold hundredths. rewrite !TextFacts.length_append, TextFacts.fixed_digits_length.
  assert (H : 0 <= r / 100 < 10 ^ Z.of_nat 2).
  { split; [apply Z.div_pos; lia|]. apply Z.div_lt_upper_bound; lia. }
  apply dec_length in H. cbn [String.length]. lia.
Qed.

Lemma hundredths_length_small r : 0 <= r < 1000 -> (String.length (hundredths r) <= 4)%nat.
Proof.
  intros Hr. unfold hundredths. rewrite !TextFacts.length_append, TextFacts.fixed_digits_length.
  assert (H : 0 <= r / 100 < 10 ^ Z.of_nat 1).
  { split; [apply Z.div_pos; lia|]. apply Z.div_lt_upper_bound; lia. }
  apply dec_length in H. cbn [String.length]. lia.
Qed.

(** [%4.3f] of a voltage below 1000 V takes at most 8 characters. *)
Lemma battery_text_length v :
  (0 <= v < 1000)%Q -> (String.length (Printf.fmt_f 4 3 v) <= 8)%nat.
Proof.
  intros [H0 H1]. unfold Printf.fmt_f.
  pose proof (TextFacts.fixed_body_numeral 2 v) as Hn.
  rewrite TextFacts.lpad_small by (apply TextFacts.numeral_length in Hn; lia).
  unfold Printf.fixed_body.
  assert (Hnum : 0 <= Qnum v).
  { unfold Qle in H0. cbn in H0. lia. }
  assert (Hlt : Qnum v < 1000 * Z.pos (Qden v)).
  { unfold Qlt in H1. cbn in H1. lia. }
  replace (Qnum v <? 0) with false by (symmetry; apply Z.ltb_ge; lia).
  rewrite !TextFacts.length_append, TextFacts.fixed_digits_length. cbn [String.length].
  assert (Hip : 0 <= Printf.scaled 3 v / 10 ^ Z.of_nat 3 < 10 ^ Z.of_nat 4).
  { unfold Printf.scaled. rewrite Z.abs_eq by lia.
    pose proof (rne_div_bounds (Qnum v * 10 ^ Z.of_nat 3) (Z.pos (Qden v))
                  ltac:(lia) ltac:(lia)) as [Hlo Hhi].
    assert (Hq : 0 <= Qnum v * 10 ^ Z.of_nat 3 / Z.pos (Qden v) < 1000000).
    { split; [apply Z.div_pos; lia|]. apply Z.div_lt_upper_bound; lia. }
    split; [apply Z.div_pos; lia|]. apply Z.div_lt_upper_bound; lia. }
  apply dec_length in Hip. lia.
Qed.

Lemma record_length bc r1 r2 mv :
  0 <= bc < 2 ^ 32 -> 1000 <= r1 < 4500 -> 0 <= r2 < 10000 ->
  (0 <= F32.div mv 1000 < 1000)%Q ->
  (String.length (record bc r1 r2 mv) <= 89)%nat.
Proof.
  intros Hbc H1 H2 Hv.
  rewrite record_text, (temperature_text r1 H1), (moisture_text r2 H2).
  pose proof (dec_length 9 bc ltac:(cbn; lia)) as Lb.
  pose proof (hundredths_length r1 ltac:(lia)) as L1.
  pose proof (battery_text_length _ Hv) as Lv.
  assert (L2 : (String.length ((if (r2 <? 1000)%Z then " " else "") ++ hundredths r2)
                <= 5)%nat).
  { rewrite TextFacts.length_append. destruct (Z.ltb_spec r2 1000).
    - pose proof (hundredths_length_small r2 ltac:(lia)). cbn [String.length]. lia.
    - pose proof (hundredths_length r2 ltac:(lia)). cbn [String.length]. lia. }
  rewrite !TextFacts.length_append.
  rewrite !TextFacts.length_append in L2.
  cbn [String.length quoted append]. cbn [String.length] in L2.
  lia.
Qed.

(** X10.  The text written into [dataStr] fits the buffer: for a boot
    counter in the range of [uint32_t] and a battery voltage between 0 and
    1000 V, every payload built by the telemetry task has at most 89
    characters, so [sprintf] stays within the 256 bytes of [dataStr]. *)
Theorem payload_fits_the_buffer (env : Env) (fuel : nat) (s : State)
    (topic payload : string) (ok : bool) :
  0 <= bootCount s < 2 ^ 32 ->
  (forall mv, In (ev_axp_getBattVoltage mv) (events (MQTTTask_iteration env fuel) s) ->
              (0 <= F32.div mv 1000 < 1000)%Q) ->
  In (ev_mqtt_publish topic payload ok) (events (MQTTTask_iteration env fuel) s) ->
  (String.length payload <= 89)%nat /\ (String.length payload + 1 <= 256)%nat.
Proof.
  intros Hbc Hv Hin.
  destruct (iteration_publish _ _ _ _ _ _ Hin)
    as (_ & r1 & r2 & mv & pre & post & H1 & H2 & -> & He & _).
  assert (Hmv : (0 <= F32.div mv 1000 < 1000)%Q).
  { apply Hv. rewrite He. apply in_or_app. right. apply in_or_app. left.
    unfold sampling. cbn [In]. auto. }
  pose proof (record_length (bootCount s) r1 r2 mv Hbc H1 H2 Hmv). lia.
Qed.

Lemma payload_fits_the_buffer_witness :
  0 <= bootCount (with_bootCount 4294967295) < 2 ^ 32
  /\ In (ev_mqtt_publish mqttTopicPub (record 4294967295 2500 5000 4100) true)
        (events (MQTTTask_iteration scenario 1) (with_bootCount 4294967295))
  /\ (String.length (record 4294967295 2500 5000 4100) <= 89)%nat.
Proof.
  assert (Hb : 0 <= bootCount (with_bootCount 4294967295) < 2 ^ 32) by (cbn; lia).
  assert (H : In (ev_mqtt_publish mqttTopicPub (record 4294967295 2500 5000 4100) true)
                 (events (MQTTTask_iteration scenario 1) (with_bootCount 4294967295)))
    by (vm_compute; tauto).
  split; [exact Hb|]. split; [exact H|].
  refine (proj1 (payload_fits_the_buffer scenario 1 (with_bootCount 4294967295)
                   _ _ _ Hb _ H)).
  intros mv Hmv. vm_compute in Hmv.
  destruct Hmv as [Hmv | [Hmv | [Hmv | [Hmv | [Hmv | [Hmv | [Hmv | Hmv]]]]]]];
    try discriminate Hmv.
  - injection Hmv as <-. vm_compute. split; [discriminate|reflexivity].
  - destruct Hmv as [Hmv | Hmv]; [discriminate Hmv|].
    repeat (destruct Hmv as [Hmv | Hmv]; [discriminate Hmv|]). destruct Hmv.
Defined.

(** ** Reading a payload back *)

Module ReaderFacts.
Import Text Format Reader TextFacts FormatFacts.

Lemma digit_val_digit n : digit_val (digit n) = n mod 10.
Proof.
  unfold digit_val, digit. pose proof (Z.mod_pos_bound n 10 ltac:(lia)) as H.
  assert (C : n mod 10 = 0 \/ n mod 10 = 1 \/ n mod 10 = 2 \/ n mod 10 = 3
              \/ n mod 10 = 4 \/ n mod 10 = 5 \/ n mod 10 = 6 \/ n mod 10 = 7
              \/ n mod 10 = 8 \/ n mod 10 = 9) by lia.
  repeat destruct C as [-> | C]; try rewrite C; reflexivity.
Qed.

Lemma read_digits_stop v r : stops r = true -> read_digits v r = (v, r).
Proof.
  destruct r as [|c r]; [reflexivity|]. cbn [stops read_digits].
  destruct (is_digit c); [discriminate|reflexivity].
Qed.

Lemma dec_fuel_S f n acc :
  dec_fuel (S f) n acc =
  if n / 10 =? 0 then String (digit n) acc
  else dec_fuel f (n / 10) (String (digit n) acc).
Proof. reflexivity. Qed.

Lemma read_dec_fuel f : forall n acc rest,
  0 <= n < 10 ^ Z.of_nat (S f) ->
  read_digits 0 (dec_fuel (S f) n acc ++ rest) = read_digits n (acc ++ rest).
Proof.
  induction f as [|f IH]; intros n acc rest Hn; rewrite dec_fuel_S.
  - replace (n / 10) with 0 by (symmetry; apply Z.div_small; cbn in Hn; lia).
    cbn [Z.eqb dec_fuel append read_digits]. rewrite is_digit_digit, digit_val_digit.
    f_equal. rewrite Z.mod_small by (cbn in Hn; lia). lia.
  - destruct (Z.eqb_spec (n / 10) 0) as [E | E].
    + cbn [append read_digits]. rewrite is_digit_digit, digit_val_digit.
      f_equal. apply Z.div_small_iff in E; [|lia]. rewrite Z.mod_small by lia. lia.
    + assert (Hq : 0 <= n / 10 < 10 ^ Z.of_nat (S f)).
      { split; [apply Z.div_pos; lia|].
        apply Z.div_lt_upper_bound; [lia|].
        replace (Z.of_nat (S (S f))) with (Z.of_nat (S f) + 1) in Hn by lia.
        rewrite Z.pow_add_r in Hn by lia. lia. }
      rewrite (IH (n / 10) (String (digit n) acc) rest Hq).
      cbn [append read_digits]. rewrite is_digit_digit, digit_val_digit.
      f_equal. pose proof (Z.div_mod n 10 ltac:(lia)). lia.
Qed.

Lemma pow10_log2 n : 0 <= n -> n < 10 ^ Z.of_nat (S (Z.to_nat (Z.log2 n))).
Proof.
  intros Hn. destruct (Z.eq_dec n 0) as [-> | Hz]; [cbn; lia|].
  pose proof (Z.log2_spec n ltac:(lia)) as [_ Hlt].
  pose proof (Z.log2_nonneg n) as Hl.
  replace (Z.of_nat (S (Z.to_nat (Z.log2 n)))) with (Z.succ (Z.log2 n)) by lia.
  eapply Z.lt_le_trans; [exact Hlt|].
  apply Z.pow_le_mono_l. lia.
Qed.

(** Reading the decimal text of [n] gives [n]. *)
Lemma read_dec n rest :
  0 <= n -> stops rest = true -> read_digits 0 (dec n ++ rest) = (n, rest).
Proof.
  intros Hn Hr. unfold dec.
  rewrite (read_dec_fuel _ n "" rest) by (split; [lia|apply pow10_log2; lia]).
  cbn [append]. apply read_digits_stop. exact Hr.
Qed.

Lemma read_hundredths_text r rest :
  0 <= r -> read_hundredths (hundredths r ++ rest) = Some (r, rest).
Proof.
  intros Hr. unfold read_hundredths, hundredths.
  rewrite !append_assoc.
  rewrite read_dec by (try reflexivity; apply Z.div_pos; lia).
  cbn [eat_lit append]. rewrite Ascii.eqb_refl.
  cbn [fixed_digits append]. rewrite !is_digit_digit. cbn [andb].
  rewrite !digit_val_digit. f_equal. f_equal.
  pose proof (Z.div_mod r 100 ltac:(lia)) as H1.
  pose proof (Z.mod_pos_bound r 100 ltac:(lia)) as H2.
  pose proof (Z.div_mod (r mod 100) 10 ltac:(lia)) as H3.
  rewrite (Z.mod_small (r mod 100 / 10) 10)
    by (split; [apply Z.div_pos; lia|apply Z.div_lt_upper_bound; lia]).
  lia.
Qed.

Lemma read_record_payload_text bc r1 r2 b :
  0 <= bc -> 0 <= r1 -> 0 <= r2 ->
  read_record (payload_text (dec bc) (hundredths r1)
                 (if r2 <? 1000 then " " else "") (hundredths r2) b)
  = Some (bc, r1, r2).
Proof.
  intros Hbc H1 H2. unfold read_record, payload_text.
  change (eat_lit ("{" ++ quoted "bootCnt" ++ ":")
            ("{" ++ quoted "bootCnt" ++ ":" ++ ?x))
    with (eat_lit ("{" ++ quoted "bootCnt" ++ ":")
            (("{" ++ quoted "bootCnt" ++ ":") ++ x)).
  rewrite eat_lit_app.
  rewrite read_dec by (try reflexivity; lia).
  change (eat_lit ("," ++ quoted "soilTemperature" ++ ":")
            ("," ++ quoted "soilTemperature" ++ ":" ++ ?x))
    with (eat_lit ("," ++ quoted "soilTemperature" ++ ":")
            (("," ++ quoted "soilTemperature" ++ ":") ++ x)).
  rewrite eat_lit_app.
  rewrite read_hundredths_text by lia.
  change (eat_lit ("," ++ quoted "soilMoisture" ++ ":")
            ("," ++ quoted "soilMoisture" ++ ":" ++ ?x))
    with (eat_lit ("," ++ quoted "soilMoisture" ++ ":")
            (("," ++ quoted "soilMoisture" ++ ":") ++ x)).
  rewrite eat_lit_app.
  assert (S : skip_space ((if r2 <? 1000 then " " else "") ++ hundredths r2 ++
                          "," ++ quoted "batVoltage" ++ ":" ++ b ++ "}")
              = hundredths r2 ++ "," ++ quoted "batVoltage" ++ ":" ++ b ++ "}").
  { destruct (r2 <? 1000); [reflexivity|].
    cbn [append]. unfold hundredths.
    pose proof (dec_uint (r2 / 100)) as [Hne Hd].
    destruct (dec (r2 / 100)) as [|c d]; [contradiction|].
    cbn [append skip_space]. cbn [all_digits] in Hd.
    apply andb_prop in Hd as [Hc _].
    destruct (Ascii.eqb_spec c " ") as [-> | _]; [discriminate|reflexivity]. }
  rewrite S. rewrite read_hundredths_text by lia. reflexivity.
Qed.

End ReaderFacts.

Lemma record_payload_text bc r1 r2 mv :
  1000 <= r1 < 4500 -> 0 <= r2 < 10000 ->
  record bc r1 r2 mv =
  Format.payload_text (Text.dec bc) (hundredths r1)
    (if r2 <? 1000 then " " else "") (hundredths r2)
    (Printf.fmt_f 4 3 (F32.div mv 1000)).
Proof.
  intros H1 H2.
  rewrite record_text, (temperature_text r1 H1), (moisture_text r2 H2).
  unfold Format.payload_text. rewrite !TextFacts.append_assoc. reflexivity.
Qed.

(** X11.  A published payload can be read back: taking the text apart from
    left to right gives the boot count of the state in which the record was
    built and the two integers returned by [random] just before, in
    hundredths; the rounding of [r / 100.0f] to single precision and the
    padding of [%5.2f] lose nothing. *)
Theorem payload_reads_back (env : Env) (fuel : nat) (s : State)
    (topic payload : string) (ok : bool) :
  0 <= bootCount s ->
  In (ev_mqtt_publish topic payload ok) (events (MQTTTask_iteration env fuel) s) ->
  exists r1 r2 mv pre post,
    events (MQTTTask_iteration env fuel) s =
      (pre ++ [ ev_random 1000 4500 r1; ev_random 0 10000 r2;
                ev_axp_getBattVoltage mv; ev_mqtt_publish topic payload ok ]
           ++ post)%list
    /\ Reader.read_record payload = Some (bootCount s, r1, r2).
Proof.
  intros Hbc Hin.
  destruct (iteration_publish _ _ _ _ _ _ Hin)
    as (_ & r1 & r2 & mv & pre & post & H1 & H2 & -> & He & _).
  exists r1, r2, mv, pre, post. split; [exact He|].
  rewrite (record_payload_text _ _ _ _ H1 H2).
  apply ReaderFacts.read_record_payload_text; lia.
Qed.

Lemma payload_reads_back_witness :
  0 <= bootCount (with_bootCount 7)
  /\ In (ev_mqtt_publish mqttTopicPub (record 7 2500 500 4100) true)
        (events (MQTTTask_iteration dry 1) (with_bootCount 7))
  /\ exists r1 r2, Reader.read_record (record 7 2500 500 4100) = Some (7, r1, r2).
Proof.
  assert (Hb : 0 <= bootCount (with_bootCount 7)) by (cbn; lia).
  assert (H : In (ev_mqtt_publish mqttTopicPub (record 7 2500 500 4100) true)
                 (events (MQTTTask_iteration dry 1) (with_bootCount 7)))
    by (vm_compute; tauto).
  split; [exact Hb|]. split; [exact H|].
  destruct (payload_reads_back dry 1 (with_bootCount 7) _ _ _ Hb H)
    as (r1 & r2 & _ & _ & _ & _ & R).
  exists r1, r2. exact R.
Defined.

(** ** The LED at the end of start-up *)

Lemma last_led_app d1 d2 :
  last_led (d1 ++ d2) =
  match last_led d2 with Some b => Some b | None => last_led d1 end.
Proof.
  induction d1 as [|e d1 IH]; cbn [app last_led].
  - destruct (last_led d2); reflexivity.
  - rewrite IH. destruct (last_led d2); reflexivity.
Qed.

(** A loop that returns keeps what its test and its body keep. *)
Lemma while_invariant (I : State -> Prop) fuel cond body :
  (forall s c s', I s -> cond s = Done c s' -> I s') ->
  (forall s s', I s -> body s = Done tt s' -> I s') ->
  forall s s', I s -> while fuel cond body s = Done tt s' -> I s'.
Proof.
  intros Hc Hb. induction fuel as [|f IH]; intros s s' Hi; cbn [while]; unfold bind;
    destruct (cond s) as [[|] s0 | h0 s0 | s0] eqn:Ec; try discriminate.
  - intros [= <-]. eauto.
  - destruct (body s0) as [[] s1 | h1 s1 | s1] eqn:Eb; try discriminate.
    intros W. eapply IH; [|exact W]. eauto.
  - intros [= <-]. eauto.
Qed.

Lemma setup_init_led env s s0 :
  setup_init env s = Done tt s0 -> led_since s s0.
Proof.
  destruct s as [bc led pek own hist]. unfold setup_init, led_since. fw_eval.
  destruct (env_axp_begin env _ =? 0); cbv iota; [|discriminate].
  intros [= <-]. cbn [history ledState]. norm_hist.
  eexists. split; [reflexivity|]. reflexivity.
Qed.

Lemma setup_wait_led env s0 s s' :
  led_since s0 s -> setup_wait env s = Done tt s' -> led_since s0 s'.
Proof.
  intros (d & Hd & _). revert Hd.
  destruct s as [bc led pek own hist]. unfold setup_wait, led_since. fw_eval.
  cbn [history]. intros ->.
  destruct (env_irq_pin env _); cbv iota.
  - intros [= <-]. cbn [history ledState]. norm_hist.
    eexists. split; [reflexivity|]. rewrite last_led_app. reflexivity.
  - destruct (env_longPress env _); cbv iota; [discriminate|].
    intros [= <-]. cbn [history ledState]. norm_hist.
    eexists. split; [reflexivity|]. rewrite last_led_app. reflexivity.
Qed.

Lemma not_associated_led env s0 s c s' :
  led_since s0 s -> not_associated env s = Done c s' -> led_since s0 s'.
Proof.
  unfold led_since. rewrite not_associated_run. intros (d & Hd & Hl) [= _ <-].
  cbn [history log ledState]. rewrite Hd.
  eexists. split; [rewrite <- app_assoc; reflexivity|].
  rewrite last_led_app. cbn [last_led]. exact Hl.
Qed.

Lemma services_led ip l :
  last_led (services_events ip l ++ rtos_objects) = if l then Some false else None.
Proof. destruct l; reflexivity. Qed.

(** X12.  The LED blinks while start-up waits for the association; when
    start-up returns, the last write to the LED pin has level LOW, whatever
    the number of waits and whatever the LED variable was at the start. *)
Theorem setup_leaves_the_led_off (env : Env) (fuel : nat) (s s' : State) :
  setup env fuel s = Done tt s' ->
  last_led (events (setup env fuel) s) = Some false.
Proof.
  intros E. unfold events. rewrite E. cbn [final].
  rewrite setup_split in E. unfold bind in E.
  destruct (setup_init env s) as [[] s0 | h0 s0 | s0] eqn:E0; try discriminate.
  pose proof (setup_init_led _ _ _ E0) as L0.
  destruct (while fuel (not_associated env) (setup_wait env) s0)
    as [[] s1 | h1 s1 | s1] eqn:W; try discriminate.
  assert (L1 : led_since s s1).
  { refine (while_invariant (led_since s) fuel (not_associated env) (setup_wait env)
              _ _ s0 s1 L0 W).
    - intros x c x'. apply not_associated_led.
    - intros x x'. apply setup_wait_led. }
  destruct L1 as (d1 & Hd1 & Hl1).
  destruct (setup_services_run env s1) as (ip & R). rewrite R in E.
  injection E as <-.
  rewrite (events_since_app s _ (d1 ++ services_events ip (ledState s1) ++ rtos_objects))
    by (cbn [history]; rewrite Hd1; symmetry; apply app_assoc).
  rewrite last_led_app, services_led, Hl1.
  destruct (ledState s1); reflexivity.
Qed.

Lemma setup_leaves_the_led_off_witness :
  exists s',
    setup slow_wifi 5 power_on = Done tt s'
    /\ last_led (events (setup slow_wifi 5) power_on) = Some false.
Proof.
  destruct (setup slow_wifi 5 power_on) as [[] s' | h s' | s'] eqn:E;
    try (vm_compute in E; discriminate).
  exists s'. split; [reflexivity|].
  exact (setup_leaves_the_led_off slow_wifi 5 power_on s' E).
Defined.

(** ** Who writes which variable *)

Section KeepsRules.

Context {X : Type} (f : State -> X).
Hypothesis f_log : forall e s, f (log e s) = f s.

Lemma keeps_ret {A} (a : A) : keeps f (ret a).
Proof. intro s. reflexivity. Qed.

Lemma keeps_bind {A B} (m : M A) (k : A -> M B) :
  keeps f m -> (forall a, keeps f (k a)) -> keeps f (bind m k).
Proof.
  intros Hm Hk s. unfold bind. specialize (Hm s).
  destruct (m s) as [a s1 | h s1 | s1]; cbn [final] in *; [|assumption|assumption].
  rewrite (Hk a s1). exact Hm.
Qed.

Lemma keeps_emit e : keeps f (emit e).
Proof. intro s. apply f_log. Qed.

Lemma keeps_call {A} (g : list Event -> A) (ev : A -> Event) : keeps f (call g ev).
Proof. intro s. apply f_log. Qed.

Lemma keeps_get {A} (g : State -> A) : keeps f (get g).
Proof. intro s. reflexivity. Qed.

Lemma keeps_modify (g : State -> State) :
  (forall s, f (g s) = f s) -> keeps f (modify g).
Proof. intros H s. apply H. Qed.

Lemma keeps_stop {A} h : keeps f (@stop A h).
Proof. intro s. reflexivity. Qed.

Lemma keeps_out_of_fuel {A} : keeps f (@out_of_fuel A).
Proof. intro s. reflexivity. Qed.

Lemma keeps_when b m : keeps f m -> keeps f (when b m).
Proof. destruct b; cbn; auto using keeps_ret. Qed.

Lemma keeps_while fuel cond body :
  keeps f cond -> keeps f body -> keeps f (while fuel cond body).
Proof.
  intros Hc Hb. induction fuel as [|n IH]; cbn [while];
    (apply keeps_bind; [assumption|]); intros [|];
    auto using keeps_ret, keeps_out_of_fuel, keeps_bind.
Qed.

Lemma keeps_forever fuel body : keeps f body -> keeps f (forever fuel body).
Proof.
  intros Hb. induction fuel as [|n IH]; cbn [forever];
    auto using keeps_out_of_fuel, keeps_bind.
Qed.

End KeepsRules.

Ltac keeps_step :=
  lazymatch goal with
  | |- keeps _ (bind _ _) => apply keeps_bind; [|intro]
  | |- keeps _ (ret _) => apply keeps_ret
  | |- keeps _ (emit _) => apply keeps_emit; reflexivity
  | |- keeps _ (call _ _) => apply keeps_call; reflexivity
  | |- keeps _ (get _) => apply keeps_get
  | |- keeps _ (modify _) => apply keeps_modify; reflexivity
  | |- keeps _ (stop _) => apply keeps_stop
  | |- keeps _ out_of_fuel => apply keeps_out_of_fuel
  | |- keeps _ (when _ _) => apply keeps_when
  | |- keeps _ (while _ _ _) => apply keeps_while
  | |- keeps _ (forever _ _) => apply keeps_forever
  | |- keeps _ (if ?b then _ else _) => destruct b
  end.

Ltac keeps_auto := autounfold with fw; repeat keeps_step.

Lemma keeps_pending_interrupt {X} (f : State -> X) env :
  (forall e s, f (log e s) = f s) ->
  (forall s, f (set_pekPressed true s) = f s) ->
  keeps f (pending_interrupt env).
Proof.
  intros Hl Hp s. unfold pending_interrupt.
  destruct (env_irq_fires env (history s)); [|reflexivity].
  cbn. rewrite Hp. apply Hl.
Qed.

(** X13.  Each variable has one writer.  The telemetry task and the
    start-up never change the press flag; the power task never changes the
    boot counter nor the LED variable; start-up never changes the boot
    counter.  This holds for every environment and every length of run,
    however the run ends. *)
Theorem single_writer (env : Env) (fuel : nat) (s : State) :
  pekPressed (final (MQTTTask env fuel s)) = pekPressed s
  /\ pekPressed (final (setup env fuel s)) = pekPressed s
  /\ bootCount (final (setup env fuel s)) = bootCount s
  /\ bootCount (final (PEKTask env fuel s)) = bootCount s
  /\ ledState (final (PEKTask env fuel s)) = ledState s.
Proof.
  split; [|split; [|split; [|split]]].
  - assert (K : keeps pekPressed (MQTTTask env fuel)); [|exact (K s)].
    unfold MQTTTask, MQTTTask_iteration, reconnectToMQTT, reconnect_attempt,
      wifi_reassociate, mqtt_pub.
    keeps_auto.
  - assert (K : keeps pekPressed (setup env fuel)); [|exact (K s)].
    unfold setup, setupOTA. keeps_auto.
  - assert (K : keeps bootCount (setup env fuel)); [|exact (K s)].
    unfold setup, setupOTA. keeps_auto.
  - assert (K : keeps bootCount (PEKTask env fuel)); [|exact (K s)].
    unfold PEKTask, PEKTask_iteration. keeps_auto.
    apply keeps_pending_interrupt; reflexivity.
  - assert (K : keeps ledState (PEKTask env fuel)); [|exact (K s)].
    unfold PEKTask, PEKTask_iteration. keeps_auto.
    apply keeps_pending_interrupt; reflexivity.
Qed.
